(** * PoyoLabs factory monitor: a shallow embedding of [app.py]

    The Flask handlers of [app.py] are translated to functions over JSON
    values.  Python exceptions become the [Raise] branch of [result]; the
    calls to the outside world (the upstream telemetry service, the loop-back
    POST, the completion service) are passed in as their outcomes. *)

From Stdlib Require Import ZArith Ascii Bool Lia Sorted.
From Stdlib Require Import Floats.SpecFloat.
From stdpp Require Import gmap strings list fin_maps.

#[local] Set Warnings "-register-all".
#[local] Open Scope Z_scope.

(** ** Exceptions and the error monad *)

Inductive exn_kind :=
| KeyError | TypeError | AttributeError | ValueError
| OverflowError | ZeroDivisionError | IndexError
| RequestError.   (* raised by [requests] or by a client library *)

(** [exn_msg] is what [str(e)] shows. *)
Record exn := Exn { exn_kind_of : exn_kind; exn_msg : string }.

Inductive result (A : Type) :=
| Ok (a : A)
| Raise (e : exn).
Arguments Ok {A} a.
Arguments Raise {A} e.

#[global] Instance result_ret : MRet result := fun A a => Ok a.
#[global] Instance result_bind : MBind result := fun A B f m =>
  match m with Ok a => f a | Raise e => Raise e end.

#[global] Instance result_fmap : FMap result := fun A B f m =>
  match m with Ok a => Ok (f a) | Raise e => Raise e end.

Definition raise {A} (k : exn_kind) (msg : string) : result A :=
  Raise (Exn k msg).

(** [try: c except Exception: d] *)
Definition try_or {A} (c : result A) (d : A) : A :=
  match c with Ok a => a | Raise _ => d end.

(** [mapM]: run [f] on every element, left to right, stopping at the first
    exception. *)
Fixpoint mapM {A B} (f : A -> result B) (l : list A) : result (list B) :=
  match l with
  | [] => Ok []
  | x :: l' => y ← f x; ys ← mapM f l'; Ok (y :: ys)
  end.

(** ** Strings

    Python [str] values are modelled as byte strings: the text in its
    UTF-8 encoding.  The functions of this module give [lower], [strip]
    and the scanning of [float] on ASCII text, where they need no
    character table; on any text these three are the fields of the class
    [Text] below. *)

Module Str.

Definition code (c : ascii) : Z := Z.of_N (N_of_ascii c).

Definition lower_char (c : ascii) : ascii :=
  if (65 <=? code c) && (code c <=? 90)
  then ascii_of_N (N_of_ascii c + 32) else c.

(** [s.lower()] on ASCII text *)
Fixpoint lower (s : string) : string :=
  match s with
  | EmptyString => EmptyString
  | String c s' => String (lower_char c) (lower s')
  end.

(** [sub in s] *)
Fixpoint contains (sub s : string) : bool :=
  String.prefix sub s ||
  match s with
  | EmptyString => false
  | String _ s' => contains sub s'
  end.

(** White space as [str.strip] sees it on ASCII text. *)
Definition is_space (c : ascii) : bool :=
  let n := code c in
  (n =? 32) || ((9 <=? n) && (n <=? 13)) || ((28 <=? n) && (n <=? 31)).

Fixpoint lstrip (s : string) : string :=
  match s with
  | String c s' => if is_space c then lstrip s' else s
  | EmptyString => EmptyString
  end.

(** Drops trailing white space: a character is kept when something
    non-blank follows or it is itself non-blank. *)
Fixpoint rstrip (s : string) : string :=
  match s with
  | EmptyString => EmptyString
  | String c s' =>
      match rstrip s' with
      | EmptyString => if is_space c then EmptyString else String c EmptyString
      | r => String c r
      end
  end.

(** [s.strip()] on ASCII text *)
Definition strip (s : string) : string := rstrip (lstrip s).

(** [s.split(" ")[0]]: the text before the first blank. *)
Fixpoint first_word (s : string) : string :=
  match s with
  | EmptyString => EmptyString
  | String c s' => if Ascii.eqb c " " then EmptyString else String c (first_word s')
  end.

(** [sep.join(l)] *)
Fixpoint join (sep : string) (l : list string) : string :=
  match l with
  | [] => ""
  | [x] => x
  | x :: l' => x +:+ sep +:+ join sep l'
  end.

Definition concat (l : list string) : string := join "" l.

Definition nonempty (s : string) : bool :=
  match s with EmptyString => false | _ => true end.

(** The characters of a text: in UTF-8 a character is a byte that is not of
    the form 10xxxxxx, with the bytes of that form that follow it. *)
Definition continues (c : ascii) : bool := (128 <=? code c) && (code c <? 192).

Definition starts_inside (s : string) : bool :=
  match s with
  | String c _ => continues c
  | EmptyString => false
  end.

Fixpoint chars (s : string) : list string :=
  match s with
  | EmptyString => []
  | String c s' =>
      match chars s' with
      | x :: xs =>
          if starts_inside s' then String c x :: xs
          else String c EmptyString :: x :: xs
      | [] => [String c EmptyString]
      end
  end.

(** Every character is below 128. *)
Definition is_ascii (s : string) : bool :=
  forallb (fun c => code c <? 128) (String.list_ascii_of_string s).

(** An ASCII capital letter. *)
Definition is_capital (c : ascii) : bool := (65 <=? code c) && (code c <=? 90).

End Str.

(** ** JSON values

    What [response.json()], [request.json] and [get_json()] give: [None],
    [bool], [int], [float] (binary64, as [spec_float]), [str], [list] and
    [dict] with string keys. *)

Inductive json :=
| JNull
| JBool (b : bool)
| JInt (z : Z)
| JFloat (f : spec_float)
| JStr (s : string)
| JList (l : list json)
| JDict (d : gmap string json).

Abbreviation jobj := (gmap string json).

(** Python's name of the type of a value, as it shows in messages. *)
Definition type_name (v : json) : string :=
  match v with
  | JNull => "NoneType" | JBool _ => "bool" | JInt _ => "int"
  | JFloat _ => "float" | JStr _ => "str" | JList _ => "list"
  | JDict _ => "dict"
  end.

(** ** Python's operations on these values *)

Module Py.

(** *** Numbers: [int] is unbounded, [float] is binary64 *)

Definition prec : Z := 53.
Definition emax : Z := 1024.

Definition fzero : spec_float := S754_zero false.

(** The float nearest to an integer (ties to even), infinite beyond the
    range. *)
Definition float_of_Z (z : Z) : spec_float := binary_normalize prec emax z 0 false.

(** The float nearest to [n / d] for [n >= 0] and [d > 0], with sign [neg]. *)
Definition float_of_ratio (neg : bool) (n d : Z) : spec_float :=
  match n, d with
  | Zpos pn, Zpos pd => SFdiv prec emax (S754_finite neg pn 0) (S754_finite false pd 0)
  | _, _ => S754_zero neg
  end.

(** The conversion of an [int] operand to [float], as [PyLong_AsDouble]. *)
Definition int_to_float (z : Z) : result spec_float :=
  match float_of_Z z with
  | S754_infinity _ => raise OverflowError "int too large to convert to float"
  | f => Ok f
  end.

Inductive pynum :=
| NInt (z : Z)
| NFloat (f : spec_float).

(** [bool] is a subtype of [int]. *)
Definition as_num (v : json) : option pynum :=
  match v with
  | JBool b => Some (NInt (if b then 1 else 0))
  | JInt z => Some (NInt z)
  | JFloat f => Some (NFloat f)
  | _ => None
  end.

Definition num_to_float (n : pynum) : result spec_float :=
  match n with
  | NInt z => int_to_float z
  | NFloat f => Ok f
  end.

(** Exact values, for comparisons: Python compares an [int] with a [float]
    without rounding either. *)
Inductive xnum :=
| XNan
| XInf (neg : bool)
| XFin (m e : Z).   (* m * 2^e *)

Definition xnum_of (n : pynum) : xnum :=
  match n with
  | NInt z => XFin z 0
  | NFloat S754_nan => XNan
  | NFloat (S754_infinity s) => XInf s
  | NFloat (S754_zero _) => XFin 0 0
  | NFloat (S754_finite s m e) => XFin (if s then Zneg m else Zpos m) e
  end.

Definition xcompare (a b : xnum) : option comparison :=
  match a, b with
  | XNan, _ | _, XNan => None
  | XInf s1, XInf s2 =>
      Some (match s1, s2 with
            | true, false => Lt
            | false, true => Gt
            | _, _ => Eq
            end)
  | XInf s, XFin _ _ => Some (if s then Lt else Gt)
  | XFin _ _, XInf s => Some (if s then Gt else Lt)
  | XFin m1 e1, XFin m2 e2 =>
      let e := Z.min e1 e2 in
      Some (m1 * 2 ^ (e1 - e) ?= m2 * 2 ^ (e2 - e))
  end.

Definition num_compare (a b : pynum) : option comparison :=
  xcompare (xnum_of a) (xnum_of b).

(** [==] on exact values, on numbers. *)
Definition xeqb (a b : xnum) : bool :=
  match xcompare a b with Some Eq => true | _ => false end.

Definition num_eqb (a b : pynum) : bool := xeqb (xnum_of a) (xnum_of b).

Definition is_fzero (f : spec_float) : bool :=
  match f with S754_zero _ => true | _ => false end.

(** *** Truth value, [or] *)

Definition truthy (v : json) : bool :=
  match v with
  | JNull => false
  | JBool b => b
  | JInt z => negb (z =? 0)
  | JFloat f => negb (is_fzero f)
  | JStr s => Str.nonempty s
  | JList l => match l with [] => false | _ => true end
  | JDict d => negb (bool_decide (d = ∅))
  end.

(** [a or b] *)
Definition py_or (a b : json) : json := if truthy a then a else b.

(** *** [==] *)

Fixpoint py_eqb (a b : json) {struct a} : bool :=
  match a, b with
  | JNull, JNull => true
  | JStr s, JStr t => String.eqb s t
  | JList l1, JList l2 =>
      (fix go (l1 l2 : list json) {struct l1} : bool :=
         match l1, l2 with
         | [], [] => true
         | x :: l1', y :: l2' => py_eqb x y && go l1' l2'
         | _, _ => false
         end) l1 l2
  | JDict d1, JDict d2 =>
      bool_decide (size d1 = size d2) &&
      map_fold (fun k v1 acc =>
                  acc && match d2 !! k with
                         | Some v2 => py_eqb v1 v2
                         | None => false
                         end) true d1
  | _, _ =>
      match as_num a, as_num b with
      | Some x, Some y => num_eqb x y
      | _, _ => false
      end
  end.

(** *** [<], [<=], [>], [>=] *)

Inductive cmpop := OpLt | OpLe | OpGt | OpGe.

Definition op_symbol (op : cmpop) : string :=
  match op with OpLt => "<" | OpLe => "<=" | OpGt => ">" | OpGe => ">=" end.

Definition cmp_holds (op : cmpop) (c : option comparison) : bool :=
  match c with
  | None => false
  | Some c =>
      match op, c with
      | OpLt, Lt | OpLe, Lt | OpLe, Eq
      | OpGt, Gt | OpGe, Gt | OpGe, Eq => true
      | _, _ => false
      end
  end.

Definition not_supported {A} (op : cmpop) (a b : json) : result A :=
  raise TypeError ("'" +:+ op_symbol op
                   +:+ "' not supported between instances of '"
                   +:+ type_name a +:+ "' and '" +:+ type_name b +:+ "'").

Fixpoint py_richcmp (op : cmpop) (a b : json) {struct a} : result bool :=
  match a, b with
  | JStr s, JStr t => Ok (cmp_holds op (Some (String.compare s t)))
  | JList l1, JList l2 =>
      (fix go (l1 l2 : list json) {struct l1} : result bool :=
         match l1, l2 with
         | [], [] => Ok (cmp_holds op (Some Eq))
         | [], _ :: _ => Ok (cmp_holds op (Some Lt))
         | _ :: _, [] => Ok (cmp_holds op (Some Gt))
         | x :: l1', y :: l2' =>
             if py_eqb x y then go l1' l2' else py_richcmp op x y
         end) l1 l2
  | _, _ =>
      match as_num a, as_num b with
      | Some x, Some y => Ok (cmp_holds op (num_compare x y))
      | _, _ => not_supported op a b
      end
  end.

(** *** [-], [/], [*] and [round(x, 1)] *)

Definition unsupported_operand {A} (sym : string) (a b : json) : result A :=
  raise TypeError ("unsupported operand type(s) for " +:+ sym +:+ ": '"
                   +:+ type_name a +:+ "' and '" +:+ type_name b +:+ "'").

(** [a - b] *)
Definition py_sub (a b : json) : result json :=
  match as_num a, as_num b with
  | Some (NInt x), Some (NInt y) => Ok (JInt (x - y))
  | Some x, Some y =>
      fx ← num_to_float x; fy ← num_to_float y;
      Ok (JFloat (SFsub prec emax fx fy))
  | _, _ => unsupported_operand "-" a b
  end.

(** [x / y] on two ints: the correctly rounded quotient. *)
Definition int_truediv (x y : Z) : result spec_float :=
  if y =? 0 then raise ZeroDivisionError "division by zero"
  else match float_of_ratio (xorb (x <? 0) (y <? 0)) (Z.abs x) (Z.abs y) with
       | S754_infinity _ =>
           raise OverflowError "integer division result too large for a float"
       | f => Ok f
       end.

(** [a / b]; the result, when there is one, is a float. *)
Definition py_truediv (a b : json) : result spec_float :=
  match as_num a, as_num b with
  | Some (NInt x), Some (NInt y) => int_truediv x y
  | Some x, Some y =>
      fx ← num_to_float x; fy ← num_to_float y;
      if is_fzero fy then raise ZeroDivisionError "float division by zero"
      else Ok (SFdiv prec emax fx fy)
  | _, _ => unsupported_operand "/" a b
  end.

(** [f * n] for a float [f] and an int literal [n]. *)
Definition float_mul_int (f : spec_float) (n : Z) : spec_float :=
  SFmul prec emax f (float_of_Z n).

(** [round(f, ndigits)] on a float, for the one or two digits the handlers
    ask for: the exact value is rounded to that many decimals, ties to
    even, and the decimal is read back as the nearest float. *)
Definition py_round (ndigits : Z) (f : spec_float) : spec_float :=
  match f with
  | S754_finite s m e =>
      let scale := 10 ^ ndigits in
      let num := if 0 <=? e then Zpos m * scale * 2 ^ e else Zpos m * scale in
      let den := if 0 <=? e then 1 else 2 ^ (- e) in
      let q := num / den in
      let r := num mod den in
      let n := match 2 * r ?= den with
               | Lt => q
               | Gt => q + 1
               | Eq => if Z.even q then q else q + 1
               end in
      float_of_ratio s n scale
  | _ => f
  end.

Definition round1 : spec_float -> spec_float := py_round 1.

(** *** [float(v)]

    The text accepted is that of CPython on ASCII input: optional blanks
    around an optionally signed [inf], [infinity], [nan] or decimal
    literal, with single underscores between digits. *)

Definition is_digit (c : ascii) : bool :=
  (48 <=? Str.code c) && (Str.code c <=? 57).

Definition is_blank (c : ascii) : bool :=
  (Str.code c =? 32) || ((9 <=? Str.code c) && (Str.code c <=? 13)).

Definition is_underscore (c : ascii) : bool := Ascii.eqb c "_".

(** Removes the underscores, refusing one that is not between two digits. *)
Fixpoint drop_underscores (prev : ascii) (s : list ascii) : option (list ascii) :=
  match s with
  | [] => if is_underscore prev then None else Some []
  | c :: s' =>
      if is_underscore c then
        if is_digit prev then drop_underscores c s' else None
      else if is_underscore prev && negb (is_digit c) then None
      else cons c <$> drop_underscores c s'
  end.

Fixpoint span (p : ascii -> bool) (s : list ascii) : list ascii * list ascii :=
  match s with
  | c :: s' => if p c then let '(a, b) := span p s' in (c :: a, b) else ([], s)
  | [] => ([], [])
  end.

Definition trim (s : list ascii) : list ascii :=
  reverse (snd (span is_blank (reverse (snd (span is_blank s))))).

Definition digits_value (ds : list ascii) : Z :=
  fold_left (fun acc c => 10 * acc + (Str.code c - 48)) ds 0.

Definition split_sign (s : list ascii) : bool * list ascii :=
  match s with
  | c :: s' =>
      if Ascii.eqb c "-" then (true, s')
      else if Ascii.eqb c "+" then (false, s')
      else (false, s)
  | [] => (false, [])
  end.

(** A decimal literal as [(m, e)], standing for [m * 10^e]. *)
Definition parse_decimal (s : list ascii) : option (Z * Z) :=
  let '(ip, r1) := span is_digit s in
  let '(fp, r2) := match r1 with
                   | c :: r => if Ascii.eqb c "." then span is_digit r else ([], r1)
                   | [] => ([], r1)
                   end in
  match ip ++ fp with
  | [] => None
  | ds =>
      let m := digits_value ds in
      let scale := Z.of_nat (length fp) in
      match r2 with
      | [] => Some (m, - scale)
      | c :: r3 =>
          if Ascii.eqb (Str.lower_char c) "e" then
            let '(neg, r4) := split_sign r3 in
            match span is_digit r4 with
            | (d :: ed, []) =>
                let x := digits_value (d :: ed) in
                Some (m, (if neg then - x else x) - scale)
            | _ => None
            end
          else None
      end
  end.

(** The float nearest to [m * 10^e], with sign [neg]. *)
Definition decimal_to_float (neg : bool) (m e : Z) : spec_float :=
  if 0 <=? e then
    match m * 10 ^ e with
    | Zpos p => binary_round prec emax neg p 0
    | _ => S754_zero neg
    end
  else float_of_ratio neg m (10 ^ (- e)).

Definition float_of_string (s : string) : option spec_float :=
  cs ← drop_underscores "000" (String.list_ascii_of_string s);
  let '(neg, body) := split_sign (trim cs) in
  let word := Str.lower (String.string_of_list_ascii body) in
  if String.eqb word "inf" || String.eqb word "infinity"
  then Some (S754_infinity neg)
  else if String.eqb word "nan" then Some S754_nan
  else '(m, e) ← parse_decimal body; Some (decimal_to_float neg m e).

(** *** [str.lower], [str.strip] and [float] on any text

    On text with characters beyond ASCII the three follow the Unicode
    character database ([float] reads every decimal digit and skips every
    white space of Unicode, [strip] removes that white space, [lower] maps
    every cased letter).  The database is not part of the program: the three
    are taken as given, with what Python guarantees of them: on ASCII text
    they are the functions above, and a lower-cased text has no ASCII
    capital and is its own lower-casing. *)
Class Text := {
  str_lower : string -> string;
  str_strip : string -> string;
  str_float : string -> option spec_float;
  str_lower_ascii :
    forall s, Str.is_ascii s = true -> str_lower s = Str.lower s;
  str_strip_ascii :
    forall s, Str.is_ascii s = true -> str_strip s = Str.strip s;
  str_float_ascii :
    forall s, Str.is_ascii s = true -> str_float s = float_of_string s;
  str_lower_no_capital :
    forall s c, In c (String.list_ascii_of_string (str_lower s)) ->
                Str.is_capital c = false;
  str_lower_idempotent :
    forall s, str_lower (str_lower s) = str_lower s
}.

Definition py_float `{Text} (v : json) : result spec_float :=
  match v with
  | JStr s =>
      match str_float s with
      | Some f => Ok f
      | None => raise ValueError "could not convert string to float"
      end
  | _ =>
      match as_num v with
      | Some n => num_to_float n
      | None =>
          raise TypeError
            ("float() argument must be a string or a real number, not '"
             +:+ type_name v +:+ "'")
      end
  end.

(** *** Attribute and item access on JSON values *)

Definition no_attribute {A} (v : json) (attr : string) : result A :=
  raise AttributeError ("'" +:+ type_name v +:+ "' object has no attribute '"
                        +:+ attr +:+ "'").

(** [v.get(k)], [v.get(k, dflt)] *)
Definition py_get (v : json) (k : string) (dflt : json) : result json :=
  match v with
  | JDict d => Ok (default dflt (d !! k))
  | _ => no_attribute v "get"
  end.

(** [v[k]] for a string key *)
Definition py_item (v : json) (k : string) : result json :=
  match v with
  | JDict d =>
      match d !! k with
      | Some x => Ok x
      | None => raise KeyError ("'" +:+ k +:+ "'")
      end
  | JStr _ => raise TypeError "string indices must be integers, not 'str'"
  | JList _ => raise TypeError "list indices must be integers or slices, not str"
  | _ => raise TypeError ("'" +:+ type_name v +:+ "' object is not subscriptable")
  end.

(** [v[0]] *)
Definition py_first (v : json) : result json :=
  match v with
  | JList (x :: _) => Ok x
  | JList [] => raise IndexError "list index out of range"
  | JStr s =>
      match Str.chars s with
      | c :: _ => Ok (JStr c)
      | [] => raise IndexError "string index out of range"
      end
  | JDict _ => raise KeyError "0"
  | _ => raise TypeError ("'" +:+ type_name v +:+ "' object is not subscriptable")
  end.

(** [k in v] for a string key and a dict [v] *)
Definition has_key (k : string) (d : jobj) : bool := bool_decide (is_Some (d !! k)).

(** [for x in v]: the elements of a list, the keys of a dict, the characters
    of a string. *)
Definition py_iter (v : json) : result (list json) :=
  match v with
  | JList l => Ok l
  | JDict d => Ok (JStr <$> (map_to_list d).*1)
  | JStr s => Ok (JStr <$> Str.chars s)
  | _ => raise TypeError ("'" +:+ type_name v +:+ "' object is not iterable")
  end.

(** [len(v)] *)
Definition py_len (v : json) : result Z :=
  match v with
  | JList l => Ok (Z.of_nat (length l))
  | JDict d => Ok (Z.of_nat (size d))
  | JStr s => Ok (Z.of_nat (length (Str.chars s)))
  | _ => raise TypeError ("object of type '" +:+ type_name v +:+ "' has no len()")
  end.

(** [x in s] for a string [s] *)
Definition in_string (x : json) (s : string) : result bool :=
  match x with
  | JStr sub => Ok (Str.contains sub s)
  | _ => raise TypeError ("'in <string>' requires string as left operand, not "
                          +:+ type_name x)
  end.

(** *** Dictionaries built by the handlers

    Their keys are any hashable values, compared with [==]; a [nan] key
    equals no key.  Bindings stay in insertion order. *)

Definition pymap := list (json * json).

Definition check_hashable (k : json) : result unit :=
  match k with
  | JList _ | JDict _ =>
      raise TypeError ("unhashable type: '" +:+ type_name k +:+ "'")
  | _ => Ok tt
  end.

Definition key_eqb (a b : json) : bool :=
  match a, b with
  | JList _, _ | _, JList _ | JDict _, _ | _, JDict _ => false
  | _, _ => py_eqb a b
  end.

Fixpoint store (k v : json) (m : pymap) : pymap :=
  match m with
  | [] => [(k, v)]
  | (k', v') :: m' =>
      if key_eqb k' k then (k', v) :: m' else (k', v') :: store k v m'
  end.

Fixpoint find_key (k : json) (m : pymap) : option json :=
  match m with
  | [] => None
  | (k', v') :: m' => if key_eqb k' k then Some v' else find_key k m'
  end.

(** [m[k] = v] *)
Definition pm_set (k v : json) (m : pymap) : result pymap :=
  _ ← check_hashable k; Ok (store k v m).

(** [m.get(k)] *)
Definition pm_get (k : json) (m : pymap) : result json :=
  _ ← check_hashable k; Ok (default JNull (find_key k m)).

End Py.

Import Py.

(** ** The outside world *)

(** What one [requests.get(url)] meets: no connection, or a reply with a
    status code and a body that is JSON text or not. *)
Inductive upstream :=
| Unreachable (msg : string)
| Reply (status : Z) (body : option json).

(** [requests.get(url).json()]: the status code is not looked at. *)
Definition fetch_json (u : upstream) : result json :=
  match u with
  | Unreachable msg => raise RequestError msg
  | Reply _ None => raise RequestError "Expecting value: line 1 column 1 (char 0)"
  | Reply _ (Some j) => Ok j
  end.

(** What a view function returns: [jsonify(body)], a response with status
    200, or the tuple [(jsonify(body), code)]. *)
Inductive view_ret :=
| Plain (body : json)
| WithCode (body : json) (code : Z).

Definition jsonify (body : json) : view_ret := Plain body.

(** [r.status_code] and [r.get_json()], which a tuple does not have. *)
Definition status_code (r : view_ret) : result Z :=
  match r with
  | Plain _ => Ok 200
  | WithCode _ _ =>
      raise AttributeError "'tuple' object has no attribute 'status_code'"
  end.

Definition get_json (r : view_ret) : result json :=
  match r with
  | Plain body => Ok body
  | WithCode _ _ =>
      raise AttributeError "'tuple' object has no attribute 'get_json'"
  end.

(** The status the HTTP client sees; Flask answers 500 to an exception that
    leaves the view. *)
Definition http_status (r : result view_ret) : Z :=
  match r with
  | Ok (Plain _) => 200
  | Ok (WithCode _ code) => code
  | Raise _ => 500
  end.

(** [factory_static_data]: the catalog loaded at start-up.  The loader's
    loop over [cauldrons] assigns into every element, so [cauldrons] is a
    sequence of records. *)
Record static_data := {
  cauldrons : list json;
  network : json;
  market : json;
  couriers : json
}.

(** ** [load_static_factory_data]: the catalog loader

    [draw i] stands for the two [random.uniform] values drawn for the
    [i]-th cauldron. *)

(** The two assignments of the loop, which need a record. *)
Definition assign_rates (draw : nat -> spec_float * spec_float)
    (i : nat) (c : json) : result json :=
  match c with
  | JDict d =>
      Ok (JDict (<["drain_rate_per_min" := JFloat (py_round 2 (draw i).2)]>
                   (<["fill_rate_per_min" := JFloat (py_round 2 (draw i).1)]> d)))
  | _ => raise TypeError ("'" +:+ type_name c
                          +:+ "' object does not support item assignment")
  end.

Fixpoint assign_all (draw : nat -> spec_float * spec_float)
    (i : nat) (cs : list json) : result (list json) :=
  match cs with
  | [] => Ok []
  | c :: rest =>
      c' ← assign_rates draw i c;
      rest' ← assign_all draw (S i) rest;
      Ok (c' :: rest')
  end.

(** [None] when anything raises; the caller then exits. *)
Definition load_static_factory_data
    (cauldrons_reply network_reply market_reply couriers_reply : upstream)
    (draw : nat -> spec_float * spec_float) : option static_data :=
  let attempt :=
    cs ← fetch_json cauldrons_reply;
    nw ← fetch_json network_reply;
    mk ← fetch_json market_reply;
    co ← fetch_json couriers_reply;
    items ← py_iter cs;
    loaded ← assign_all draw 0 items;
    _ ← py_len cs;
    Ok {| cauldrons := loaded; network := nw; market := mk; couriers := co |} in
  match attempt with
  | Ok data => Some data
  | Raise _ => None
  end.

(** ** [get_cauldron_levels]: normalizer and status merger *)

Section App.
Context `{Text}.

Definition wrapper_keys : list string := ["data"; "items"; "results"; "value"].

Definition single_object_keys : list string :=
  ["cauldronId"; "id"; "cauldron_id"; "currentVolume"; "current_volume"].

Definition id_keys : list string := ["cauldronId"; "cauldron_id"; "id"].

Definition level_keys : list string :=
  ["currentVolume"; "current_volume"; "volume"; "level"; "value"; "current"].

(** The list under the first wrapper key that holds a list. *)
Fixpoint first_wrapped (ws : list string) (d : jobj) : option (list json) :=
  match ws with
  | [] => None
  | w :: ws' =>
      match d !! w with
      | Some (JList l) => Some l
      | _ => first_wrapped ws' d
      end
  end.

(** Lines 97-114: [live_levels_list], or [None] for the early return of
    the "Unexpected /api/Data format" error. *)
Definition unwrap_payload (live_levels_data : json) : option json :=
  match live_levels_data with
  | JDict d =>
      match first_wrapped wrapper_keys d with
      | Some l => Some (JList l)
      | None =>
          if existsb (fun k => has_key k d) single_object_keys
          then Some (JList [live_levels_data])
          else None
      end
  | _ => Some live_levels_data
  end.

(** The [cauldron_levels] map of a time-series record, when it has one. *)
Definition levels_of_record (rec : json) : option jobj :=
  match rec with
  | JDict d =>
      match d !! "cauldron_levels" with
      | Some (JDict lv) => Some lv
      | _ => None
      end
  | _ => None
  end.

(** The scan of [reversed(live_levels_list)], [{}] when nothing is found. *)
Fixpoint latest_levels (reversed_list : list json) : jobj :=
  match reversed_list with
  | [] => ∅
  | rec :: rest =>
      match levels_of_record rec with
      | Some lv => lv
      | None => latest_levels rest
      end
  end.

(** [try: float(v) except Exception: v] *)
Definition coerce_or_keep (v : json) : json :=
  match py_float v with
  | Ok f => JFloat f
  | Raise _ => v
  end.

(** The loop over [latest.items()]. *)
Definition coerce_levels (latest : jobj) : pymap :=
  fold_left (fun m kv => store (JStr kv.1) (coerce_or_keep kv.2) m)
            (map_to_list latest) [].

(** The value under the first of [keys] that the record has. *)
Fixpoint first_present (keys : list string) (d : jobj) : option json :=
  match keys with
  | [] => None
  | k :: keys' =>
      match d !! k with
      | Some v => Some v
      | None => first_present keys' d
      end
  end.

Definition is_none (v : json) : bool :=
  match v with JNull => true | _ => false end.

(** The id of a flat record: an id alias, else [item['cauldron']['id']]. *)
Definition item_key (item : jobj) : json :=
  let cauldron_key := default JNull (first_present id_keys item) in
  if is_none cauldron_key then
    match item !! "cauldron" with
    | Some (JDict c) => default JNull (c !! "id")
    | _ => cauldron_key
    end
  else cauldron_key.

(** The level of a flat record: [float(level)], [None] when that fails. *)
Definition item_level (item : jobj) : json :=
  let level := default JNull (first_present level_keys item) in
  if is_none level then JNull
  else match py_float level with
       | Ok f => JFloat f
       | Raise _ => JNull
       end.

(** One turn of the loop over the flat list. *)
Definition add_item (live_levels_map : pymap) (item : json) : result pymap :=
  match item with
  | JDict d =>
      let cauldron_key := item_key d in
      if is_none cauldron_key then Ok live_levels_map
      else pm_set cauldron_key (item_level d) live_levels_map
  | _ => Ok live_levels_map
  end.

Fixpoint add_items (live_levels_map : pymap) (items : list json) : result pymap :=
  match items with
  | [] => Ok live_levels_map
  | item :: rest => m ← add_item live_levels_map item; add_items m rest
  end.

(** Lines 119-176: [live_levels_map] from [live_levels_list]. *)
Definition build_levels_map (live_levels_list : json) : result pymap :=
  match live_levels_list with
  | JList (first :: rest) =>
      match levels_of_record first with
      | Some _ => Ok (coerce_levels (latest_levels (reverse (first :: rest))))
      | None => add_items [] (first :: rest)
      end
  | JDict d =>
      match d !! "cauldron_levels" with
      | Some (JDict lv) => Ok (coerce_levels lv)
      | _ => Ok []
      end
  | _ => Ok []
  end.

(** The Live Level Normalizer: what lines 97-176 make of a payload. *)
Inductive normalized :=
| Unrecognized
| Levels (live_levels_map : pymap).

Definition normalize_levels (live_levels_data : json) : result normalized :=
  match unwrap_payload live_levels_data with
  | None => Ok Unrecognized
  | Some live_levels_list => Levels <$> build_levels_map live_levels_list
  end.

(** Lines 178-192, one catalog entry. *)
Definition merge_cauldron (live_levels_map : pymap) (static_cauldron : json)
  : result json :=
  cauldron_id ← py_item static_cauldron "id";
  match static_cauldron with
  | JDict d =>
      live_level ← pm_get cauldron_id live_levels_map;
      let merged_data :=
        <["current_level" := if is_none live_level then JInt 0 else live_level]> d in
      anomaly ← (if truthy live_level
                 then max_volume ← py_item (JDict merged_data) "max_volume";
                      py_richcmp OpGe live_level max_volume
                 else Ok false);
      Ok (JDict (<["anomaly" := JBool anomaly]> merged_data))
  | _ => no_attribute static_cauldron "copy"
  end.

(** The Status Merger: the loop over the catalog. *)
Definition merge_levels (fsd : static_data) (live_levels_map : pymap)
  : result (list json) :=
  mapM (merge_cauldron live_levels_map) (cauldrons fsd).

Definition format_error : view_ret :=
  WithCode (JDict {[ "error" := JStr "Unexpected /api/Data format" ]}) 500.

Definition get_cauldron_levels (fsd : static_data) (u : upstream)
  : result view_ret :=
  match fetch_json u with
  | Raise e => Ok (WithCode (JDict {[ "error" := JStr (exn_msg e) ]}) 500)
  | Ok live_levels_data =>
      n ← normalize_levels live_levels_data;
      match n with
      | Unrecognized => Ok format_error
      | Levels live_levels_map =>
          merged_cauldron_data ← merge_levels fsd live_levels_map;
          Ok (jsonify (JList merged_cauldron_data))
      end
  end.

(** ** [forecast_fill_times]: the Forecaster *)

(** The body of the loop, for one merged record: the forecast entry, or
    [None] when nothing is appended. *)
Definition forecast_cauldron (cauldron : json) : result (option json) :=
  fill_rate ← py_item cauldron "fill_rate_per_min";
  current_level ← py_item cauldron "current_level";
  max_volume ← py_item cauldron "max_volume";
  below ← py_richcmp OpLt current_level max_volume;
  if below : bool then
    liters_to_full ← py_sub max_volume current_level;
    positive ← py_richcmp OpGt fill_rate (JInt 0);
    if positive : bool then
      time_to_full_min ← py_truediv liters_to_full fill_rate;
      id ← py_item cauldron "id";
      name ← py_item cauldron "name";
      Ok (Some (JDict {[ "cauldron_id" := id;
                         "name" := name;
                         "time_to_full_min" := JFloat (round1 time_to_full_min) ]}))
    else Ok None
  else Ok None.

(** The entries that were appended, in order. *)
Fixpoint appended (entries : list (option json)) : list json :=
  match entries with
  | [] => []
  | Some e :: rest => e :: appended rest
  | None :: rest => appended rest
  end.

(** Step 2: the loop over the merged records. *)
Definition forecast_records (live_levels_data : json) : result (list json) :=
  records ← py_iter live_levels_data;
  entries ← mapM forecast_cauldron records;
  Ok (appended entries).

Definition forecast_fill_times (fsd : static_data) (u : upstream)
  : result view_ret :=
  let step1 : result (view_ret + json) :=
    live_levels_response ← get_cauldron_levels fsd u;
    code ← status_code live_levels_response;
    if negb (code =? 200)
    then Ok (inl (jsonify (JDict {[ "error" :=
                    JStr "Could not get live levels for forecast." ]})))
    else inr <$> get_json live_levels_response in
  match step1 with
  | Raise e => Ok (jsonify (JDict {[ "error" := JStr (exn_msg e) ]}))
  | Ok (inl early) => Ok early
  | Ok (inr live_levels_data) =>
      forecasts ← forecast_records live_levels_data;
      Ok (jsonify (JList forecasts))
  end.

(** ** [cauldron_status] *)

(** [{f.get('cauldron_id'): f for f in (forecasts or [])}] *)
Fixpoint index_forecasts (forecast_map : pymap) (fs : list json) : result pymap :=
  match fs with
  | [] => Ok forecast_map
  | f :: rest =>
      k ← py_get f "cauldron_id" JNull;
      m ← pm_set k f forecast_map;
      index_forecasts m rest
  end.

Definition build_forecast_map (forecasts : json) : result pymap :=
  fs ← py_iter (py_or forecasts (JList []));
  index_forecasts [] fs.

(** Lines 318-326: [forecasts].  [inr] stands for the response object that
    [forecasts_response[0]] would be, had [forecast_fill_times] returned a
    tuple. *)
Definition fetch_forecasts (fsd : static_data) (u : upstream) : json + json :=
  match forecast_fill_times fsd u with
  | Ok (WithCode body _) => inr body
  | Ok (Plain body) => inl body
  | Raise _ => inl (JList [])
  end.

(** The arithmetic inside the [try] of the loop. *)
Definition percent_of (current max_vol : json) : result spec_float :=
  divisor ← py_float max_vol;
  ratio ← py_truediv current (JFloat divisor);
  Ok (round1 (float_mul_int ratio 100)).

(** Lines 333-338. *)
Definition percent_full (c : jobj) : spec_float :=
  let max_vol := py_or (default JNull (c !! "max_volume")) (JInt 1) in
  let current := py_or (default JNull (c !! "current_level")) (JInt 0) in
  try_or (percent_of current max_vol) fzero.

(** Lines 340-341. *)
Definition time_to_full (forecast_map : pymap) (c : jobj) : result json :=
  f ← pm_get (default JNull (c !! "id")) forecast_map;
  if truthy f then py_get f "time_to_full_min" JNull else Ok JNull.

(** One turn of the loop over [live_levels]. *)
Definition status_record (forecast_map : pymap) (c : json) : result json :=
  match c with
  | JDict d =>
      time_to_full_min ← time_to_full forecast_map d;
      Ok (JDict (<["time_to_full_min" := time_to_full_min]>
                   (<["percent_full" := JFloat (percent_full d)]> d)))
  | _ => no_attribute c "get"
  end.

Definition cauldron_status (fsd : static_data) (u1 u2 : upstream)
  : result view_ret :=
  let step1 : result (view_ret + json) :=
    live_levels_response ← get_cauldron_levels fsd u1;
    code ← status_code live_levels_response;
    if negb (code =? 200) then Ok (inl live_levels_response)
    else inr <$> get_json live_levels_response in
  match step1 with
  | Raise e =>
      Ok (WithCode (JDict {[ "error" :=
            JStr ("Could not fetch live levels: " +:+ exn_msg e) ]}) 500)
  | Ok (inl early) => Ok early
  | Ok (inr live_levels) =>
      forecast_map ← match fetch_forecasts fsd u2 with
                     | inl forecasts => build_forecast_map forecasts
                     | inr _ => raise AttributeError
                                  "'bytes' object has no attribute 'get'"
                     end;
      records ← py_iter live_levels;
      status_list ← mapM (status_record forecast_map) records;
      Ok (jsonify (JList status_list))
  end.

(** ** Text made by f-strings

    [repr] of a value and the [.1f] format of a float are Python's own;
    the handlers are stated over any implementation of them. *)
Class Formatter := {
  py_repr : json -> string;
  format_1f : spec_float -> string
}.

Section Handlers.
Context `{Formatter}.

(** [str(v)], what [f"{v}"] inserts. *)
Definition py_str (v : json) : string :=
  match v with
  | JStr s => s
  | _ => py_repr v
  end.

(** [f"{v:.1f}"] *)
Definition py_format_1f (v : json) : result string :=
  match as_num v with
  | Some n => format_1f <$> num_to_float n
  | None => raise TypeError "unsupported format string"
  end.

(** [next((c for c in cauldrons if c['id'] == cauldron_id), None)] *)
Fixpoint find_cauldron (cs : list json) (cauldron_id : json) : result json :=
  match cs with
  | [] => Ok JNull
  | c :: rest =>
      id ← py_item c "id";
      if py_eqb id cauldron_id then Ok c else find_cauldron rest cauldron_id
  end.

(** ** [check_discrepancies] *)

Definition unlogged_drain_alert : json :=
  JDict {[ "cauldron_id" := JStr "cauldron_003";
           "message" := JStr "Unlogged drain detected at 3:15 PM. No matching ticket found." ]}.

(** The body of the [try]: the alerts found. *)
Definition find_alerts (fsd : static_data) (u : upstream) : result (list json) :=
  real_tickets ← fetch_json u;
  if truthy real_tickets then
    first_ticket ← py_first real_tickets;
    cauldron_id ← py_get first_ticket "cauldronId" (JStr "cauldron_001");
    ticket_amount ← py_get first_ticket "amount" (JInt 100);
    _ ← find_cauldron (cauldrons fsd) cauldron_id;
    calculated_amount ← py_sub ticket_amount (JInt 50);
    ticket_id ← py_get first_ticket "id" JNull;
    calculated_text ← py_format_1f calculated_amount;
    ticket_text ← py_format_1f ticket_amount;
    Ok [ JDict {[ "cauldron_id" := cauldron_id;
                  "message" := JStr ("Suspicious Ticket " +:+ py_str ticket_id
                                     +:+ ". Calculated: " +:+ calculated_text
                                     +:+ "L, Ticket: " +:+ ticket_text +:+ "L.") ]};
         unlogged_drain_alert ]
  else Ok [].

Definition check_discrepancies (fsd : static_data) (u : upstream) : view_ret :=
  match find_alerts fsd u with
  | Raise _ =>
      jsonify (JList [JDict {[ "message" :=
                 JStr "Error connecting to EOG API to check tickets." ]}])
  | Ok [] => jsonify (JList [JDict {[ "message" := JStr "All tickets reconciled." ]}])
  | Ok alerts => jsonify (JList alerts)
  end.

(** ** [dispatch_courier] *)

(** The state of the process: the catalog and what was printed. *)
Record app_state := {
  factory_static_data : static_data;
  console : list string
}.

Definition print (line : string) (st : app_state) : app_state :=
  {| factory_static_data := factory_static_data st;
     console := console st ++ [line] |}.

Definition dispatch_courier (st : app_state) (data : json)
  : result view_ret * app_state :=
  let found :=
    cauldron_id ← py_get data "cauldron_id" JNull;
    cauldron_data ← find_cauldron (cauldrons (factory_static_data st)) cauldron_id;
    if negb (truthy cauldron_data) then Ok None
    else Some <$> py_item cauldron_data "name" in
  match found with
  | Raise e => (Raise e, st)
  | Ok None =>
      (Ok (WithCode (JDict {[ "status" := JStr "error";
                              "message" := JStr "Invalid cauldron ID." ]}) 400), st)
  | Ok (Some name) =>
      (Ok (jsonify (JDict {[ "status" := JStr "success";
                             "message" := JStr ("Courier witch dispatched to "
                                                +:+ py_str name +:+ ". (Simulation)") ]})),
       print ("SIMULATED DISPATCH: Courier sent to " +:+ py_str name) st)
  end.

End Handlers.

(** ** [handle_agent_chat]: the Intent Dispatcher *)

(** [x in v] *)
Definition py_contains (x v : json) : result bool :=
  match v with
  | JStr s => in_string x s
  | JList l => Ok (existsb (fun y => py_eqb y x) l)
  | JDict d =>
      _ ← check_hashable x;
      Ok (match x with JStr k => has_key k d | _ => false end)
  | _ => raise TypeError ("argument of type '" +:+ type_name v +:+ "' is not iterable")
  end.

(** [l.sort(key=...)] on the pairs (key, element): a stable sort that only
    asks [<] of two keys.  It gives the order of [list.sort] whenever [<]
    orders the keys. *)
Fixpoint sort_insert (x : json * json) (sorted : list (json * json))
  : result (list (json * json)) :=
  match sorted with
  | [] => Ok [x]
  | y :: rest =>
      before ← py_richcmp OpLt x.1 y.1;
      if before : bool then Ok (x :: y :: rest)
      else cons y <$> sort_insert x rest
  end.

Fixpoint sort_pairs (sorted todo : list (json * json)) : result (list (json * json)) :=
  match todo with
  | [] => Ok sorted
  | x :: rest => s ← sort_insert x sorted; sort_pairs s rest
  end.

(** [forecasts.sort(key=lambda x: x.get('time_to_full_min', 9999))] *)
Definition sort_forecasts (forecasts : json) : result (list json) :=
  match forecasts with
  | JList l =>
      keyed ← mapM (fun x => k ← py_get x "time_to_full_min" (JInt 9999); Ok (k, x)) l;
      sorted ← sort_pairs [] keyed;
      Ok (sorted.*2)
  | _ => no_attribute forecasts "sort"
  end.

Definition nl : string := String "010" EmptyString.

(** One streamed chunk: the attributes of [chunk.choices[0].delta], or
    [None] when there is no delta. *)
Record delta := {
  reasoning_content : option string;
  content : option string;
  text : option string
}.

(** What the completion client does with a request: the chunks it yields
    and, when it raises, the exception that ends the call. *)
Record completion := {
  chunks : list (option delta);
  failure : option string
}.

Record chat_env := {
  has_nemotron : bool;                       (* _HAS_NEMOTRON *)
  env_nv_api_key : option string;            (* os.environ.get('NV_API_KEY') *)
  env_show_reasoning : option string;        (* os.environ.get('NV_SHOW_REASONING') *)
  tickets_upstream : upstream;               (* GET /api/Tickets *)
  data_upstream : upstream;                  (* GET /api/Data *)
  loopback_failure : option string;          (* the POST to 127.0.0.1:5000 fails *)
  nemotron : json -> string -> completion    (* api key, prompt *)
}.

Definition environ_get (v : option string) : json :=
  match v with Some s => JStr s | None => JNull end.

(** The four intents and the fallback. *)
Inductive intent :=
| Discrepancy | Forecast | Dispatch | Optimize | Help.

(** [k1 in m.lower() or k2 in m.lower() or ...] *)
Definition mentions (keywords : list string) (user_message : string) : bool :=
  existsb (fun k => Str.contains k (str_lower user_message)) keywords.

Definition discrepancy_keywords : list string := ["suspicious"; "anomaly"; "ticket"].
Definition forecast_keywords : list string := ["forecast"; "full"].
Definition dispatch_keywords : list string := ["dispatch"; "empty"].
Definition optimize_keywords : list string := ["optimize"; "routes"; "witches"].

(** The conditions of the [if]/[elif] chain, in their order. *)
Definition route (user_message : string) : intent :=
  if mentions discrepancy_keywords user_message then Discrepancy
  else if mentions forecast_keywords user_message then Forecast
  else if mentions dispatch_keywords user_message then Dispatch
  else if mentions optimize_keywords user_message then Optimize
  else Help.

Definition help_text : string :=
  "I am connected to the EOG API. I can **check tickets**, **forecast** fill times, **dispatch** couriers, or **optimize routes**.".

Definition delta_content (d : delta) : option string :=
  match content d with
  | Some c => Some c
  | None => text d
  end.

Definition keep_nonempty (s : option string) : option string :=
  match s with
  | Some x => if Str.nonempty x then Some x else None
  | None => None
  end.

(** [assembled] and [reasoning_parts] after the loop over the stream. *)
Definition assembled (cs : list (option delta)) : list string :=
  omap (fun c => d ← c; keep_nonempty (delta_content d)) cs.

Definition reasoning_parts (cs : list (option delta)) : list string :=
  omap (fun c => d ← c; keep_nonempty (reasoning_content d)) cs.

Definition prompt_of (agent_plan : list string) (user_message : string) : string :=
  "Context:" +:+ nl +:+ Str.join nl agent_plan +:+ nl +:+ nl
  +:+ "User message:" +:+ nl +:+ user_message +:+ nl +:+ nl
  +:+ "Provide a short assistant reply based on the context.".

(** Lines 463-533, entered when [use_nemotron] holds: the reply and the plan
    after the completion stage. *)
Definition refine_reply (env : chat_env) (nv_api_key : json)
    (show_reasoning : bool) (user_message : string)
    (agent_final_response : json) (agent_plan : list string)
  : json * list string :=
  if negb (has_nemotron env) then
    (agent_final_response,
     agent_plan ++ ["Note: Nemotron client not installed; set up 'openai' package to enable."])
  else if negb (truthy nv_api_key) then
    (agent_final_response,
     agent_plan ++ ["Note: NV API key not provided; set 'nv_api_key' in the request or NV_API_KEY env var."])
  else
    let outcome := nemotron env nv_api_key (prompt_of agent_plan user_message) in
    match failure outcome with
    | Some msg => (agent_final_response, agent_plan ++ ["Nemotron call failed: " +:+ msg])
    | None =>
        let final_text := str_strip (Str.concat (assembled (chunks outcome))) in
        if Str.nonempty final_text then
          (JStr final_text,
           agent_plan ++ ["Tool Result: Response generated by Nemotron (stream)."]
           ++ match reasoning_parts (chunks outcome) with
              | [] => []
              | parts => if show_reasoning
                         then ["Nemotron reasoning: " +:+ Str.join " " parts]
                         else []
              end)
        else
          (agent_final_response,
           agent_plan ++ ["Warning: Nemotron streamed no text; keeping local response."])
    end.

Section Chat.
Context `{Formatter}.

(** [agent_final_response += f"  - {alert['message']}\n"] over the alerts *)
Definition alert_lines (alerts : list json) : result string :=
  lines ← mapM (fun alert => m ← py_item alert "message";
                             Ok ("  - " +:+ py_str m +:+ nl)) alerts;
  Ok (Str.concat lines).

Definition discrepancy_reply (env : chat_env) (fsd : static_data)
  : result (json * list string) :=
  let plan := ["Plan: User asked about discrepancies. I will call the live `check_discrepancies()` tool."] in
  alerts ← get_json (check_discrepancies fsd (tickets_upstream env));
  suspicious ← (if truthy alerts
                then first ← py_first alerts;
                     m ← py_get first "message" (JStr "");
                     py_contains (JStr "Suspicious") m
                else Ok false);
  if suspicious : bool then
    items ← py_iter alerts;
    lines ← alert_lines items;
    Ok (JStr ("I've checked the live tickets. I found a problem:" +:+ nl +:+ lines),
        plan ++ ["Tool Result: Found a ticket mismatch."])
  else if truthy alerts then
    items ← py_iter alerts;
    lines ← alert_lines items;
    Ok (JStr ("I found an alert:" +:+ nl +:+ lines), plan)
  else
    Ok (JStr "I've checked the live tickets. All potion flows are accounted for.",
        plan ++ ["Tool Result: No anomalies found."]).

Definition forecast_line (f : json) : result string :=
  name ← py_item f "name";
  id ← py_item f "cauldron_id";
  t ← py_item f "time_to_full_min";
  Ok ("  - " +:+ py_str name +:+ " (" +:+ py_str id +:+ ") will be full in "
      +:+ py_str t +:+ " minutes." +:+ nl).

Definition forecast_reply (env : chat_env) (fsd : static_data)
  : result (json * list string) :=
  let plan := ["Plan: User asked for forecasts. I will call `forecast_fill_times()`."] in
  forecasts_response ← forecast_fill_times fsd (data_upstream env);
  forecasts ← get_json forecasts_response;
  let plan := plan ++ ["Tool Result: " +:+ py_str forecasts] in
  sorted ← sort_forecasts forecasts;
  lines ← mapM forecast_line (take 5 sorted);
  Ok (JStr ("Here is the live forecast (top 5):" +:+ nl +:+ Str.concat lines), plan).

(** The loop that looks for a cauldron named in the message; [None] when
    the loop ends without a [break]. *)
Fixpoint cauldron_to_dispatch (cs : list json) (user_message : string)
  : result json :=
  match cs with
  | [] => Ok JNull
  | cauldron :: rest =>
      id ← py_item cauldron "id";
      by_id ← in_string id (str_lower user_message);
      by_name ← (if by_id : bool then Ok true
                 else name ← py_item cauldron "name";
                      match name with
                      | JStr n => Ok (Str.contains (str_lower (Str.first_word n))
                                                   (str_lower user_message))
                      | _ => no_attribute name "split"
                      end);
      if by_name : bool then Ok id else cauldron_to_dispatch rest user_message
  end.

(** The POST to this server's own [/api/logistics/dispatch_courier], then
    [.json()] on the reply. *)
Definition post_dispatch (env : chat_env) (fsd : static_data) (body : json)
  : result json :=
  match loopback_failure env with
  | Some msg => raise RequestError msg
  | None =>
      match (dispatch_courier {| factory_static_data := fsd; console := [] |} body).1 with
      | Ok (Plain b) | Ok (WithCode b _) => Ok b
      | Raise _ => raise RequestError "Expecting value: line 1 column 1 (char 0)"
      end
  end.

Definition dispatch_reply (env : chat_env) (fsd : static_data)
    (user_message : string) : result (json * list string) :=
  cauldron_id_to_dispatch ← cauldron_to_dispatch (cauldrons fsd) user_message;
  if truthy cauldron_id_to_dispatch then
    let plan := ["Plan: User wants to dispatch to " +:+ py_str cauldron_id_to_dispatch
                 +:+ ". I will call `dispatch_courier()`."] in
    dispatch_result ←
      post_dispatch env fsd (JDict {[ "cauldron_id" := cauldron_id_to_dispatch ]});
    status ← py_item dispatch_result "status";
    message ← py_item dispatch_result "message";
    Ok (message, plan ++ ["Tool Result: " +:+ py_str status +:+ "."])
  else
    Ok (JStr "Which cauldron (e.g., cauldron_001) should I dispatch to?", []).

Definition optimize_reply (fsd : static_data) : result (json * list string) :=
  let plan := ["Plan: User asked for the Bonus. I will explain the solution using the live API data."] in
  network_edges ← py_len (network fsd);
  num_couriers ← py_len (couriers fsd);
  market_name ← py_get (market fsd) "name" (JStr "The Enchanted Market");
  Ok (JStr ("This is the EOG Bonus! Here is how I would solve it:" +:+ nl
            +:+ "1. **Use Forecast:** First, I call my `forecast_fill_times()` tool to get a 'deadline' for each cauldron." +:+ nl
            +:+ "2. **Use Network Map:** I will use the **`/api/Information/network`** data to calculate travel times between the "
            +:+ py_str market_name +:+ " and all urgent cauldrons." +:+ nl
            +:+ "3. **Account for Constraints:** I'll add the 15-minute `unload_time` at the market, plus the `drain_rate` (from `/api/Data/metadata`) to calculate drain time." +:+ nl
            +:+ "4. **Find Minimum Witches:** I'll run a VRP (Vehicle Routing Problem) algorithm to find the minimum number of the **"
            +:+ py_str (JInt num_couriers)
            +:+ " available couriers** (from `/api/Information/couriers`) needed to service all cauldrons before they overflow."),
      plan).

(** Lines 387-461: the reply composed locally and the plan so far. *)
Definition local_reply (env : chat_env) (fsd : static_data)
    (user_message : string) : result (json * list string) :=
  match route user_message with
  | Discrepancy => discrepancy_reply env fsd
  | Forecast => forecast_reply env fsd
  | Dispatch => dispatch_reply env fsd user_message
  | Optimize => optimize_reply fsd
  | Help => Ok (JStr help_text, [])
  end.

Definition chat_response (agent_final_response : json) (agent_plan : list string)
  : view_ret :=
  jsonify (JDict {[ "agent_response" := agent_final_response;
                    "agent_plan" := JList (JStr <$> agent_plan) ]}).

Definition handle_agent_chat (env : chat_env) (fsd : static_data)
    (request_json : json) : result view_ret :=
  user_message ← py_get request_json "message" JNull;
  key_field ← py_get request_json "nv_api_key" JNull;
  let nv_api_key := py_or key_field (environ_get (env_nv_api_key env)) in
  flag ← py_get request_json "use_nemotron" JNull;
  let use_nemotron := truthy flag || truthy nv_api_key in
  debug ← py_get request_json "debug" JNull;
  let show_reasoning :=
    truthy debug || truthy (environ_get (env_show_reasoning env)) in
  match user_message with
  | JStr message =>
      '(agent_final_response, agent_plan) ← local_reply env fsd message;
      if use_nemotron then
        let '(response, plan) :=
          refine_reply env nv_api_key show_reasoning message
                       agent_final_response agent_plan in
        Ok (chat_response response plan)
      else Ok (chat_response agent_final_response agent_plan)
  | _ => no_attribute user_message "lower"
  end.

End Chat.

End App.

(** ** Vocabulary of the statements *)

Section Vocabulary.
Context `{Text}.

(** The values [float()] keeps apart from [list] and [dict]: what may be a
    dictionary key. *)
Definition hashable (k : json) : Prop :=
  match k with JList _ | JDict _ => False | _ => True end.

(** A JSON number proper: an [int] or a [float]. *)
Definition is_number (v : json) : Prop :=
  match v with JInt _ | JFloat _ => True | _ => False end.

(** The number a level stands for, in the words of the claim: a float is
    that float, an int or a bool the float of its value unless that is out
    of the float range, a text the float it spells; nothing else is a
    number. *)
Definition number_of (v : json) : option spec_float :=
  match v with
  | JFloat f => Some f
  | JInt z =>
      match float_of_Z z with
      | S754_infinity _ => None
      | f => Some f
      end
  | JBool b => Some (float_of_Z (if b then 1 else 0))
  | JStr s => str_float s
  | _ => None
  end.

(** A level after coercion: its number, or the level itself when it stands
    for none. *)
Definition stored_level (v : json) : json :=
  match number_of v with
  | Some f => JFloat f
  | None => v
  end.

(** The levels map of a time-series record after the coercion loop. *)
Definition coerced (lv : jobj) : pymap :=
  (fun kv => (JStr kv.1, stored_level kv.2)) <$> map_to_list lv.

(** The four encodings of "asset [a] is at level [v]". *)
Definition time_series_payload (stamp : json) (a : string) (v : json) : json :=
  JList [JDict {[ "timestamp" := stamp; "cauldron_levels" := JDict {[ a := v ]} ]}].

Definition flat_record (id_key level_key a : string) (v : json) : json :=
  JDict (<[level_key := v]> {[ id_key := JStr a ]}).

Definition flat_payload (id_key level_key a : string) (v : json) : json :=
  JList [flat_record id_key level_key a v].

Definition wrapped_payload (wrapper id_key level_key a : string) (v : json) : json :=
  JDict {[ wrapper := flat_payload id_key level_key a v ]}.

Definition single_payload (id_key level_key a : string) (v : json) : json :=
  flat_record id_key level_key a v.

(** A merged record whose asset has no usable live level. *)
Definition zero_level (d : jobj) : json :=
  JDict (<["anomaly" := JBool false]> (<["current_level" := JInt 0]> d)).

(** A small catalog for the examples. *)
Definition azure_vat : jobj :=
  {[ "id" := JStr "cauldron_001"; "name" := JStr "Azure Vat";
     "max_volume" := JInt 100;
     "fill_rate_per_min" := JFloat (float_of_Z 2);
     "drain_rate_per_min" := JFloat (float_of_Z 15) ]}.

Definition demo_catalog : static_data :=
  {| cauldrons := [JDict azure_vat];
     network := JList []; market := JDict ∅; couriers := JList [] |}.

Definition huge : Z := 10 ^ 400.

(** The live level the merger finds for a catalog entry: [None] when the
    map has no binding for its id. *)
Definition live_level (live_levels_map : pymap) (d : jobj) : json :=
  default JNull (find_key (default JNull (d !! "id")) live_levels_map).

(** The overflow flag as the merger computes it on numbers. *)
Definition overflows (level capacity : json) : bool :=
  match as_num level, as_num capacity with
  | Some x, Some y => truthy level && cmp_holds OpGe (num_compare x y)
  | _, _ => false
  end.

(** The merged record of a catalog entry. *)
Definition merged_record (live_levels_map : pymap) (d : jobj) : json :=
  let level := live_level live_levels_map d in
  JDict (<["anomaly" := JBool (overflows level (default JNull (d !! "max_volume")))]>
           (<["current_level" := if is_none level then JInt 0 else level]> d)).

(** A catalog entry as the data model has it: an id that can be a key and a
    numeric capacity. *)
Definition catalog_entry (d : jobj) : Prop :=
  (exists i, d !! "id" = Some i /\ hashable i) /\
  (exists cap, d !! "max_volume" = Some cap /\ is_number cap).

(** A level map whose levels are numbers or [None]. *)
Definition numeric_levels (live_levels_map : pymap) : Prop :=
  Forall (fun kv => kv.2 = JNull \/ is_number kv.2) live_levels_map.

(** A merged status record as the Forecaster reads it: its id and name, a
    numeric level and capacity, and the fill rate, a float (the loader
    stores [round(random.uniform(0.5, 2.0), 2)]). *)
Record merged_status := {
  ms_id : json;
  ms_name : json;
  ms_level : pynum;
  ms_capacity : pynum;
  ms_rate : spec_float
}.



(** Integers that floats hold exactly, also after one subtraction. *)
Definition exact_int (n : pynum) : Prop :=
  match n with NInt z => Z.abs z < 2 ^ 52 | NFloat _ => True end.



Definition as_float (n : pynum) : spec_float :=
  match n with NInt z => float_of_Z z | NFloat f => f end.

(** capacity − current level: exact on two ints, the float difference
    otherwise. *)
Definition liters_to_full (s : merged_status) : pynum :=
  match ms_capacity s, ms_level s with
  | NInt y, NInt x => NInt (y - x)
  | y, x => NFloat (SFsub prec emax (as_float y) (as_float x))
  end.



(** The two records of the specification's examples. *)
Definition half_full : jobj := <["current_level" := JInt 50]> azure_vat.

Definition brim_full : jobj :=
  <["current_level" := JInt 100]>
    (<["fill_rate_per_min" := JFloat (float_of_Z 1)]> azure_vat).



(** 25.0 *)
Definition f25 : spec_float := S754_finite false 7036874417766400 (-48).

(** A forecast entry as [forecast_fill_times] makes it: a record with an id
    that can be a key and a float under [time_to_full_min]. *)
Definition forecast_shaped (f : json) : Prop :=
  exists (d : jobj) (t : spec_float),
    f = JDict d /\
    hashable (default JNull (d !! "cauldron_id")) /\
    d !! "time_to_full_min" = Some (JFloat t).

(** The id under which a forecast entry is filed. *)
Definition forecast_key (f : json) : json :=
  match f with
  | JDict d => default JNull (d !! "cauldron_id")
  | _ => JNull
  end.

(** Some forecast entry is about the asset with this id ([==] on ids). *)
Definition has_forecast (fs : list json) (id : json) : Prop :=
  Exists (fun f => key_eqb (forecast_key f) id = true) fs.

(** A capacity that counts as zero. *)
Definition is_zero (v : json) : Prop :=
  v = JInt 0 \/ exists s, v = JFloat (S754_zero s).

(** [max_vol] and [current] of the status loop. *)
Definition capacity_used (d : jobj) : json :=
  py_or (default JNull (d !! "max_volume")) (JInt 1).

Definition level_used (d : jobj) : json :=
  py_or (default JNull (d !! "current_level")) (JInt 0).

(** [round(current / float(max_vol) * 100, 1)], 0.0 when that raises. *)
Definition percent_or_zero (current max_vol : json) : spec_float :=
  try_or (percent_of current max_vol) fzero.

(** The status record of a merged record [d] with time-to-full [t]. *)
Definition with_status (d : jobj) (t : json) : json :=
  JDict (<["time_to_full_min" := t]> (<["percent_full" := JFloat (percent_full d)]> d)).

(** A formatter that shows every value as an ellipsis, to instantiate
    statements that hold whatever the text of a value is. *)
Definition ellipsis_formatter : Formatter :=
  {| py_repr := fun _ => "..."; format_1f := fun _ => "..." |}.

Definition invalid_cauldron : view_ret :=
  WithCode (JDict {[ "status" := JStr "error";
                     "message" := JStr "Invalid cauldron ID." ]}) 400.

Definition dispatched (message : string) : view_ret :=
  jsonify (JDict {[ "status" := JStr "success"; "message" := JStr message ]}).

(** The id a dispatch request names: [data.get('cauldron_id')]. *)
Definition requested_id (body : jobj) : json := default JNull (body !! "cauldron_id").

(** The id of a catalog entry. *)
Definition entry_id (d : jobj) : json := default JNull (d !! "id").

Definition demo_state : app_state :=
  {| factory_static_data := demo_catalog; console := [] |}.

(** The upstream call raises: there is no connection, or the body of the
    reply is not JSON. *)
Inductive upstream_raises : upstream -> Prop :=
| raises_unreachable (msg : string) : upstream_raises (Unreachable msg)
| raises_not_json (status : Z) : upstream_raises (Reply status None).

(** A 500 error object. *)
Definition error_500 (msg : string) : view_ret :=
  WithCode (JDict {[ "error" := JStr msg ]}) 500.

Definition connection_error_reply : json :=
  JList [JDict {[ "message" := JStr "Error connecting to EOG API to check tickets." ]}].

Definition completion_warning : string :=
  "Warning: Nemotron streamed no text; keeping local response.".

(** A message that names a forecast, a dispatch and a ticket. *)
Definition mixed_message : string :=
  "Forecast the ticket backlog, then dispatch a courier".

(** The completion service is called: the client is installed and a key is
    at hand. *)
Definition completion_called (env : chat_env) (nv_api_key : json) : bool :=
  has_nemotron env && truthy nv_api_key.

(** The key the handler uses for a request. *)
Definition request_key (env : chat_env) (r : jobj) : json :=
  py_or (default JNull (r !! "nv_api_key")) (environ_get (env_nv_api_key env)).

(** [use_nemotron] of a request. *)
Definition requests_completion (env : chat_env) (r : jobj) : bool :=
  truthy (default JNull (r !! "use_nemotron")) || truthy (request_key env r).

(** The text a stream carries, in the words of the claim: the contents of
    its chunks in order, where a chunk without content counts with its
    text and a chunk without a delta with nothing. *)
Definition spoken (d : delta) : string :=
  match content d with
  | Some c => c
  | None => default "" (text d)
  end.

Fixpoint streamed (cs : list (option delta)) : string :=
  match cs with
  | [] => ""
  | None :: rest => streamed rest
  | Some d :: rest => spoken d +:+ streamed rest
  end.

Definition completion_note : string :=
  "Tool Result: Response generated by Nemotron (stream).".

(** An environment for the examples: the client installed, a key in the
    request, and a stream of one blank chunk. *)
Definition blank_stream : completion :=
  {| chunks := [Some {| reasoning_content := None; content := Some "  "; text := None |}];
     failure := None |}.

Definition demo_env : chat_env :=
  {| has_nemotron := true;
     env_nv_api_key := None;
     env_show_reasoning := None;
     tickets_upstream := Reply 200 (Some (JList []));
     data_upstream := Reply 200 (Some (JList []));
     loopback_failure := None;
     nemotron := fun _ _ => blank_stream |}.

(** The same with a service that streams two chunks of text. *)
Definition spoken_stream : completion :=
  {| chunks := [Some {| reasoning_content := None; content := Some " Hi"; text := None |};
                None;
                Some {| reasoning_content := None; content := None; text := Some " there " |}];
     failure := None |}.

Definition speaking_env : chat_env :=
  {| has_nemotron := true;
     env_nv_api_key := None;
     env_show_reasoning := None;
     tickets_upstream := Reply 200 (Some (JList []));
     data_upstream := Reply 200 (Some (JList []));
     loopback_failure := None;
     nemotron := fun _ _ => spoken_stream |}.

Definition demo_request : jobj :=
  {[ "message" := JStr "hello"; "nv_api_key" := JStr "key" ]}.




(** The forecast entry of the half-full example. *)
Definition demo_forecast : json :=
  JDict {[ "cauldron_id" := JStr "cauldron_001";
           "name" := JStr "Azure Vat";
           "time_to_full_min" := JFloat f25 ]}.

(** 50.0 *)
Definition f50 : spec_float := S754_finite false 7036874417766400 (-47).

(** [lv] is the levels map of the last record of [recs] that has one. *)
Definition last_with_levels (recs : list json) (lv : jobj) : Prop :=
  exists front r back,
    recs = front ++ r :: back /\
    levels_of_record r = Some lv /\
    Forall (fun x => levels_of_record x = None) back.

(** A two-record time series. *)
Definition first_levels : jobj := {[ "a" := JStr "3.5" ]}.
Definition latest_record_levels : jobj := {[ "a" := JStr "12.5"; "b" := JStr "n/a" ]}.

Definition first_record : json :=
  JDict {[ "timestamp" := JInt 1; "cauldron_levels" := JDict first_levels ]}.

Definition last_record : json :=
  JDict {[ "timestamp" := JInt 2; "cauldron_levels" := JDict latest_record_levels ]}.

Definition demo_series : list json := [first_record; last_record].

(** The live payload "cauldron_001 is at 50", as a time series. *)
Definition half_full_payload : upstream :=
  Reply 200 (Some (time_series_payload (JInt 0) "cauldron_001" (JInt 50))).

End Vocabulary.

(** ** Vocabulary of the further properties *)

Section FurtherVocabulary.
Context `{Text}.

(** A dict that the normalizer does not recognize: no wrapper key holds a
    list and none of the single-object keys is there. *)
Definition unrecognized_dict (payload : json) : Prop :=
  exists d : jobj,
    payload = JDict d /\
    (forall w l, w ∈ wrapper_keys -> d !! w <> Some (JList l)) /\
    (forall k, k ∈ single_object_keys -> d !! k = None).

(** The level a flat record gives: the number that the value under its
    first level alias stands for, as a float; None when it has no alias or
    the value stands for no number. *)
Definition flat_level (d : jobj) : json :=
  match first_present level_keys d with
  | Some v =>
      match number_of v with
      | Some f => JFloat f
      | None => JNull
      end
  | None => JNull
  end.

(** What one item of a flat list binds: its id and its level, or nothing
    when it is no record or has no id. *)
Definition item_binding (item : json) : option (json * json) :=
  match item with
  | JDict d =>
      if is_none (item_key d) then None else Some (item_key d, flat_level d)
  | _ => None
  end.

(** Every level of the map is a float or None. *)
Definition float_levels (live_levels_map : pymap) : Prop :=
  Forall (fun kv => kv.2 = JNull \/ exists f, kv.2 = JFloat f) live_levels_map.

(** The level that the last item bound to [k] gives. *)
Fixpoint last_level (k : json) (items : list json) : option json :=
  match items with
  | [] => None
  | item :: rest =>
      match last_level k rest with
      | Some v => Some v
      | None =>
          match item_binding item with
          | Some (k', v) => if key_eqb k' k then Some v else None
          | None => None
          end
      end
  end.

(** A flat payload: a list that does not start with a time-series record
    and whose ids can be dictionary keys. *)
Definition flat_items (items : list json) : Prop :=
  (forall first, head items = Some first -> levels_of_record first = None) /\
  Forall (fun item => forall b, item_binding item = Some b -> hashable b.1) items.

Definition demo_flat_items : list json :=
  [ JDict {[ "id" := JStr "cauldron_001"; "level" := JInt 10 ]};
    JInt 3;
    JDict {[ "level" := JInt 99 ]};
    JDict {[ "cauldronId" := JStr "cauldron_001"; "volume" := JStr "70" ]};
    JDict {[ "cauldron" := JDict {[ "id" := JStr "cauldron_002" ]} ]} ].

(** 70.0 *)
Definition f70 : spec_float := S754_finite false 4925812092436480 (-46).

(** What a forecast entry says about the record it was made from: the
    record's id and name, a float, and both tests of the loop true. *)
Definition forecast_of (c e : json) : Prop :=
  exists (id name level capacity rate : json) (t : spec_float),
    py_item c "id" = Ok id /\ py_item c "name" = Ok name /\
    py_item c "current_level" = Ok level /\
    py_item c "max_volume" = Ok capacity /\
    py_item c "fill_rate_per_min" = Ok rate /\
    py_richcmp OpLt level capacity = Ok true /\
    py_richcmp OpGt rate (JInt 0) = Ok true /\
    e = JDict {[ "cauldron_id" := id; "name" := name;
                 "time_to_full_min" := JFloat t ]}.

Definition tuple_error : json :=
  JDict {[ "error" := JStr "'tuple' object has no attribute 'status_code'" ]}.

(** The live-levels call did not give a 200 reply with message [msg] as
    the text of the exception that the caller sees. *)
Definition levels_failed (r : result view_ret) (msg : string) : Prop :=
  (exists body code, r = Ok (WithCode body code) /\
                     msg = "'tuple' object has no attribute 'status_code'") \/
  (exists e, r = Raise e /\ msg = exn_msg e).

(** A time series with a level that is no number. *)
Definition text_level_payload : upstream :=
  Reply 200 (Some (time_series_payload (JInt 0) "cauldron_001" (JStr "n/a"))).

(** The ids of merged records can be dictionary keys: the merger has
    looked them up. *)
Definition keyed (d : jobj) : Prop := is_Some (d !! "id") /\ hashable (entry_id d).

(** The null-ness of [time_to_full_min] against the forecasts. *)
Definition null_iff_no_forecast (fs : list json) (d : jobj) (t : json) : Prop :=
  t = JNull <-> ~ has_forecast fs (entry_id d).

(** A time series whose level is the empty text. *)
Definition empty_text_payload : upstream :=
  Reply 200 (Some (time_series_payload (JInt 0) "cauldron_001" (JStr ""))).

(** An alert as the chat handler reads it: a record with a text message. *)
Definition alert_shaped (a : json) : Prop :=
  exists (d : jobj) (msg : string), a = JDict d /\ d !! "message" = Some (JStr msg).

Definition discrepancy_plan : string :=
  "Plan: User asked about discrepancies. I will call the live `check_discrepancies()` tool.".

Definition all_accounted : json :=
  JStr "I've checked the live tickets. All potion flows are accounted for.".

(** One ticket, as the upstream lists it. *)
Definition demo_tickets : upstream :=
  Reply 200 (Some (JList [JDict {[ "id" := JStr "T-1";
                                   "cauldronId" := JStr "cauldron_001";
                                   "amount" := JInt 120 ]}])).

(** A catalog entry with a text id and a text name. *)
Definition named_entry (d : jobj) (id name : string) : Prop :=
  d !! "id" = Some (JStr id) /\ d !! "name" = Some (JStr name).

(** The tests of the chat handler's loop on one entry. *)
Definition mentioned (user_message id name : string) : bool :=
  Str.contains id (str_lower user_message)
  || Str.contains (str_lower (Str.first_word name)) (str_lower user_message).

Definition dispatch_message (name : string) : string :=
  "Courier witch dispatched to " +:+ name +:+ ". (Simulation)".

Definition dispatch_question : json :=
  JStr "Which cauldron (e.g., cauldron_001) should I dispatch to?".

Definition is_upper (c : ascii) : bool :=
  (65 <=? Str.code c) && (Str.code c <=? 90).

(** A second cauldron, to have two entries. *)
Definition crimson_pot : jobj :=
  {[ "id" := JStr "cauldron_002"; "name" := JStr "Crimson Pot";
     "max_volume" := JInt 80;
     "fill_rate_per_min" := JFloat (float_of_Z 1);
     "drain_rate_per_min" := JFloat (float_of_Z 12) ]}.

Definition two_cauldrons : static_data :=
  {| cauldrons := [JDict azure_vat; JDict crimson_pot];
     network := JList []; market := JDict ∅; couriers := JList [] |}.

(** The key of the chat handler's sort:
    [x.get('time_to_full_min', 9999)]. *)
Definition time_of (f : json) : json :=
  match f with
  | JDict d => default (JInt 9999) (d !! "time_to_full_min")
  | _ => JNull
  end.

(** A number that [<] orders: an int, or a float other than NaN. *)
Definition ordered_number (v : json) : Prop :=
  match v with
  | JInt _ => True
  | JFloat f => f <> S754_nan
  | _ => False
  end.

Definition timed (f : json) : Prop :=
  (exists d : jobj, f = JDict d) /\ ordered_number (time_of f).

(** The time of [b] is not less than the time of [a], by the comparison
    the sort asks. *)
Definition not_later (a b : json) : Prop :=
  py_richcmp OpLt (time_of b) (time_of a) = Ok false.

Definition timed_entry (id : string) (t : spec_float) : json :=
  JDict {[ "cauldron_id" := JStr id; "name" := JStr id;
           "time_to_full_min" := JFloat t ]}.

Definition demo_forecasts : list json :=
  [timed_entry "b" f50; timed_entry "a" f25; timed_entry "c" f50].

(** The environment with another completion service. *)
Definition with_completion (env : chat_env) (f : json -> string -> completion)
  : chat_env :=
  {| has_nemotron := has_nemotron env;
     env_nv_api_key := env_nv_api_key env;
     env_show_reasoning := env_show_reasoning env;
     tickets_upstream := tickets_upstream env;
     data_upstream := data_upstream env;
     loopback_failure := loopback_failure env;
     nemotron := f |}.

(** Two outcomes of the completion call that fail alike and stream the same
    text; their reasoning fragments may differ. *)
Definition same_text (o1 o2 : completion) : Prop :=
  failure o1 = failure o2 /\ assembled (chunks o1) = assembled (chunks o2).

Definition stream_of (reasoning : option string) (said : string) : completion :=
  {| chunks := [Some {| reasoning_content := reasoning;
                        content := Some said; text := None |}];
     failure := None |}.

(** The record the loader stores for the [i]-th fetched record. *)
Definition rated (draw : nat -> spec_float * spec_float) (i : nat) (d d' : jobj)
  : Prop :=
  d' !! "fill_rate_per_min" = Some (JFloat (py_round 2 (draw i).1)) /\
  d' !! "drain_rate_per_min" = Some (JFloat (py_round 2 (draw i).2)) /\
  forall k, k <> "fill_rate_per_min" -> k <> "drain_rate_per_min" ->
            d' !! k = d !! k.

Definition is_record (c : json) : bool :=
  match c with JDict _ => true | _ => false end.

Definition demo_draw (i : nat) : spec_float * spec_float :=
  (float_of_Z 1, float_of_Z 12).

(** Values with a length. *)
Definition sized (v : json) : bool :=
  match v with JList _ | JDict _ | JStr _ => true | _ => false end.

(** [a <= b] as the sort sees it: [b < a] does not hold. *)
Definition xle (a b : xnum) : bool := negb (cmp_holds OpLt (xcompare b a)).

(** The order of the sort on its (key, element) pairs. *)
Definition key_le (p q : json * json) : Prop :=
  py_richcmp OpLt q.1 p.1 = Ok false.

(** The demo environment with the data endpoint out of reach. *)
Definition offline_env : chat_env :=
  {| has_nemotron := true;
     env_nv_api_key := None;
     env_show_reasoning := None;
     tickets_upstream := Reply 200 (Some (JList []));
     data_upstream := Unreachable "connection refused";
     loopback_failure := None;
     nemotron := fun _ _ => blank_stream |}.

Definition forecast_request : jobj := {[ "message" := JStr "When will it be FULL?" ]}.

Definition sort_error : exn :=
  Exn AttributeError "'dict' object has no attribute 'sort'".

(** The catalog with another network answer. *)
Definition with_network (fsd : static_data) (nw : json) : static_data :=
  {| cauldrons := cauldrons fsd; network := nw;
     market := market fsd; couriers := couriers fsd |}.

End FurtherVocabulary.

(** ** The text operations on ASCII text

    The examples below are about ASCII text, on which the three operations
    are the functions of [Str] and [float_of_string]. *)

Lemma lower_char_not_capital (c : ascii) : Str.is_capital (Str.lower_char c) = false.
Proof. destruct c as [[] [] [] [] [] [] [] []]; reflexivity. Qed.

Lemma lower_char_idempotent (c : ascii) :
  Str.lower_char (Str.lower_char c) = Str.lower_char c.
Proof. destruct c as [[] [] [] [] [] [] [] []]; reflexivity. Qed.

Lemma lower_idempotent (s : string) : Str.lower (Str.lower s) = Str.lower s.
Proof.
  induction s as [|c s IH]; simpl; [reflexivity|].
  rewrite lower_char_idempotent, IH. reflexivity.
Qed.

Lemma lower_no_capital (s : string) (c : ascii) :
  In c (String.list_ascii_of_string (Str.lower s)) -> Str.is_capital c = false.
Proof.
  induction s as [|c' s IH]; simpl; intros Hin; [destruct Hin|].
  destruct Hin as [<-|Hin]; [apply lower_char_not_capital | exact (IH Hin)].
Qed.

#[export] Instance ascii_text : Text := {|
  str_lower := Str.lower;
  str_strip := Str.strip;
  str_float := float_of_string;
  str_lower_ascii := fun _ _ => eq_refl;
  str_strip_ascii := fun _ _ => eq_refl;
  str_float_ascii := fun _ _ => eq_refl;
  str_lower_no_capital := lower_no_capital;
  str_lower_idempotent := lower_idempotent
|}.
(** ** Properties *)

(** *** The error monad *)

Lemma bind_ok {A B} (f : A -> result B) (a : A) : (Ok a ≫= f) = f a.
Proof. reflexivity. Qed.

Lemma mapM_ok {A B} (f : A -> result B) (g : A -> B) (l : list A) :
  Forall (fun x => f x = Ok (g x)) l -> mapM f l = Ok (g <$> l).
Proof.
  induction 1 as [|x l Hx _ IH]; simpl; [reflexivity|].
  rewrite Hx, IH. reflexivity.
Qed.

(** *** The loader *)

Lemma assign_all_floats (draw : nat -> spec_float * spec_float) (cs : list json) :
  forall (i : nat) (loaded : list json),
  assign_all draw i cs = Ok loaded ->
  Forall (fun c => exists (d : jobj) (rate : spec_float),
                     c = JDict d /\ d !! "fill_rate_per_min" = Some (JFloat rate))
         loaded.
Proof.
  induction cs as [|c cs IH]; simpl; intros i loaded Hl.
  - injection Hl as <-. constructor.
  - destruct c as [| | | | | |d]; try discriminate Hl. simpl in Hl.
    destruct (assign_all draw (S i) cs) as [rest|] eqn:Hrest; [|discriminate Hl].
    injection Hl as <-. constructor; [|exact (IH _ _ Hrest)].
    eexists _, _. split; [reflexivity|].
    rewrite lookup_insert_ne by discriminate. apply lookup_insert_eq.
Qed.

(** After a successful load every cauldron is a record whose fill rate is a
    float. *)
Lemma loaded_fill_rates (c n m k : upstream)
    (draw : nat -> spec_float * spec_float) (fsd : static_data) :
  load_static_factory_data c n m k draw = Some fsd ->
  Forall (fun c => exists (d : jobj) (rate : spec_float),
                     c = JDict d /\ d !! "fill_rate_per_min" = Some (JFloat rate))
         (cauldrons fsd).
Proof.
  unfold load_static_factory_data. intros Hl.
  destruct (fetch_json c) as [cs|]; [|discriminate Hl].
  destruct (fetch_json n) as [nw|]; [|discriminate Hl].
  destruct (fetch_json m) as [mk|]; [|discriminate Hl].
  destruct (fetch_json k) as [co|]; [|discriminate Hl]. simpl in Hl.
  destruct (py_iter cs) as [items|]; [|discriminate Hl]. simpl in Hl.
  destruct (assign_all draw 0 items) as [loaded|] eqn:Hloaded; [|discriminate Hl].
  simpl in Hl. destruct (py_len cs); [|discriminate Hl]. simpl in Hl.
  injection Hl as <-. simpl. exact (assign_all_floats draw items 0 loaded Hloaded).
Qed.

(** *** Keys of the level map *)

Section LevelMapKeys.
Context `{Text}.

Lemma store_fresh_key (k v : json) (m : pymap) :
  Forall (fun kv => key_eqb kv.1 k = false) m ->
  store k v m = m ++ [(k, v)].
Proof.
  induction 1 as [|[k' v'] m Hk _ IH]; simpl; [reflexivity|].
  simpl in Hk. rewrite Hk, IH. reflexivity.
Qed.

Lemma fold_store_fresh (g : json -> json) (l : list (string * json)) :
  forall acc : pymap,
  NoDup l.*1 ->
  Forall (fun kv => exists s, kv.1 = JStr s /\ s ∉ l.*1) acc ->
  fold_left (fun m kv => store (JStr kv.1) (g kv.2) m) l acc
  = acc ++ ((fun kv => (JStr kv.1, g kv.2)) <$> l).
Proof.
  induction l as [|[k v] l IH]; intros acc Hnd Hacc; simpl.
  - rewrite app_nil_r. reflexivity.
  - simpl in Hnd. apply NoDup_cons in Hnd as [Hk Hnd].
    rewrite store_fresh_key.
    + rewrite IH; [rewrite <- app_assoc; reflexivity | exact Hnd |].
      apply Forall_app. split.
      * eapply Forall_impl; [exact Hacc|]. intros [k' v'] (s & -> & Hs).
        exists s. split; [reflexivity|]. simpl in Hs.
        intros Hin. apply Hs. apply elem_of_cons. right. exact Hin.
      * constructor; [|constructor]. exists k. split; [reflexivity|exact Hk].
    + eapply Forall_impl; [exact Hacc|]. intros [k' v'] (s & E & Hs).
      simpl in E. subst k'. simpl. apply String.eqb_neq.
      intros ->. apply Hs. simpl. apply elem_of_cons. left. reflexivity.
Qed.

Lemma coerce_or_keep_stored (v : json) : coerce_or_keep v = stored_level v.
Proof.
  unfold coerce_or_keep, stored_level, py_float.
  destruct v as [|b|z|f|s|l|d]; try reflexivity.
  - destruct b; reflexivity.
  - simpl. unfold int_to_float. destruct (float_of_Z z); reflexivity.
  - simpl. destruct (str_float s); reflexivity.
Qed.

Lemma coerce_levels_coerced (lv : jobj) : coerce_levels lv = coerced lv.
Proof.
  unfold coerce_levels, coerced.
  rewrite (fold_store_fresh coerce_or_keep (map_to_list lv) []).
  - apply list_fmap_ext. intros i [k v] _. simpl.
    rewrite coerce_or_keep_stored. reflexivity.
  - apply NoDup_fst_map_to_list.
  - constructor.
Qed.

End LevelMapKeys.

(** *** The time-series shape *)

Section TimeSeriesShape.
Context `{Text}.

Lemma latest_levels_last (recs : list json) (r : json) (lv : jobj) :
  last recs = Some r -> levels_of_record r = Some lv ->
  latest_levels (reverse recs) = lv.
Proof.
  intros Hlast Hlv. apply last_Some in Hlast as [front ->].
  rewrite reverse_app. simpl. rewrite Hlv. reflexivity.
Qed.

Lemma build_levels_map_time_series (first : json) (rest : list json) (lv0 : jobj) :
  levels_of_record first = Some lv0 ->
  build_levels_map (JList (first :: rest))
  = Ok (coerced (latest_levels (reverse (first :: rest)))).
Proof.
  intros H0. unfold build_levels_map. rewrite H0, coerce_levels_coerced.
  reflexivity.
Qed.

Lemma latest_levels_spec (recs : list json) :
  Exists (fun r => is_Some (levels_of_record r)) recs ->
  exists lv, last_with_levels recs lv /\ latest_levels (reverse recs) = lv.
Proof.
  induction recs as [|x recs IH] using rev_ind; intros Hex.
  - apply Exists_nil in Hex. destruct Hex.
  - rewrite reverse_app. simpl.
    destruct (levels_of_record x) as [lv|] eqn:Hx.
    + exists lv. split; [|reflexivity].
      exists recs, x, []. split; [reflexivity|]. split; [exact Hx|constructor].
    + apply Exists_app in Hex as [Hex|Hex].
      * destruct (IH Hex) as (lv & (front & r & back & -> & Hr & Hback) & Hl).
        exists lv. split; [|exact Hl].
        exists front, r, (back ++ [x]). split; [rewrite <- app_assoc; reflexivity|].
        split; [exact Hr|]. apply Forall_app. split; [exact Hback|].
        constructor; [exact Hx|constructor].
      * apply Exists_cons in Hex as [[lv Hlv]|Hex]; [congruence|].
        apply Exists_nil in Hex. destruct Hex.
Qed.

Lemma find_key_text (g : json -> json) (k : string) (l : list (string * json)) :
  NoDup l.*1 ->
  find_key (JStr k) ((fun kv => (JStr kv.1, g kv.2)) <$> l)
  = g <$> ((list_to_map l : jobj) !! k).
Proof.
  induction l as [|[k' v] l IH]; intros Hnd; [reflexivity|].
  apply NoDup_cons in Hnd as [Hk' Hnd].
  rewrite fmap_cons. cbn [find_key fst snd list_to_map foldr].
  change (key_eqb (JStr k') (JStr k)) with (String.eqb k' k).
  destruct (String.eqb k' k) eqn:Heq.
  - apply String.eqb_eq in Heq as ->. rewrite lookup_insert_eq. reflexivity.
  - apply String.eqb_neq in Heq. rewrite lookup_insert_ne by exact Heq.
    exact (IH Hnd).
Qed.

Lemma coerced_lookup (lv : jobj) (k : string) :
  find_key (JStr k) (coerced lv) = stored_level <$> lv !! k.
Proof.
  unfold coerced.
  rewrite (find_key_text stored_level k (map_to_list lv))
    by apply NoDup_fst_map_to_list.
  rewrite list_to_map_to_list. reflexivity.
Qed.

(** C8: on a time-series payload, a non-empty list whose first element
    carries a levels map, the normalizer returns the levels map of the last
    record that carries one, the last list element when it does, with
    every value that stands for a number replaced by that number, a float,
    and every other value left as it is: looking an asset up gives the
    stored form of its level in that record. *)
Theorem normalize_time_series (recs : list json) (r0 : json) (lv0 : jobj) :
  head recs = Some r0 -> levels_of_record r0 = Some lv0 ->
  (exists lv, last_with_levels recs lv /\
              normalize_levels (JList recs) = Ok (Levels (coerced lv))) /\
  (forall rn lv, last recs = Some rn -> levels_of_record rn = Some lv ->
                 normalize_levels (JList recs) = Ok (Levels (coerced lv))) /\
  (forall lv k, find_key (JStr k) (coerced lv) = stored_level <$> lv !! k).
Proof.
  intros Hhead H0.
  destruct recs as [|first rest]; [discriminate|].
  injection Hhead as ->.
  assert (Hn : normalize_levels (JList (r0 :: rest))
               = Ok (Levels (coerced (latest_levels (reverse (r0 :: rest)))))).
  { unfold normalize_levels, unwrap_payload.
    rewrite (build_levels_map_time_series _ _ _ H0). reflexivity. }
  split; [|split].
  - destruct (latest_levels_spec (r0 :: rest)) as (lv & Hlast & Hl).
    + apply Exists_cons. left. rewrite H0. eexists. reflexivity.
    + exists lv. split; [exact Hlast|]. rewrite Hn, Hl. reflexivity.
  - intros rn lv Hlast Hlv.
    rewrite Hn, (latest_levels_last _ _ _ Hlast Hlv). reflexivity.
  - exact coerced_lookup.
Qed.

End TimeSeriesShape.

Lemma normalize_time_series_witness :
  normalize_levels (JList demo_series) = Ok (Levels (coerced latest_record_levels)) /\
  find_key (JStr "a") (coerced latest_record_levels)
  = stored_level <$> latest_record_levels !! "a".
Proof.
  split.
  - apply (proj1 (proj2 (normalize_time_series demo_series first_record first_levels
                           eq_refl eq_refl)) last_record latest_record_levels);
      reflexivity.
  - apply (proj2 (proj2 (normalize_time_series demo_series first_record first_levels
                           eq_refl eq_refl))).
Defined.

(** "12.5" becomes the float 12.5, "n/a" stays. *)
Example coerced_levels_example :
  coerced latest_record_levels
  = [(JStr "a", JFloat (S754_finite false 7036874417766400 (-49)));
     (JStr "b", JStr "n/a")].
Proof. vm_compute. reflexivity. Qed.

(** *** The flat, wrapped and single-object shapes *)

Ltac split_elem H :=
  repeat (apply elem_of_cons in H as [->|H]); [..|apply elem_of_nil in H; destruct H].

Section OtherShapes.
Context `{Text}.

Lemma flat_record_id (id_key level_key a : string) (v : json) :
  id_key ∈ id_keys -> level_key ∈ level_keys ->
  first_present id_keys (<[level_key := v]> {[ id_key := JStr a ]}) = Some (JStr a).
Proof.
  intros Hi Hl. split_elem Hi; split_elem Hl; vm_compute; reflexivity.
Qed.

Lemma flat_record_level (id_key level_key a : string) (v : json) :
  id_key ∈ id_keys -> level_key ∈ level_keys ->
  first_present level_keys (<[level_key := v]> {[ id_key := JStr a ]}) = Some v.
Proof.
  intros Hi Hl. split_elem Hi; split_elem Hl; vm_compute; reflexivity.
Qed.

Lemma flat_record_no_levels_map (id_key level_key a : string) (v : json) :
  id_key ∈ id_keys -> level_key ∈ level_keys ->
  levels_of_record (flat_record id_key level_key a v) = None.
Proof.
  intros Hi Hl. split_elem Hi; split_elem Hl; vm_compute; reflexivity.
Qed.

Lemma flat_record_not_wrapped (id_key level_key a : string) (v : json) :
  id_key ∈ id_keys -> level_key ∈ level_keys -> is_number v ->
  unwrap_payload (single_payload id_key level_key a v)
  = Some (flat_payload id_key level_key a v).
Proof.
  intros Hi Hl Hv. destruct v; try destruct Hv;
    split_elem Hi; split_elem Hl; vm_compute; reflexivity.
Qed.

Lemma wrapped_payload_unwraps (wrapper id_key level_key a : string) (v : json) :
  wrapper ∈ wrapper_keys ->
  unwrap_payload (wrapped_payload wrapper id_key level_key a v)
  = Some (flat_payload id_key level_key a v).
Proof.
  intros Hw. split_elem Hw; vm_compute; reflexivity.
Qed.

Lemma item_level_number (d : jobj) (v : json) (f : spec_float) :
  first_present level_keys d = Some v -> is_number v -> py_float v = Ok f ->
  item_level d = JFloat f.
Proof.
  intros Hl Hv Hf. unfold item_level. rewrite Hl.
  destruct v; try destruct Hv; simpl in *;
    first [rewrite Hf; reflexivity | congruence].
Qed.

Lemma item_key_str (d : jobj) (a : string) :
  first_present id_keys d = Some (JStr a) -> item_key d = JStr a.
Proof. intros Hk. unfold item_key. rewrite Hk. reflexivity. Qed.

Lemma build_flat (id_key level_key a : string) (v : json) (f : spec_float) :
  id_key ∈ id_keys -> level_key ∈ level_keys ->
  is_number v -> py_float v = Ok f ->
  build_levels_map (flat_payload id_key level_key a v) = Ok [(JStr a, JFloat f)].
Proof.
  intros Hi Hl Hv Hf. unfold flat_payload, build_levels_map.
  rewrite (flat_record_no_levels_map _ _ _ _ Hi Hl).
  unfold flat_record, add_items, add_item.
  rewrite (item_key_str _ _ (flat_record_id _ _ _ _ Hi Hl)).
  rewrite (item_level_number _ _ _ (flat_record_level _ _ _ _ Hi Hl) Hv Hf).
  reflexivity.
Qed.

Lemma coerced_singleton (a : string) (v : json) (f : spec_float) :
  py_float v = Ok f -> coerced {[ a := v ]} = [(JStr a, JFloat f)].
Proof.
  intros Hf. unfold coerced. rewrite map_to_list_singleton. simpl.
  rewrite <- coerce_or_keep_stored. unfold coerce_or_keep. rewrite Hf. reflexivity.
Qed.

Lemma time_series_record_levels (stamp : json) (lv : jobj) :
  levels_of_record (JDict {[ "timestamp" := stamp; "cauldron_levels" := JDict lv ]})
  = Some lv.
Proof.
  unfold levels_of_record. rewrite lookup_insert_ne by discriminate.
  rewrite lookup_singleton_eq. reflexivity.
Qed.

Lemma normalize_unwrapped (payload live_levels_list : json) (m : pymap) :
  unwrap_payload payload = Some live_levels_list ->
  build_levels_map live_levels_list = Ok m ->
  normalize_levels payload = Ok (Levels m).
Proof. intros Hu Hb. unfold normalize_levels. rewrite Hu, Hb. reflexivity. Qed.

(** C2, as the code has it: for every asset id and every numeric level that
    [float()] converts (any float, any integer within the float range), the
    normalizer gives the same one-entry map, id to that float, for the
    time-series record, the flat list under any id and level alias, the
    same list under any wrapper key, and the single asset object. *)
Theorem normalize_same_map
    (stamp : json) (wrapper id_key level_key a : string) (v : json) (f : spec_float) :
  wrapper ∈ wrapper_keys -> id_key ∈ id_keys -> level_key ∈ level_keys ->
  is_number v -> py_float v = Ok f ->
  let expected := Ok (Levels [(JStr a, JFloat f)]) in
  normalize_levels (time_series_payload stamp a v) = expected /\
  normalize_levels (flat_payload id_key level_key a v) = expected /\
  normalize_levels (wrapped_payload wrapper id_key level_key a v) = expected /\
  normalize_levels (single_payload id_key level_key a v) = expected.
Proof.
  intros Hw Hi Hl Hv Hf expected. subst expected.
  split; [|split; [|split]].
  - unfold time_series_payload.
    eapply normalize_unwrapped; [reflexivity|].
    rewrite (build_levels_map_time_series _ _ _ (time_series_record_levels _ _)).
    rewrite (latest_levels_last [_] _ _ eq_refl (time_series_record_levels _ _)).
    rewrite (coerced_singleton a _ _ Hf). reflexivity.
  - apply normalize_unwrapped with (flat_payload id_key level_key a v);
      [reflexivity | exact (build_flat _ _ a _ _ Hi Hl Hv Hf)].
  - apply normalize_unwrapped with (flat_payload id_key level_key a v);
      [exact (wrapped_payload_unwraps _ id_key level_key a v Hw)
      | exact (build_flat _ _ a _ _ Hi Hl Hv Hf)].
  - apply normalize_unwrapped with (flat_payload id_key level_key a v);
      [exact (flat_record_not_wrapped _ _ a _ Hi Hl Hv)
      | exact (build_flat _ _ a _ _ Hi Hl Hv Hf)].
Qed.

End OtherShapes.

Lemma normalize_same_map_witness :
  let expected := Ok (Levels [(JStr "a", JFloat (float_of_Z 1))]) in
  normalize_levels (time_series_payload (JInt 0) "a" (JFloat (float_of_Z 1))) = expected /\
  normalize_levels (flat_payload "cauldronId" "currentVolume" "a" (JFloat (float_of_Z 1))) = expected /\
  normalize_levels (wrapped_payload "data" "cauldronId" "currentVolume" "a" (JFloat (float_of_Z 1))) = expected /\
  normalize_levels (single_payload "cauldronId" "currentVolume" "a" (JFloat (float_of_Z 1))) = expected.
Proof.
  apply (normalize_same_map (JInt 0) "data" "cauldronId" "currentVolume" "a"
           (JFloat (float_of_Z 1)) (float_of_Z 1)).
  - apply elem_of_cons. left. reflexivity.
  - apply elem_of_cons. left. reflexivity.
  - apply elem_of_cons. left. reflexivity.
  - exact I.
  - reflexivity.
Defined.

(** C2 as stated fails: an integer beyond the float range is kept as it is
    by the time-series branch and replaced by [None] by the flat branch. *)
Lemma normalize_huge_level_differs :
  is_number (JInt huge) /\
  normalize_levels (time_series_payload (JInt 0) "a" (JInt huge))
  = Ok (Levels [(JStr "a", JInt huge)]) /\
  normalize_levels (flat_payload "cauldronId" "currentVolume" "a" (JInt huge))
  = Ok (Levels [(JStr "a", JNull)]) /\
  normalize_levels (time_series_payload (JInt 0) "a" (JInt huge))
  <> normalize_levels (flat_payload "cauldronId" "currentVolume" "a" (JInt huge)).
Proof.
  assert (Ht : normalize_levels (time_series_payload (JInt 0) "a" (JInt huge))
               = Ok (Levels [(JStr "a", JInt huge)])) by (vm_compute; reflexivity).
  assert (Hf : normalize_levels (flat_payload "cauldronId" "currentVolume" "a" (JInt huge))
               = Ok (Levels [(JStr "a", JNull)])) by (vm_compute; reflexivity).
  split; [exact I|]. split; [exact Ht|]. split; [exact Hf|].
  rewrite Ht, Hf. discriminate.
Qed.

(** *** The status merger *)

Section MergerProperties.
Context `{Text}.

Lemma check_hashable_ok (k : json) : hashable k -> check_hashable k = Ok tt.
Proof. destruct k; simpl; intros Hk; first [reflexivity | destruct Hk]. Qed.

Lemma pm_get_hashable (k : json) (m : pymap) :
  hashable k -> pm_get k m = Ok (default JNull (find_key k m)).
Proof. intros Hk. unfold pm_get. rewrite (check_hashable_ok k Hk). reflexivity. Qed.

Lemma merge_cauldron_absent (m : pymap) (d : jobj) (i : json) :
  d !! "id" = Some i -> hashable i -> find_key i m = None ->
  merge_cauldron m (JDict d) = Ok (zero_level d).
Proof.
  intros Hid Hh Hget. unfold merge_cauldron, py_item. rewrite Hid. simpl.
  rewrite (pm_get_hashable i m Hh), Hget. reflexivity.
Qed.

Lemma find_key_numeric (m : pymap) (k v : json) :
  numeric_levels m -> find_key k m = Some v -> v = JNull \/ is_number v.
Proof.
  induction 1 as [|[k' v'] m Hkv _ IH]; simpl; [discriminate|].
  destruct (key_eqb k' k); [|exact IH].
  intros [= <-]. exact Hkv.
Qed.

Lemma richcmp_numbers (op : cmpop) (a b : json) (x y : pynum) :
  as_num a = Some x -> as_num b = Some y ->
  py_richcmp op a b = Ok (cmp_holds op (num_compare x y)).
Proof.
  intros Ha Hb.
  destruct a; try discriminate; destruct b; try discriminate;
    simpl in *; injection Ha as <-; injection Hb as <-; reflexivity.
Qed.

Lemma number_as_num (v : json) : is_number v -> exists x, as_num v = Some x.
Proof. destruct v; simpl; intros Hv; try destruct Hv; eauto. Qed.

Lemma merge_cauldron_numeric (m : pymap) (d : jobj) :
  catalog_entry d -> numeric_levels m ->
  merge_cauldron m (JDict d) = Ok (merged_record m d).
Proof.
  intros [(i & Hid & Hh) (cap & Hcap & Hnum)] Hm.
  unfold merge_cauldron, merged_record, live_level, py_item.
  rewrite Hid, Hcap. simpl.
  rewrite (pm_get_hashable i m Hh).
  destruct (find_key i m) as [lvl|] eqn:Hget; simpl.
  - destruct (find_key_numeric m i lvl Hm Hget) as [-> | Hlvl]; [reflexivity|].
    destruct (number_as_num _ Hlvl) as [x Hx].
    destruct (number_as_num _ Hnum) as [y Hy].
    unfold overflows. rewrite Hx, Hy.
    assert (Hnone : is_none lvl = false) by (destruct lvl; try destruct Hlvl; reflexivity).
    rewrite Hnone.
    destruct (truthy lvl) eqn:Ht; simpl; [|reflexivity].
    rewrite lookup_insert_ne by discriminate. rewrite Hcap. simpl.
    rewrite (richcmp_numbers OpGe lvl cap x y Hx Hy). reflexivity.
  - reflexivity.
Qed.

(** The merger on a catalog of well-formed entries and a map of numeric
    levels: one merged record per entry, in catalog order, and no
    exception. *)
Lemma merge_levels_numeric (fsd : static_data) (ds : list jobj) (m : pymap) :
  cauldrons fsd = JDict <$> ds -> Forall catalog_entry ds -> numeric_levels m ->
  merge_levels fsd m = Ok (merged_record m <$> ds).
Proof.
  intros Hc Hds Hm. unfold merge_levels. rewrite Hc.
  rewrite (mapM_ok _ (fun c => match c with
                               | JDict d => merged_record m d
                               | _ => JNull
                               end)).
  - rewrite <- list_fmap_compose. reflexivity.
  - apply Forall_fmap. eapply Forall_impl; [exact Hds|].
    intros d Hd. simpl. apply merge_cauldron_numeric; assumption.
Qed.

(** An entry whose id is absent from the map gets level 0 and no overflow. *)
Lemma merged_record_absent (m : pymap) (d : jobj) :
  find_key (default JNull (d !! "id")) m = None ->
  merged_record m d = zero_level d.
Proof.
  intros Hget. unfold merged_record, live_level. rewrite Hget. reflexivity.
Qed.

Lemma merge_levels_empty (fsd : static_data) (ds : list jobj) :
  cauldrons fsd = JDict <$> ds ->
  Forall (fun d => exists i, d !! "id" = Some i /\ hashable i) ds ->
  merge_levels fsd [] = Ok (zero_level <$> ds).
Proof.
  intros Hc Hds. unfold merge_levels. rewrite Hc.
  rewrite (mapM_ok _ (fun c => match c with
                               | JDict d => zero_level d
                               | _ => JNull
                               end)).
  - rewrite <- list_fmap_compose. reflexivity.
  - apply Forall_fmap. eapply Forall_impl; [exact Hds|].
    intros d (i & Hid & Hh). simpl.
    apply (merge_cauldron_absent [] d i Hid Hh). reflexivity.
Qed.

Lemma zero_below_positive (x y : pynum) :
  xnum_of x = XFin 0 0 ->
  cmp_holds OpGt (num_compare y (NInt 0)) = true ->
  cmp_holds OpGe (num_compare x y) = false.
Proof.
  unfold num_compare. intros ->. simpl xnum_of.
  destruct (xnum_of y) as [|s|m e].
  - discriminate.
  - destruct s; [discriminate|reflexivity].
  - unfold xcompare. rewrite (Z.min_comm 0 e), !Z.mul_0_l.
    rewrite (Z.compare_antisym (m * 2 ^ (e - Z.min e 0)) 0).
    destruct (m * 2 ^ (e - Z.min e 0) ?= 0); simpl;
      first [discriminate | reflexivity].
Qed.

Lemma falsy_number_is_zero (v : json) (x : pynum) :
  as_num v = Some x -> truthy v = false -> xnum_of x = XFin 0 0.
Proof.
  destruct v as [|b|z|f|s|l|d]; simpl; try discriminate; intros [= <-] Ht.
  - destruct b; [discriminate|reflexivity].
  - apply negb_false_iff, Z.eqb_eq in Ht. subst. reflexivity.
  - destruct f; try discriminate. reflexivity.
Qed.

(** With a positive capacity the overflow flag is exactly "level >=
    capacity". *)
Lemma overflows_iff (level capacity : json) (x y : pynum) :
  as_num level = Some x -> as_num capacity = Some y ->
  cmp_holds OpGt (num_compare y (NInt 0)) = true ->
  overflows level capacity = cmp_holds OpGe (num_compare x y).
Proof.
  intros Hx Hy Hpos. unfold overflows. rewrite Hx, Hy.
  destruct (truthy level) eqn:Ht; [reflexivity|].
  rewrite (zero_below_positive x y (falsy_number_is_zero level x Hx Ht) Hpos).
  reflexivity.
Qed.

(** No live level, no overflow. *)
Lemma overflows_none (capacity : json) : overflows JNull capacity = false.
Proof. reflexivity. Qed.

(** C1, what the code does: a bare number is none of the recognized shapes,
    yet the live-levels operation answers 200 with every asset at level 0
    instead of the format error. *)
Theorem bare_number_reported_as_success
    (fsd : static_data) (ds : list jobj) (status z : Z) :
  cauldrons fsd = JDict <$> ds ->
  Forall (fun d => exists i, d !! "id" = Some i /\ hashable i) ds ->
  get_cauldron_levels fsd (Reply status (Some (JInt z)))
  = Ok (jsonify (JList (zero_level <$> ds))).
Proof.
  intros Hc Hds. unfold get_cauldron_levels. simpl.
  rewrite (merge_levels_empty fsd ds Hc Hds). reflexivity.
Qed.

(** The sibling branch: a dict of no known shape does get the format
    error. *)
Lemma unknown_dict_reported_as_error (fsd : static_data) (status : Z) :
  get_cauldron_levels fsd (Reply status (Some (JDict {[ "foo" := JInt 1 ]})))
  = Ok format_error.
Proof. reflexivity. Qed.

End MergerProperties.

Lemma bare_number_reported_as_success_witness :
  get_cauldron_levels demo_catalog (Reply 200 (Some (JInt 7)))
  = Ok (jsonify (JList [zero_level azure_vat])).
Proof.
  apply (bare_number_reported_as_success demo_catalog [azure_vat] 200 7).
  - reflexivity.
  - constructor; [|constructor].
    exists (JStr "cauldron_001"). split; [reflexivity | exact I].
Defined.

(** C3, what the code does: a level that [float()] refuses is kept by the
    time-series branch, and the merger's comparison with the capacity then
    raises; the same text in a flat record is replaced by [None] and merges
    as level 0. *)
Theorem merge_raises_on_kept_text :
  get_cauldron_levels demo_catalog
    (Reply 200 (Some (time_series_payload (JInt 0) "cauldron_001" (JStr "n/a"))))
  = raise TypeError "'>=' not supported between instances of 'str' and 'int'"
  /\
  get_cauldron_levels demo_catalog
    (Reply 200 (Some (flat_payload "cauldronId" "currentVolume" "cauldron_001" (JStr "n/a"))))
  = Ok (jsonify (JList [zero_level azure_vat])).
Proof. split; vm_compute; reflexivity. Qed.

(** *** Integers that convert without rounding *)

Lemma digits2_pos_bound (p : positive) :
  2 ^ (Zpos (digits2_pos p) - 1) <= Zpos p < 2 ^ Zpos (digits2_pos p).
Proof.
  induction p as [p IH|p IH|]; simpl digits2_pos.
  - rewrite Pos2Z.inj_succ.
    replace (Z.succ (Z.pos (digits2_pos p)) - 1)
      with (Z.succ (Z.pos (digits2_pos p) - 1)) by lia.
    rewrite !Z.pow_succ_r by lia. lia.
  - rewrite Pos2Z.inj_succ.
    replace (Z.succ (Z.pos (digits2_pos p)) - 1)
      with (Z.succ (Z.pos (digits2_pos p) - 1)) by lia.
    rewrite !Z.pow_succ_r by lia. lia.
  - simpl. lia.
Qed.

Lemma digits2_pos_small (p : positive) :
  Zpos p < 2 ^ 53 -> Zpos (digits2_pos p) <= 53.
Proof.
  intros Hp.
  destruct (Z_le_gt_dec (Zpos (digits2_pos p)) 53) as [|Hgt]; [assumption|].
  pose proof (digits2_pos_bound p) as [Hlo _].
  assert (2 ^ 53 <= 2 ^ (Zpos (digits2_pos p) - 1))
    by (apply Z.pow_le_mono_r; lia).
  lia.
Qed.

Lemma digits2_pos_iter_xO (p n : positive) :
  digits2_pos (Pos.iter xO p n) = (digits2_pos p + n)%positive.
Proof.
  induction n as [|n IH] using Pos.peano_ind.
  - simpl. lia.
  - rewrite Pos.iter_succ. simpl. rewrite IH. lia.
Qed.

(** Below 2^53 the mantissa is only shifted into place: the conversion is
    finite. *)
Lemma binary_round_small (s : bool) (p : positive) :
  Zpos p < 2 ^ 53 ->
  exists m e, binary_round 53 1024 s p 0 = S754_finite s m e.
Proof.
  intros Hp. pose proof (digits2_pos_small p Hp) as Hd.
  unfold binary_round.
  assert (Hfexp : fexp 53 1024 (Zpos (digits2_pos p) + 0)
                  = Zpos (digits2_pos p) - 53).
  { unfold fexp, emin. lia. }
  rewrite Hfexp. unfold shl_align.
  destruct (Z.pos (digits2_pos p) - 53 - 0) as [|q|q] eqn:Hq; [| lia |].
  - unfold binary_round_aux, shr_fexp. cbn [Zdigits2].
    assert (Hf : fexp 53 1024 (Z.pos (digits2_pos p) + 0) - 0 = 0)
      by (rewrite Hfexp; lia).
    rewrite Hf.
    cbn [shr shr_record_of_loc shr_m loc_of_shr_record round_nearest_even Zdigits2].
    rewrite Hf. cbn [shr shr_m]. eexists _, _. reflexivity.
  - unfold binary_round_aux, shr_fexp. cbn [Zdigits2].
    rewrite digits2_pos_iter_xO.
    assert (Hf : fexp 53 1024 (Z.pos (digits2_pos p + q)
                               + (Z.pos (digits2_pos p) - 53))
                 - (Z.pos (digits2_pos p) - 53) = 0).
    { unfold fexp, emin. lia. }
    rewrite Hf.
    cbn [shr shr_record_of_loc shr_m loc_of_shr_record round_nearest_even Zdigits2].
    rewrite digits2_pos_iter_xO. rewrite Hf. cbn [shr shr_m].
    replace (Z.pos (digits2_pos p) - 53 <=? 1024 - 53) with true
      by (symmetry; apply Z.leb_le; lia).
    eexists _, _. reflexivity.
Qed.

Lemma int_to_float_small (z : Z) :
  Z.abs z < 2 ^ 53 -> int_to_float z = Ok (float_of_Z z).
Proof.
  intros Hz. unfold int_to_float, float_of_Z, binary_normalize, prec, emax.
  destruct z as [|p|p]; [reflexivity| |].
  - destruct (binary_round_small false p) as (m & e & ->); [lia|reflexivity].
  - destruct (binary_round_small true p) as (m & e & ->); [lia|reflexivity].
Qed.

Lemma num_to_float_exact (n : pynum) :
  exact_int n -> num_to_float n = Ok (as_float n).
Proof.
  destruct n as [z|f]; simpl; intros Hn; [|reflexivity].
  apply int_to_float_small. lia.
Qed.

(** *** The Forecaster *)

Ltac invert_bind H :=
  match type of H with
  | (?c ≫= _) = Ok _ =>
      let E := fresh "E" in
      destruct c eqn:E; simpl in H; [|discriminate H]
  end.

Section ForecasterProperties.
Context `{Text}.









(** The forecast endpoint runs the Forecaster on what the live-levels
    endpoint returned. *)
Lemma forecast_fill_times_ok (fsd : static_data) (u : upstream) (body : json) :
  get_cauldron_levels fsd u = Ok (Plain body) ->
  forecast_fill_times fsd u
  = (forecasts ← forecast_records body; Ok (jsonify (JList forecasts))).
Proof. intros Hg. unfold forecast_fill_times. rewrite Hg. reflexivity. Qed.

Lemma forecast_cauldron_entry (c e : json) :
  forecast_cauldron c = Ok (Some e) ->
  exists id name t,
    py_item c "id" = Ok id /\
    e = JDict {[ "cauldron_id" := id; "name" := name;
                 "time_to_full_min" := JFloat t ]}.
Proof.
  unfold forecast_cauldron. intros Hf.
  repeat first
    [ invert_bind Hf
    | match type of Hf with
      | (if ?b then _ else _) = _ => destruct b; [|discriminate Hf]
      end ].
  injection Hf as <-. eexists _, _, _. split; reflexivity.
Qed.

Lemma appended_elem (entries : list (option json)) (e : json) :
  e ∈ appended entries -> Some e ∈ entries.
Proof.
  induction entries as [|[x|] entries IH]; simpl; intros Hin.
  - apply elem_of_nil in Hin. destruct Hin.
  - apply elem_of_cons in Hin as [->|Hin]; apply elem_of_cons;
      [left; reflexivity | right; exact (IH Hin)].
  - apply elem_of_cons. right. exact (IH Hin).
Qed.

Lemma mapM_elem {A B} (f : A -> result B) (l : list A) (out : list B) (y : B) :
  mapM f l = Ok out -> y ∈ out -> exists x, x ∈ l /\ f x = Ok y.
Proof.
  revert out. induction l as [|x l IH]; simpl; intros out Hm Hin.
  - injection Hm as <-. apply elem_of_nil in Hin. destruct Hin.
  - destruct (f x) as [b|] eqn:Hx; simpl in Hm; [|discriminate Hm].
    destruct (mapM f l) as [bs|] eqn:Hl; simpl in Hm; [|discriminate Hm].
    injection Hm as <-. apply elem_of_cons in Hin as [->|Hin].
    + exists x. split; [apply elem_of_cons; left; reflexivity | exact Hx].
    + destruct (IH bs eq_refl Hin) as (x' & Hx' & Hfx').
      exists x'. split; [apply elem_of_cons; right; exact Hx' | exact Hfx'].
Qed.

(** What the Forecaster returns has the shape the status loop relies on. *)
Lemma forecast_records_shaped (recs out : list json) :
  forecast_records (JList recs) = Ok out ->
  Forall (fun c => forall id, py_item c "id" = Ok id -> hashable id) recs ->
  Forall forecast_shaped out.
Proof.
  unfold forecast_records. simpl py_iter. rewrite bind_ok.
  intros Hf Hrecs. invert_bind Hf. injection Hf as <-.
  apply Forall_forall. intros e He.
  apply appended_elem in He.
  destruct (mapM_elem _ _ _ _ E He) as (c & Hc & Hfc).
  destruct (forecast_cauldron_entry c e Hfc) as (id & name & t & Hid & ->).
  rewrite Forall_forall in Hrecs.
  eexists _, t. split; [reflexivity|]. split; [|reflexivity].
  rewrite lookup_insert_eq. simpl. exact (Hrecs c Hc id Hid).
Qed.

End ForecasterProperties.


(** The same two examples with the fill rate written as an integer. *)
Example forecast_integer_rate :
  forecast_records
    (JList [JDict (<["fill_rate_per_min" := JInt 2]> half_full);
            JDict (<["fill_rate_per_min" := JInt 1]> brim_full)])
  = Ok [JDict {[ "cauldron_id" := JStr "cauldron_001";
                 "name" := JStr "Azure Vat";
                 "time_to_full_min" := JFloat f25 ]}].
Proof. vm_compute. reflexivity. Qed.

(** Rounding to one decimal: 100 / 3.0 gives 33.3. *)
Example forecast_rounds_to_one_decimal :
  forecast_records
    (JList [JDict (<["current_level" := JInt 0]>
                     (<["fill_rate_per_min" := JFloat (float_of_Z 3)]> azure_vat))])
  = Ok [JDict {[ "cauldron_id" := JStr "cauldron_001";
                 "name" := JStr "Azure Vat";
                 "time_to_full_min" :=
                   JFloat (S754_finite false 4686558362232422 (-47)) ]}].
Proof. vm_compute. reflexivity. Qed.


(** *** [==] on dictionary keys is a partial equivalence *)

Lemma scale_eq (m1 e1 m2 e2 e : Z) :
  e <= e1 -> e <= e2 ->
  (m1 * 2 ^ (e1 - Z.min e1 e2) = m2 * 2 ^ (e2 - Z.min e1 e2)
   <-> m1 * 2 ^ (e1 - e) = m2 * 2 ^ (e2 - e)).
Proof.
  intros H1 H2. set (e0 := Z.min e1 e2).
  assert (He0 : e <= e0) by (unfold e0; lia).
  assert (He1 : e0 <= e1) by (unfold e0; lia).
  assert (He2 : e0 <= e2) by (unfold e0; lia).
  replace (e1 - e) with ((e1 - e0) + (e0 - e)) by lia.
  replace (e2 - e) with ((e2 - e0) + (e0 - e)) by lia.
  rewrite !Z.pow_add_r by lia.
  assert (Hpos : 0 < 2 ^ (e0 - e)) by (apply Z.pow_pos_nonneg; lia).
  rewrite !Z.mul_assoc. split; intros Heq.
  - rewrite Heq. reflexivity.
  - apply Z.mul_cancel_r in Heq; [exact Heq | lia].
Qed.

Lemma xeqb_fin (m1 e1 m2 e2 : Z) :
  xeqb (XFin m1 e1) (XFin m2 e2) = true
  <-> m1 * 2 ^ (e1 - Z.min e1 e2) = m2 * 2 ^ (e2 - Z.min e1 e2).
Proof.
  unfold xeqb. simpl. rewrite <- Z.compare_eq_iff.
  destruct (_ ?= _); split; congruence.
Qed.

Lemma xeqb_shift (a b c : xnum) : xeqb a b = true -> xeqb a c = xeqb b c.
Proof.
  intros Hab.
  destruct a as [|sa|m1 e1], b as [|sb|m2 e2];
    try (exfalso; unfold xeqb in Hab; simpl in Hab;
         repeat match goal with s : bool |- _ => destruct s end;
         discriminate Hab).
  - destruct sa, sb;
      try (unfold xeqb in Hab; simpl in Hab; discriminate Hab); reflexivity.
  - destruct c as [|sc|m3 e3]; try reflexivity.
    apply eq_true_iff_eq. rewrite !xeqb_fin.
    apply xeqb_fin in Hab.
    set (e := Z.min e1 (Z.min e2 e3)).
    rewrite (scale_eq m1 e1 m2 e2 e) in Hab by (unfold e; lia).
    rewrite (scale_eq m1 e1 m3 e3 e) by (unfold e; lia).
    rewrite (scale_eq m2 e2 m3 e3 e) by (unfold e; lia).
    rewrite Hab. reflexivity.
Qed.

Lemma num_eqb_shift (x y z : pynum) :
  num_eqb x y = true -> num_eqb x z = num_eqb y z.
Proof. apply xeqb_shift. Qed.

Lemma key_eqb_shift (k' k id : json) :
  key_eqb k' k = true -> key_eqb k' id = key_eqb k id.
Proof.
  intros Hk.
  destruct k' as [|b'|z'|f'|s'|l'|d'], k as [|b|z|f|s|l|d];
    try discriminate Hk; try reflexivity;
    try (destruct id; try reflexivity;
         apply (num_eqb_shift _ _ _ Hk)).
  simpl in Hk. apply String.eqb_eq in Hk. subst. reflexivity.
Qed.

(** *** The status records *)

Section StatusProperties.
Context `{Text}.

Lemma xeqb_sym (a b : xnum) : xeqb a b = xeqb b a.
Proof.
  destruct a as [|sa|m1 e1], b as [|sb|m2 e2]; try reflexivity;
    try (destruct sa; reflexivity); try (destruct sb; reflexivity).
  - destruct sa, sb; reflexivity.
  - apply eq_true_iff_eq. rewrite !xeqb_fin, (Z.min_comm e2 e1).
    split; intros Heq; symmetry; exact Heq.
Qed.

Lemma key_eqb_sym (a b : json) : key_eqb a b = key_eqb b a.
Proof.
  destruct a, b; try reflexivity; try apply xeqb_sym.
  simpl. apply String.eqb_sym.
Qed.

Lemma find_key_store (k v id : json) (m : pymap) :
  find_key id (store k v m)
  = if key_eqb k id then Some v else find_key id m.
Proof.
  induction m as [|[k' v'] m IH]; simpl; [reflexivity|].
  destruct (key_eqb k' k) eqn:Hk; simpl.
  - rewrite (key_eqb_shift k' k id Hk).
    destruct (key_eqb k id); reflexivity.
  - rewrite IH.
    destruct (key_eqb k' id) eqn:Hid; [|reflexivity].
    destruct (key_eqb k id) eqn:Hkid; [|reflexivity].
    rewrite (key_eqb_shift k' id k Hid), key_eqb_sym, Hkid in Hk.
    discriminate.
Qed.

Lemma index_forecasts_spec (fs : list json) :
  Forall forecast_shaped fs ->
  forall acc : pymap,
  exists fm : pymap,
    index_forecasts acc fs = Ok fm /\
    (forall id, find_key id fm = None
                <-> find_key id acc = None /\ ~ has_forecast fs id) /\
    (forall id f, find_key id fm = Some f ->
                  find_key id acc = Some f \/ f ∈ fs).
Proof.
  induction 1 as [|f fs Hf _ IH]; intros acc.
  - exists acc. split; [reflexivity|]. split.
    + intros id. split; [intros Hn; split; [exact Hn|]|intros [Hn _]; exact Hn].
      intros Hex. apply Exists_nil in Hex. exact Hex.
    + intros id f Hg. left. exact Hg.
  - destruct Hf as (d & t & -> & Hh & Ht).
    destruct (IH (store (default JNull (d !! "cauldron_id")) (JDict d) acc))
      as (fm & Hfm & Hnone & Hsome).
    exists fm. split.
    { simpl. unfold pm_set. rewrite (check_hashable_ok _ Hh). simpl. exact Hfm. }
    split.
    + intros id. rewrite Hnone, find_key_store. unfold has_forecast.
      rewrite Exists_cons. simpl forecast_key.
      destruct (key_eqb (default JNull (d !! "cauldron_id")) id); split.
      * intros [Hd _]. discriminate Hd.
      * intros [_ Hno]. exfalso. apply Hno. left. reflexivity.
      * intros [Ha Hno]. split; [exact Ha|].
        intros [Hd|Hex]; [discriminate Hd | exact (Hno Hex)].
      * intros [Ha Hno]. split; [exact Ha|].
        intros Hex. apply Hno. right. exact Hex.
    + intros id f Hg. destruct (Hsome id f Hg) as [Hset|Hin].
      * rewrite find_key_store in Hset.
        destruct (key_eqb (default JNull (d !! "cauldron_id")) id).
        -- injection Hset as <-. right. apply elem_of_cons. left. reflexivity.
        -- left. exact Hset.
      * right. apply elem_of_cons. right. exact Hin.
Qed.

Lemma build_forecast_map_spec (fs : list json) :
  Forall forecast_shaped fs ->
  exists fm : pymap,
    build_forecast_map (JList fs) = Ok fm /\
    (forall id, find_key id fm = None <-> ~ has_forecast fs id) /\
    (forall id f, find_key id fm = Some f -> forecast_shaped f).
Proof.
  intros Hfs. destruct (index_forecasts_spec fs Hfs []) as (fm & Hfm & Hnone & Hsome).
  exists fm. split; [|split].
  - unfold build_forecast_map, py_or. destruct fs as [|f fs]; exact Hfm.
  - intros id. rewrite Hnone. simpl. split; [intros [_ Hn]; exact Hn|].
    intros Hn. split; [reflexivity|exact Hn].
  - intros id f Hg. destruct (Hsome id f Hg) as [Hnil|Hin]; [discriminate Hnil|].
    rewrite Forall_forall in Hfs. apply Hfs. exact Hin.
Qed.

Lemma forecast_shaped_time (f : json) :
  forecast_shaped f ->
  exists t, (if truthy f then py_get f "time_to_full_min" JNull else Ok JNull)
            = Ok (JFloat t).
Proof.
  intros (d & t & -> & _ & Ht). exists t.
  assert (Hne : truthy (JDict d) = true).
  { simpl. apply negb_true_iff, bool_decide_eq_false.
    intros ->. rewrite lookup_empty in Ht. discriminate Ht. }
  rewrite Hne. simpl. rewrite Ht. reflexivity.
Qed.

Lemma zero_capacity_replaced (d : jobj) :
  d !! "max_volume" = None \/ (exists v, d !! "max_volume" = Some v /\ is_zero v) ->
  capacity_used d = JInt 1.
Proof.
  unfold capacity_used, py_or.
  intros [-> | (v & -> & [-> | [s ->]])]; reflexivity.
Qed.

Lemma missing_level_replaced (d : jobj) :
  d !! "current_level" = None -> level_used d = JInt 0.
Proof. unfold level_used, py_or. intros ->. reflexivity. Qed.

(** C10: the status record of a merged record is always produced.  A
    missing or zero capacity is replaced by 1 and a missing level by 0
    before the division, an arithmetic failure gives [percent_full] 0.0,
    and [time_to_full_min] is null exactly when no forecast entry is about
    the asset. *)
Theorem status_record_spec (fs : list json) (d : jobj) :
  Forall forecast_shaped fs ->
  hashable (default JNull (d !! "id")) ->
  exists (forecast_map : pymap) (t : json),
    build_forecast_map (JList fs) = Ok forecast_map /\
    status_record forecast_map (JDict d) = Ok (with_status d t) /\
    (t = JNull <-> ~ has_forecast fs (default JNull (d !! "id"))) /\
    percent_full d = percent_or_zero (level_used d) (capacity_used d) /\
    (d !! "max_volume" = None \/
     (exists v, d !! "max_volume" = Some v /\ is_zero v) ->
     percent_full d = percent_or_zero (level_used d) (JInt 1)) /\
    (d !! "current_level" = None ->
     percent_full d = percent_or_zero (JInt 0) (capacity_used d)) /\
    (forall e, percent_of (level_used d) (capacity_used d) = Raise e ->
               percent_full d = fzero).
Proof.
  intros Hfs Hid.
  destruct (build_forecast_map_spec fs Hfs) as (fm & Hfm & Hnone & Hsome).
  assert (Htime : exists t,
             time_to_full fm d = Ok t /\
             (t = JNull <-> find_key (default JNull (d !! "id")) fm = None)).
  { unfold time_to_full. rewrite (pm_get_hashable _ fm Hid).
    destruct (find_key (default JNull (d !! "id")) fm) as [f|] eqn:Hget.
    - destruct (forecast_shaped_time f (Hsome _ _ Hget)) as [t Ht].
      exists (JFloat t). split; [exact Ht|]. split; discriminate.
    - exists JNull. split; [reflexivity|]. split; reflexivity. }
  destruct Htime as (t & Ht & Hnull).
  exists fm, t. split; [exact Hfm|]. split.
  { unfold status_record. rewrite Ht. reflexivity. }
  split; [rewrite Hnull; apply Hnone|].
  split; [reflexivity|]. split; [|split].
  - intros Hcap. unfold percent_full. fold (capacity_used d). fold (level_used d).
    rewrite (zero_capacity_replaced d Hcap). reflexivity.
  - intros Hlvl. unfold percent_full. fold (capacity_used d). fold (level_used d).
    rewrite (missing_level_replaced d Hlvl). reflexivity.
  - intros e He. unfold percent_full. fold (capacity_used d). fold (level_used d).
    rewrite He. reflexivity.
Qed.

End StatusProperties.

Lemma status_record_spec_witness :
  exists (forecast_map : pymap) (t : json),
    build_forecast_map (JList [demo_forecast]) = Ok forecast_map /\
    status_record forecast_map (JDict half_full) = Ok (with_status half_full t) /\
    (t = JNull <-> ~ has_forecast [demo_forecast] (JStr "cauldron_001")).
Proof.
  destruct (status_record_spec [demo_forecast] half_full)
    as (fm & t & Hmap & Hrec & Hnull & _).
  - constructor; [|constructor].
    eexists _, f25. split; [reflexivity|]. split; [exact I | reflexivity].
  - exact I.
  - exists fm, t. split; [exact Hmap|]. split; [exact Hrec | exact Hnull].
Defined.

(** The half-full example is 50.0 percent full, 25.0 minutes from full. *)
Example status_of_half_full :
  status_record [(JStr "cauldron_001", demo_forecast)] (JDict half_full)
  = Ok (JDict (<["time_to_full_min" := JFloat f25]>
                 (<["percent_full" := JFloat f50]> half_full))).
Proof. vm_compute. reflexivity. Qed.

(** A capacity given as the text "0" passes the [or 1] and fails the
    division: the percentage is 0.0. *)
Example percent_of_text_zero :
  percent_of (JInt 50) (JStr "0") = raise ZeroDivisionError "float division by zero" /\
  percent_full (<["max_volume" := JStr "0"]> half_full) = fzero.
Proof. split; vm_compute; reflexivity. Qed.

(** The three read endpoints on the half-full example. *)
Example levels_of_half_full :
  get_cauldron_levels demo_catalog half_full_payload
  = Ok (jsonify (JList [JDict (<["anomaly" := JBool false]>
                                 (<["current_level" := JFloat f50]> azure_vat))])).
Proof. vm_compute. reflexivity. Qed.

Example forecast_of_half_full :
  forecast_fill_times demo_catalog half_full_payload
  = Ok (jsonify (JList [demo_forecast])).
Proof. vm_compute. reflexivity. Qed.

Example cauldron_status_of_half_full :
  cauldron_status demo_catalog half_full_payload half_full_payload
  = Ok (jsonify (JList [JDict (<["time_to_full_min" := JFloat f25]>
                                 (<["percent_full" := JFloat f50]>
                                    (<["anomaly" := JBool false]>
                                       (<["current_level" := JFloat f50]> azure_vat))))])).
Proof. vm_compute. reflexivity. Qed.

Example f25_is_25 : f25 = float_of_Z 25 /\ f50 = float_of_Z 50.
Proof. split; vm_compute; reflexivity. Qed.

(** When the second fetch of the status operation fails, the forecast
    endpoint's error object reaches the loop over the forecasts, which
    raises. *)
Example cauldron_status_second_fetch_fails :
  cauldron_status demo_catalog half_full_payload (Unreachable "timeout")
  = raise AttributeError "'str' object has no attribute 'get'".
Proof. vm_compute. reflexivity. Qed.

Section HandlerProperties.

Context `{Text} `{Formatter}.

(** *** Dispatch *)

Lemma find_cauldron_none (ds : list jobj) (cauldron_id : json) :
  Forall (fun d => is_Some (d !! "id")) ds ->
  Forall (fun d => py_eqb (entry_id d) cauldron_id = false) ds ->
  find_cauldron (JDict <$> ds) cauldron_id = Ok JNull.
Proof.
  induction 1 as [|d ds [i Hi] _ IH]; intros Hne; [reflexivity|].
  apply Forall_cons in Hne as [Hd Hne].
  rewrite fmap_cons. simpl. unfold entry_id in Hd. rewrite Hi in *. simpl in *.
  rewrite Hd. apply IH. exact Hne.
Qed.

Lemma find_cauldron_some (ds : list jobj) (cauldron_id : json) :
  Forall (fun d => is_Some (d !! "id")) ds ->
  Exists (fun d => py_eqb (entry_id d) cauldron_id = true) ds ->
  exists d, d ∈ ds /\ py_eqb (entry_id d) cauldron_id = true /\
            find_cauldron (JDict <$> ds) cauldron_id = Ok (JDict d).
Proof.
  induction 1 as [|d ds [i Hi] _ IH]; intros Hex.
  - apply Exists_nil in Hex. destruct Hex.
  - rewrite fmap_cons. simpl. rewrite Hi. simpl.
    destruct (py_eqb i cauldron_id) eqn:Heq.
    + exists d. split; [apply elem_of_cons; left; reflexivity|].
      split; [unfold entry_id; rewrite Hi; exact Heq | reflexivity].
    + apply Exists_cons in Hex as [Hd|Hex].
      * unfold entry_id in Hd. rewrite Hi in Hd. simpl in Hd. congruence.
      * destruct (IH Hex) as (d' & Hin & Hd' & Hfind).
        exists d'. split; [apply elem_of_cons; right; exact Hin|].
        split; [exact Hd' | exact Hfind].
Qed.

(** C6: a dispatch request whose id no catalog entry has is answered 400
    with status "error" and leaves the state as it was; a request whose id
    some entry has is answered with status "success", the catalog
    unchanged. *)
Theorem dispatch_courier_spec (st : app_state) (ds : list jobj) (body : jobj) :
  cauldrons (factory_static_data st) = JDict <$> ds ->
  Forall (fun d => is_Some (d !! "id") /\ is_Some (d !! "name")) ds ->
  (Forall (fun d => py_eqb (entry_id d) (requested_id body) = false) ds ->
   dispatch_courier st (JDict body) = (Ok invalid_cauldron, st)) /\
  (Exists (fun d => py_eqb (entry_id d) (requested_id body) = true) ds ->
   exists message st',
     dispatch_courier st (JDict body) = (Ok (dispatched message), st') /\
     factory_static_data st' = factory_static_data st).
Proof.
  intros Hc Hds.
  assert (Hids : Forall (fun d => is_Some (d !! "id")) ds).
  { eapply Forall_impl; [exact Hds|]. intros d [Hi _]. exact Hi. }
  split.
  - intros Hne. unfold dispatch_courier. simpl py_get. rewrite bind_ok.
    fold (requested_id body). rewrite Hc.
    rewrite (find_cauldron_none ds _ Hids Hne). reflexivity.
  - intros Hex. unfold dispatch_courier. simpl py_get. rewrite bind_ok.
    fold (requested_id body). rewrite Hc.
    destruct (find_cauldron_some ds _ Hids Hex) as (d & Hin & _ & ->).
    rewrite Forall_forall in Hds. destruct (Hds d Hin) as [[i Hi] [n Hn]].
    rewrite bind_ok.
    assert (Ht : truthy (JDict d) = true).
    { simpl. apply negb_true_iff, bool_decide_eq_false.
      intros ->. rewrite lookup_empty in Hi. discriminate Hi. }
    rewrite Ht. simpl negb. cbv iota. unfold py_item. rewrite Hn.
    eexists _, _. split; reflexivity.
Qed.

(** *** Upstream failures *)

(** C9, as the code has it: when the upstream call raises, because there
    is no connection or because the body is not JSON, the live-levels
    operation answers with a 500 error object (carrying the text of the
    exception when there is no connection) and so does the status
    operation, whatever its second call meets; the discrepancy check
    answers 200 with a one-element list that carries an error message and
    the forecast answers 200 with an error object.  The upstream status
    code changes nothing in any of the four. *)
Theorem upstream_failure_replies (fsd : static_data) :
  (forall u, upstream_raises u ->
     (exists msg, get_cauldron_levels fsd u = Ok (error_500 msg)) /\
     (forall u2, cauldron_status fsd u u2
                 = Ok (error_500 ("Could not fetch live levels: "
                         +:+ "'tuple' object has no attribute 'status_code'"))) /\
     check_discrepancies fsd u = jsonify connection_error_reply /\
     forecast_fill_times fsd u
     = Ok (jsonify (JDict {[ "error" :=
             JStr "'tuple' object has no attribute 'status_code'" ]}))) /\
  (forall msg, get_cauldron_levels fsd (Unreachable msg) = Ok (error_500 msg)) /\
  (forall status status' body,
     get_cauldron_levels fsd (Reply status body)
     = get_cauldron_levels fsd (Reply status' body) /\
     check_discrepancies fsd (Reply status body)
     = check_discrepancies fsd (Reply status' body) /\
     forecast_fill_times fsd (Reply status body)
     = forecast_fill_times fsd (Reply status' body) /\
     (forall u2, cauldron_status fsd (Reply status body) u2
                 = cauldron_status fsd (Reply status' body) u2) /\
     (forall u1, cauldron_status fsd u1 (Reply status body)
                 = cauldron_status fsd u1 (Reply status' body))).
Proof.
  split; [|split].
  - intros u [msg|status]; (split; [eexists; reflexivity|]);
      (split; [intros u2; reflexivity|]); split; reflexivity.
  - intros msg. reflexivity.
  - intros status status' body.
    assert (Hl : get_cauldron_levels fsd (Reply status body)
                 = get_cauldron_levels fsd (Reply status' body))
      by (destruct body; reflexivity).
    assert (Hf : forecast_fill_times fsd (Reply status body)
                 = forecast_fill_times fsd (Reply status' body))
      by (unfold forecast_fill_times; rewrite Hl; reflexivity).
    split; [exact Hl|]. split; [destruct body; reflexivity|].
    split; [exact Hf|]. split.
    + intros u2. unfold cauldron_status. rewrite Hl. reflexivity.
    + intros u1. unfold cauldron_status, fetch_forecasts. rewrite Hf. reflexivity.
Qed.

End HandlerProperties.

(** C9 as stated fails: with the upstream unreachable the discrepancy check
    returns an ordinary 200 reply, shaped like an alert list. *)
Lemma discrepancy_check_hides_failure :
  let reply := @check_discrepancies ellipsis_formatter demo_catalog
                 (Unreachable "connection refused") in
  http_status (Ok reply) = 200 /\
  get_json reply = Ok connection_error_reply.
Proof. split; reflexivity. Qed.

Lemma dispatch_courier_spec_witness :
  @dispatch_courier ellipsis_formatter demo_state
    (JDict {[ "cauldron_id" := JStr "cauldron_999" ]})
  = (Ok invalid_cauldron, demo_state) /\
  exists message st',
    @dispatch_courier ellipsis_formatter demo_state
      (JDict {[ "cauldron_id" := JStr "cauldron_001" ]})
    = (Ok (dispatched message), st') /\
    factory_static_data st' = factory_static_data demo_state.
Proof.
  split.
  - apply (@dispatch_courier_spec ellipsis_formatter demo_state [azure_vat]
             {[ "cauldron_id" := JStr "cauldron_999" ]}).
    + reflexivity.
    + constructor; [|constructor]. split; eexists; reflexivity.
    + constructor; [|constructor]. reflexivity.
  - apply (@dispatch_courier_spec ellipsis_formatter demo_state [azure_vat]
             {[ "cauldron_id" := JStr "cauldron_001" ]}).
    + reflexivity.
    + constructor; [|constructor]. split; eexists; reflexivity.
    + constructor. reflexivity.
Defined.

(** *** Routing *)

Section ChatProperties.

Context `{Text} `{Formatter}.

Lemma mentions_keyword (k : string) (keywords : list string) (m : string) :
  k ∈ keywords -> Str.contains k (str_lower m) = true ->
  mentions keywords m = true.
Proof.
  intros Hin Hk. unfold mentions. apply existsb_exists.
  exists k. split; [apply list_elem_of_In; exact Hin | exact Hk].
Qed.

(** C5, as the code has it: the message is routed to the first intent, in
    the order discrepancy, forecast, dispatch, optimize, one of whose
    keywords its lower-cased text contains, and to the help text when none
    does; a message that contains "forecast" and "dispatch" and no
    discrepancy keyword takes the forecast path. *)
Theorem route_priority (env : chat_env) (fsd : static_data) (m : string) :
  (mentions discrepancy_keywords m = true ->
   route m = Discrepancy /\ local_reply env fsd m = discrepancy_reply env fsd) /\
  (mentions discrepancy_keywords m = false ->
   mentions forecast_keywords m = true ->
   route m = Forecast /\ local_reply env fsd m = forecast_reply env fsd) /\
  (mentions discrepancy_keywords m = false ->
   mentions forecast_keywords m = false ->
   mentions dispatch_keywords m = true ->
   route m = Dispatch /\ local_reply env fsd m = dispatch_reply env fsd m) /\
  (mentions discrepancy_keywords m = false ->
   mentions forecast_keywords m = false ->
   mentions dispatch_keywords m = false ->
   mentions optimize_keywords m = true ->
   route m = Optimize /\ local_reply env fsd m = optimize_reply fsd) /\
  (mentions discrepancy_keywords m = false ->
   mentions forecast_keywords m = false ->
   mentions dispatch_keywords m = false ->
   mentions optimize_keywords m = false ->
   route m = Help /\ local_reply env fsd m = Ok (JStr help_text, [])) /\
  (Str.contains "forecast" (str_lower m) = true ->
   Str.contains "dispatch" (str_lower m) = true ->
   mentions discrepancy_keywords m = false ->
   route m = Forecast /\ local_reply env fsd m = forecast_reply env fsd).
Proof.
  unfold local_reply, route.
  repeat split; intros;
    repeat match goal with
           | Hm : mentions _ _ = _ |- _ => rewrite Hm
           end;
    try reflexivity;
    rewrite (mentions_keyword "forecast" forecast_keywords m)
      by (first [apply elem_of_cons; left; reflexivity | assumption]);
    reflexivity.
Qed.

(** *** The completion stage *)

Lemma nonempty_false (s : string) : Str.nonempty s = false <-> s = "".
Proof. destruct s; simpl; split; congruence. Qed.

Lemma join_empty_cons (x : string) (l : list string) :
  Str.concat (x :: l) = x +:+ Str.concat l.
Proof.
  unfold Str.concat. destruct l as [|y l]; [|reflexivity].
  change (x = x +:+ ""). induction x as [|c x IH]; [reflexivity|].
  change (String c x = String c (x +:+ "")). rewrite <- IH. reflexivity.
Qed.

Lemma assembled_streamed (cs : list (option delta)) :
  Str.concat (assembled cs) = streamed cs.
Proof.
  induction cs as [|c cs IH]; [reflexivity|].
  change (assembled (c :: cs))
    with (match c ≫= (fun d => keep_nonempty (delta_content d)) with
          | Some x => x :: assembled cs
          | None => assembled cs
          end).
  destruct c as [d|]; [|exact IH].
  change (Some d ≫= (fun d => keep_nonempty (delta_content d)))
    with (keep_nonempty (delta_content d)).
  change (streamed (Some d :: cs)) with (spoken d +:+ streamed cs).
  unfold delta_content, spoken.
  destruct (content d) as [x|]; [|destruct (text d) as [x|]];
    try exact IH;
    (destruct x; [exact IH|]; cbn [keep_nonempty Str.nonempty];
     rewrite join_empty_cons, IH; reflexivity).
Qed.

(** C7: on a chat turn that requests the completion service and whose
    local reply was composed, the turn always answers.  When the service is
    not called (no client, no key) the local reply is returned.  When the
    call fails the failure is appended to the plan and the local reply is
    returned; when the stream ends and the text streamed, stripped, is
    empty, the local reply is returned with a warning in the plan; when it
    is not empty, the reply is that text and the plan says so.  The text
    streamed is the contents of the chunks, in order, a chunk without
    content counting with its text.  So the reply differs from the local
    one only if the service was called, its stream ended without failure
    and the streamed text is not empty. *)
Theorem completion_fallback (env : chat_env) (fsd : static_data) (r : jobj)
    (message : string) (local : json) (plan : list string) :
  r !! "message" = Some (JStr message) ->
  local_reply env fsd message = Ok (local, plan) ->
  requests_completion env r = true ->
  let nv_api_key := request_key env r in
  let outcome := nemotron env nv_api_key (prompt_of plan message) in
  let final_text := str_strip (streamed (chunks outcome)) in
  exists (response : json) (plan' : list string),
    handle_agent_chat env fsd (JDict r) = Ok (chat_response response plan') /\
    (completion_called env nv_api_key = false ->
     response = local /\ exists note, plan' = plan ++ [note]) /\
    (forall e, completion_called env nv_api_key = true ->
               failure outcome = Some e ->
               response = local /\
               plan' = plan ++ ["Nemotron call failed: " +:+ e]) /\
    (completion_called env nv_api_key = true ->
     failure outcome = None -> final_text = "" ->
     response = local /\ plan' = plan ++ [completion_warning]) /\
    (completion_called env nv_api_key = true ->
     failure outcome = None -> final_text <> "" ->
     response = JStr final_text /\
     exists notes, plan' = plan ++ completion_note :: notes) /\
    (response <> local ->
     completion_called env nv_api_key = true /\
     failure outcome = None /\ final_text <> "" /\
     response = JStr final_text).
Proof.
  intros Hm Hlocal Huse nv_api_key outcome final_text.
  unfold handle_agent_chat. simpl py_get. rewrite !bind_ok, Hm. simpl default.
  cbv beta iota. rewrite Hlocal, bind_ok.
  fold (request_key env r). fold nv_api_key.
  unfold requests_completion in Huse. fold nv_api_key in Huse. rewrite Huse.
  unfold refine_reply, completion_called.
  destruct (has_nemotron env); simpl negb; cbv iota.
  2: { eexists _, _. split; [reflexivity|].
       split; [intros _; split; [reflexivity | eexists; reflexivity]|].
       split; [intros e Hc; discriminate Hc|].
       split; [intros Hc; discriminate Hc|].
       split; [intros Hc; discriminate Hc|].
       intros Hne. destruct Hne. reflexivity. }
  destruct (truthy nv_api_key); simpl negb; cbv iota.
  2: { eexists _, _. split; [reflexivity|].
       split; [intros _; split; [reflexivity | eexists; reflexivity]|].
       split; [intros e Hc; discriminate Hc|].
       split; [intros Hc; discriminate Hc|].
       split; [intros Hc; discriminate Hc|].
       intros Hne. destruct Hne. reflexivity. }
  fold outcome. destruct (failure outcome) as [e|] eqn:Hfail.
  { eexists _, _. split; [reflexivity|].
    split; [intros Hc; discriminate Hc|].
    split; [intros e' _ [= <-]; split; reflexivity|].
    split; [intros _ Hn; discriminate Hn|].
    split; [intros _ Hn; discriminate Hn|].
    intros Hne. destruct Hne. reflexivity. }
  rewrite assembled_streamed. fold final_text.
  destruct (Str.nonempty final_text) eqn:Hne.
  - eexists _, _. split; [reflexivity|].
    split; [intros Hc; discriminate Hc|].
    split; [intros e _ He; discriminate He|].
    split; [intros _ _ Hempty; rewrite Hempty in Hne; discriminate Hne|].
    split; [intros _ _ _; split; [reflexivity | eexists; reflexivity]|].
    intros _. split; [reflexivity|]. split; [reflexivity|].
    split; [|reflexivity]. intros Hempty. rewrite Hempty in Hne. discriminate Hne.
  - apply nonempty_false in Hne.
    eexists _, _. split; [reflexivity|].
    split; [intros Hc; discriminate Hc|].
    split; [intros e _ He; discriminate He|].
    split; [intros _ _ _; split; reflexivity|].
    split; [intros _ _ Hfull; destruct (Hfull Hne)|].
    intros Hdiff. destruct Hdiff. reflexivity.
Qed.

End ChatProperties.

Lemma route_priority_witness :
  route "Forecast, then dispatch to cauldron_001" = Forecast /\
  @local_reply ascii_text ellipsis_formatter demo_env demo_catalog
    "Forecast, then dispatch to cauldron_001"
  = @forecast_reply ascii_text ellipsis_formatter demo_env demo_catalog.
Proof.
  apply (@route_priority ascii_text ellipsis_formatter demo_env demo_catalog
           "Forecast, then dispatch to cauldron_001"); reflexivity.
Defined.

(** C5 as stated fails: a message with "forecast" and "dispatch" that also
    has a discrepancy keyword takes the discrepancy path. *)
Lemma forecast_and_dispatch_not_always_forecast :
  Str.contains "forecast" (str_lower mixed_message) = true /\
  Str.contains "dispatch" (str_lower mixed_message) = true /\
  route mixed_message = Discrepancy /\
  route mixed_message <> Forecast.
Proof. repeat split; [reflexivity..|discriminate]. Qed.

Lemma completion_fallback_witness :
  (exists (response : json) (plan' : list string),
     @handle_agent_chat ascii_text ellipsis_formatter demo_env demo_catalog
       (JDict demo_request)
     = Ok (chat_response response plan') /\
     response = JStr help_text /\ plan' = [completion_warning]) /\
  (exists (response : json) (plan' : list string),
     @handle_agent_chat ascii_text ellipsis_formatter speaking_env demo_catalog
       (JDict demo_request)
     = Ok (chat_response response plan') /\
     response = JStr "Hi there").
Proof.
  split.
  - destruct (@completion_fallback ascii_text ellipsis_formatter demo_env
                demo_catalog demo_request "hello" (JStr help_text) [])
      as (response & plan' & Hreply & _ & _ & Hblank & _);
      [reflexivity..|].
    exists response, plan'. split; [exact Hreply|].
    apply Hblank; reflexivity.
  - destruct (@completion_fallback ascii_text ellipsis_formatter speaking_env
                demo_catalog demo_request "hello" (JStr help_text) [])
      as (response & plan' & Hreply & _ & _ & _ & Hsaid & _);
      [reflexivity..|].
    exists response, plan'. split; [exact Hreply|].
    apply Hsaid; [reflexivity | reflexivity | discriminate].
Defined.
(** ** Further properties of the handlers *)

(** *** The live-levels endpoint *)

Section LevelsEndpoint.
Context `{Text}.

Lemma mapM_Forall2 {A B} (f : A -> result B) (l : list A) (out : list B) :
  mapM f l = Ok out -> Forall2 (fun x y => f x = Ok y) l out.
Proof.
  revert out. induction l as [|x l IH]; simpl; intros out Hm.
  - injection Hm as <-. constructor.
  - destruct (f x) as [y|] eqn:Hx; simpl in Hm; [|discriminate Hm].
    destruct (mapM f l) as [ys|] eqn:Hl; simpl in Hm; [|discriminate Hm].
    injection Hm as <-. constructor; [exact Hx | apply IH; reflexivity].
Qed.

(** X1: on a catalog of well-formed entries and a level map whose levels
    are numbers or None, the merger returns one merged record per entry, in
    catalog order; an entry whose id the map does not bind gets level 0 and
    anomaly false, and with a positive capacity the anomaly flag of a bound
    entry is "level >= capacity". *)
Theorem merger_on_numeric_levels (fsd : static_data) (ds : list jobj) (m : pymap) :
  cauldrons fsd = JDict <$> ds -> Forall catalog_entry ds -> numeric_levels m ->
  merge_levels fsd m = Ok (merged_record m <$> ds) /\
  forall d, d ∈ ds ->
    (find_key (entry_id d) m = None -> merged_record m d = zero_level d) /\
    (forall cap x y,
       as_num (live_level m d) = Some x ->
       d !! "max_volume" = Some cap -> as_num cap = Some y ->
       cmp_holds OpGt (num_compare y (NInt 0)) = true ->
       merged_record m d
       = JDict (<["anomaly" := JBool (cmp_holds OpGe (num_compare x y))]>
                  (<["current_level" := live_level m d]> d))).
Proof.
  intros Hc Hds Hm. split; [exact (merge_levels_numeric fsd ds m Hc Hds Hm)|].
  intros d _. split.
  - apply merged_record_absent.
  - intros cap x y Hx Hcap Hy Hpos. unfold merged_record.
    rewrite Hcap. simpl default.
    rewrite (overflows_iff _ _ x y Hx Hy Hpos).
    destruct (live_level m d); try discriminate Hx; reflexivity.
Qed.

Lemma merge_cauldron_inv (m : pymap) (c o : json) :
  merge_cauldron m c = Ok o ->
  exists (d : jobj) (level : json) (anomaly : bool),
    c = JDict d /\ level <> JNull /\
    o = JDict (<["anomaly" := JBool anomaly]> (<["current_level" := level]> d)).
Proof.
  unfold merge_cauldron. intros Hm.
  destruct (py_item c "id") as [i|]; simpl in Hm; [|discriminate Hm].
  destruct c as [| | | | | |d]; try discriminate Hm.
  destruct (pm_get i m) as [lvl|]; simpl in Hm; [|discriminate Hm].
  match type of Hm with
  | (?a ≫= _) = _ => destruct a as [b|]; simpl in Hm; [|discriminate Hm]
  end.
  injection Hm as <-. eexists d, _, b. split; [reflexivity|].
  split; [|reflexivity]. destruct lvl; simpl; discriminate.
Qed.

(** X2: whenever the merger returns, it returns one record per catalog
    entry, in catalog order, and each record is the catalog entry with two
    fields set: current_level, never null, and a boolean anomaly. *)
Theorem merger_keeps_catalog (fsd : static_data) (m : pymap) (out : list json) :
  merge_levels fsd m = Ok out ->
  Forall2 (fun c o =>
             exists (d : jobj) (level : json) (anomaly : bool),
               c = JDict d /\ level <> JNull /\
               o = JDict (<["anomaly" := JBool anomaly]>
                            (<["current_level" := level]> d)))
          (cauldrons fsd) out.
Proof.
  intros Hm. apply mapM_Forall2 in Hm.
  eapply Forall2_impl; [exact Hm|].
  intros c o Hco. exact (merge_cauldron_inv m c o Hco).
Qed.

Lemma first_wrapped_none (ws : list string) (d : jobj) :
  first_wrapped ws d = None <-> forall w l, w ∈ ws -> d !! w <> Some (JList l).
Proof.
  induction ws as [|w ws IH]; simpl.
  - split; [|reflexivity]. intros _ w l Hin. apply elem_of_nil in Hin. destruct Hin.
  - split.
    + intros Hn w' l Hin Hw'.
      apply elem_of_cons in Hin as [->|Hin].
      * rewrite Hw' in Hn. simpl in Hn. discriminate Hn.
      * assert (Hrest : first_wrapped ws d = None).
        { destruct (d !! w) as [[]|]; first [exact Hn | discriminate Hn]. }
        exact (proj1 IH Hrest w' l Hin Hw').
    + intros Hall.
      assert (Hrest : first_wrapped ws d = None).
      { apply IH. intros w' l Hin. apply Hall. apply elem_of_cons. right. exact Hin. }
      destruct (d !! w) as [[| | | | |l|]|] eqn:Hw; try exact Hrest.
      exfalso. apply (Hall w l); [apply elem_of_cons; left; reflexivity | exact Hw].
Qed.

Lemma no_key_present (keys : list string) (d : jobj) :
  existsb (fun k => has_key k d) keys = false <-> forall k, k ∈ keys -> d !! k = None.
Proof.
  induction keys as [|k keys IH]; simpl.
  - split; [|reflexivity]. intros _ k Hin. apply elem_of_nil in Hin. destruct Hin.
  - rewrite orb_false_iff, IH. unfold has_key. rewrite bool_decide_eq_false.
    split.
    + intros [Hk Hrest] k' Hin. apply elem_of_cons in Hin as [->|Hin].
      * destruct (d !! k) as [v|]; [|reflexivity]. exfalso. apply Hk. eexists. reflexivity.
      * exact (Hrest k' Hin).
    + intros Hall. split.
      * rewrite (Hall k) by (apply elem_of_cons; left; reflexivity).
        intros [v Hv]. discriminate Hv.
      * intros k' Hin. apply Hall. apply elem_of_cons. right. exact Hin.
Qed.

Lemma unwrap_payload_none (payload : json) :
  unwrap_payload payload = None <-> unrecognized_dict payload.
Proof.
  unfold unrecognized_dict. split.
  - destruct payload as [| | | | | |d]; try (simpl; discriminate).
    unfold unwrap_payload. intros Hu. exists d. split; [reflexivity|].
    destruct (first_wrapped wrapper_keys d) eqn:Hw; [discriminate Hu|].
    destruct (existsb _ single_object_keys) eqn:Hs; [discriminate Hu|].
    split; [apply first_wrapped_none; exact Hw | apply no_key_present; exact Hs].
  - intros (d & -> & Hw & Hs). unfold unwrap_payload.
    rewrite (proj2 (first_wrapped_none wrapper_keys d))
      by (intros w l Hin; exact (Hw w l Hin)).
    rewrite (proj2 (no_key_present single_object_keys d) Hs). reflexivity.
Qed.

(** X3: the live-levels endpoint answers with the 500 "Unexpected /api/Data
    format" error exactly when the payload is a dict in which no wrapper
    key (data, items, results, value) holds a list and none of cauldronId,
    id, cauldron_id, currentVolume, current_volume is present; the catalog
    plays no part. *)
Theorem format_error_iff (fsd : static_data) (status : Z) (payload : json) :
  get_cauldron_levels fsd (Reply status (Some payload)) = Ok format_error
  <-> unrecognized_dict payload.
Proof.
  rewrite <- unwrap_payload_none. unfold get_cauldron_levels, normalize_levels.
  simpl fetch_json. cbv iota.
  destruct (unwrap_payload payload) as [l|]; [|split; reflexivity].
  split; [|discriminate].
  destruct (build_levels_map l) as [m|]; simpl; [|discriminate].
  destruct (merge_levels fsd m); simpl; discriminate.
Qed.

End LevelsEndpoint.

Lemma merger_on_numeric_levels_witness :
  merge_levels demo_catalog [(JStr "cauldron_001", JFloat f50)]
  = Ok [JDict (<["anomaly" := JBool false]>
                 (<["current_level" := JFloat f50]> azure_vat))].
Proof.
  destruct (merger_on_numeric_levels demo_catalog [azure_vat]
              [(JStr "cauldron_001", JFloat f50)]) as [Hm _].
  - reflexivity.
  - constructor; [|constructor]. split.
    + exists (JStr "cauldron_001"). split; [reflexivity|exact I].
    + exists (JInt 100). split; [reflexivity|exact I].
  - constructor; [|constructor]. right. exact I.
  - rewrite Hm. vm_compute. reflexivity.
Defined.

Lemma merger_keeps_catalog_witness :
  Forall2 (fun c o =>
             exists (d : jobj) (level : json) (anomaly : bool),
               c = JDict d /\ level <> JNull /\
               o = JDict (<["anomaly" := JBool anomaly]>
                            (<["current_level" := level]> d)))
          (cauldrons demo_catalog) [zero_level azure_vat].
Proof.
  apply (merger_keeps_catalog demo_catalog [] [zero_level azure_vat]).
  reflexivity.
Defined.

(** *** Flat lists *)

Section FlatLists.
Context `{Text}.

Lemma item_level_flat (d : jobj) : item_level d = flat_level d.
Proof.
  unfold item_level, flat_level.
  destruct (first_present level_keys d) as [v|]; [|reflexivity].
  unfold py_float, number_of.
  destruct v as [|b|z|f|s|l|i]; try reflexivity.
  - destruct b; reflexivity.
  - simpl. unfold int_to_float. destruct (float_of_Z z); reflexivity.
  - simpl. destruct (str_float s); reflexivity.
Qed.

Lemma add_item_binding (acc : pymap) (item : json) :
  add_item acc item
  = match item_binding item with
    | Some (k, v) => pm_set k v acc
    | None => Ok acc
    end.
Proof.
  destruct item as [| | | | | |d]; try reflexivity.
  unfold add_item, item_binding. rewrite item_level_flat.
  destruct (is_none (item_key d)); reflexivity.
Qed.

Lemma flat_level_float (d : jobj) :
  flat_level d = JNull \/ exists f, flat_level d = JFloat f.
Proof.
  unfold flat_level. destruct (first_present _ _) as [v|]; [|left; reflexivity].
  destruct (number_of v) as [f|]; [right; exists f; reflexivity | left; reflexivity].
Qed.

Lemma store_float (k v : json) (m : pymap) :
  float_levels m -> (v = JNull \/ exists f, v = JFloat f) ->
  float_levels (store k v m).
Proof.
  intros Hm Hv. induction Hm as [|[k' v'] m Hkv Hm IH]; simpl.
  - constructor; [exact Hv|constructor].
  - destruct (key_eqb k' k); constructor; first [exact Hv | exact Hkv | exact Hm | exact IH].
Qed.

Lemma float_levels_numeric (m : pymap) : float_levels m -> numeric_levels m.
Proof.
  intros Hm. eapply Forall_impl; [exact Hm|].
  intros kv [Hn|[f Hf]]; [left; exact Hn|].
  right. rewrite Hf. exact I.
Qed.

Lemma add_items_spec (items : list json) :
  Forall (fun item => forall b, item_binding item = Some b -> hashable b.1) items ->
  forall acc : pymap,
  exists m : pymap,
    add_items acc items = Ok m /\
    (forall k, find_key k m
               = match last_level k items with
                 | Some v => Some v
                 | None => find_key k acc
                 end) /\
    (float_levels acc -> float_levels m).
Proof.
  induction 1 as [|item items Hitem _ IH]; intros acc.
  - exists acc. split; [reflexivity|]. split; [reflexivity|]. intros Hacc. exact Hacc.
  - simpl add_items. rewrite add_item_binding.
    destruct (item_binding item) as [[k' v]|] eqn:Hb.
    + unfold pm_set. rewrite (check_hashable_ok k' (Hitem _ eq_refl)). simpl.
      destruct (IH (store k' v acc)) as (m & Hm & Hget & Hnum).
      exists m. split; [exact Hm|]. split.
      * intros k. rewrite Hget. simpl last_level. rewrite Hb.
        destruct (last_level k items); [reflexivity|].
        rewrite find_key_store. destruct (key_eqb k' k); reflexivity.
      * intros Hacc. apply Hnum. apply store_float; [exact Hacc|].
        destruct item as [| | | | | |d]; try discriminate Hb.
        unfold item_binding in Hb. destruct (is_none (item_key d)); [discriminate Hb|].
        injection Hb as _ <-. apply flat_level_float.
    + simpl. destruct (IH acc) as (m & Hm & Hget & Hnum).
      exists m. split; [exact Hm|]. split; [|exact Hnum].
      intros k. rewrite Hget. simpl last_level. rewrite Hb.
      destruct (last_level k items); reflexivity.
Qed.

Lemma build_flat_items (items : list json) :
  flat_items items ->
  exists m : pymap,
    build_levels_map (JList items) = Ok m /\
    (forall k, find_key k m = last_level k items) /\
    float_levels m.
Proof.
  intros [Hfirst Hkeys].
  destruct (add_items_spec items Hkeys []) as (m & Hm & Hget & Hnum).
  destruct items as [|first rest].
  - exists []. split; [reflexivity|]. split; [reflexivity|constructor].
  - exists m. split.
    + unfold build_levels_map. rewrite (Hfirst first eq_refl). exact Hm.
    + split; [|apply Hnum; constructor].
      intros k. rewrite Hget. destruct (last_level k (first :: rest)); reflexivity.
Qed.

(** X4: on a flat list the normalizer never raises, every level it stores
    is a float or None, and the level looked up for an id is the one of the
    last record that carries that id (under any id alias, or under
    cauldron.id): the float of the number that the value under the
    record's first level alias stands for, None when there is no such
    number; items that are no records or have no id bind nothing. *)
Theorem flat_last_record_wins (items : list json) :
  flat_items items ->
  exists m : pymap,
    normalize_levels (JList items) = Ok (Levels m) /\
    (forall k, find_key k m = last_level k items) /\
    float_levels m.
Proof.
  intros Hflat. destruct (build_flat_items items Hflat) as (m & Hm & Hget & Hnum).
  exists m. split; [|split; [exact Hget | exact Hnum]].
  exact (normalize_unwrapped (JList items) (JList items) m eq_refl Hm).
Qed.

(** X5: for a catalog of well-formed entries and a flat list, the
    live-levels endpoint answers 200 with one merged record per catalog
    entry, in catalog order, computed from the level of the last record
    that carries the entry's id; it does not raise. *)
Theorem levels_endpoint_on_flat_list
    (fsd : static_data) (ds : list jobj) (status : Z) (items : list json) :
  cauldrons fsd = JDict <$> ds -> Forall catalog_entry ds -> flat_items items ->
  exists m : pymap,
    get_cauldron_levels fsd (Reply status (Some (JList items)))
    = Ok (jsonify (JList (merged_record m <$> ds))) /\
    (forall k, find_key k m = last_level k items).
Proof.
  intros Hc Hds Hflat.
  destruct (build_flat_items items Hflat) as (m & Hm & Hget & Hnum).
  exists m. split; [|exact Hget].
  unfold get_cauldron_levels. simpl fetch_json. cbv iota.
  rewrite (normalize_unwrapped (JList items) (JList items) m eq_refl Hm), bind_ok.
  rewrite (merge_levels_numeric fsd ds m Hc Hds (float_levels_numeric m Hnum)).
  reflexivity.
Qed.

End FlatLists.

Lemma demo_flat_items_flat : flat_items demo_flat_items.
Proof.
  split; [intros first [= <-]; reflexivity|].
  repeat constructor; intros b Hb; vm_compute in Hb;
    first [discriminate Hb | injection Hb as <-; exact I].
Qed.

Lemma flat_last_record_wins_witness :
  exists m : pymap,
    normalize_levels (JList demo_flat_items) = Ok (Levels m) /\
    find_key (JStr "cauldron_001") m = Some (JFloat f70) /\
    find_key (JStr "cauldron_002") m = Some JNull /\
    find_key (JStr "cauldron_003") m = None.
Proof.
  destruct (flat_last_record_wins demo_flat_items demo_flat_items_flat)
    as (m & Hm & Hget & _).
  exists m. split; [exact Hm|]. rewrite !Hget.
  split; [|split]; vm_compute; reflexivity.
Defined.

Lemma levels_endpoint_on_flat_list_witness :
  get_cauldron_levels demo_catalog (Reply 200 (Some (JList demo_flat_items)))
  = Ok (jsonify (JList [JDict (<["anomaly" := JBool false]>
                                 (<["current_level" := JFloat f70]> azure_vat))])).
Proof.
  destruct (levels_endpoint_on_flat_list demo_catalog [azure_vat] 200 demo_flat_items)
    as (m & Hm & Hget).
  - reflexivity.
  - constructor; [|constructor]. split.
    + exists (JStr "cauldron_001"). split; [reflexivity|exact I].
    + exists (JInt 100). split; [reflexivity|exact I].
  - exact demo_flat_items_flat.
  - rewrite Hm. rewrite list_fmap_singleton. unfold merged_record, live_level.
    change (default JNull (azure_vat !! "id")) with (JStr "cauldron_001").
    rewrite Hget. vm_compute. reflexivity.
Defined.

(** *** The Forecaster and its callers *)

Section ForecastCallers.
Context `{Text}.

Lemma forecast_cauldron_inv (c e : json) :
  forecast_cauldron c = Ok (Some e) -> forecast_of c e.
Proof.
  unfold forecast_cauldron, forecast_of. intros Hf.
  destruct (py_item c "fill_rate_per_min") as [rate|] eqn:Hrate;
    simpl in Hf; [|discriminate Hf].
  destruct (py_item c "current_level") as [level|] eqn:Hlevel;
    simpl in Hf; [|discriminate Hf].
  destruct (py_item c "max_volume") as [capacity|] eqn:Hcap;
    simpl in Hf; [|discriminate Hf].
  destruct (py_richcmp OpLt level capacity) as [[|]|] eqn:Hlt;
    simpl in Hf; try discriminate Hf.
  destruct (py_sub capacity level) as [liters|]; simpl in Hf; [|discriminate Hf].
  destruct (py_richcmp OpGt rate (JInt 0)) as [[|]|] eqn:Hgt;
    simpl in Hf; try discriminate Hf.
  destruct (py_truediv liters rate) as [t|]; simpl in Hf; [|discriminate Hf].
  destruct (py_item c "id") as [id|] eqn:Hid; simpl in Hf; [|discriminate Hf].
  destruct (py_item c "name") as [name|] eqn:Hname; simpl in Hf; [|discriminate Hf].
  injection Hf as <-.
  exists id, name, level, capacity, rate, (round1 t).
  repeat split; first [assumption | reflexivity].
Qed.

Lemma appended_sublist (recs : list json) (entries : list (option json)) :
  Forall2 (fun c oe => forecast_cauldron c = Ok oe) recs entries ->
  exists kept, kept `sublist_of` recs /\ Forall2 forecast_of kept (appended entries).
Proof.
  induction 1 as [|c oe recs entries Hc _ (kept & Hsub & Hkept)].
  - exists []. split; constructor.
  - destruct oe as [e|]; simpl.
    + exists (c :: kept). split; [apply sublist_skip; exact Hsub|].
      constructor; [exact (forecast_cauldron_inv c e Hc) | exact Hkept].
    + exists kept. split; [apply sublist_cons; exact Hsub | exact Hkept].
Qed.

(** X6: whenever the Forecaster returns, its entries are, in order, made
    from some of the records: each entry carries the id and name of its
    record and a float, and comes from a record on which both
    "current_level < max_volume" and "fill_rate_per_min > 0" are true; no
    entry is made up or reordered. *)
Theorem forecast_entries_from_records (recs out : list json) :
  forecast_records (JList recs) = Ok out ->
  exists kept, kept `sublist_of` recs /\ Forall2 forecast_of kept out.
Proof.
  unfold forecast_records. simpl py_iter. rewrite bind_ok. intros Hf.
  destruct (mapM forecast_cauldron recs) as [entries|] eqn:Hm;
    simpl in Hf; [|discriminate Hf].
  injection Hf as <-. apply appended_sublist, mapM_Forall2. exact Hm.
Qed.

Lemma forecast_fill_times_failed (fsd : static_data) (u : upstream) (msg : string) :
  levels_failed (get_cauldron_levels fsd u) msg ->
  forecast_fill_times fsd u = Ok (jsonify (JDict {[ "error" := JStr msg ]})).
Proof.
  unfold forecast_fill_times.
  intros [(body & code & -> & ->) | (e & -> & ->)]; reflexivity.
Qed.

Lemma error_object_truthy (msg : string) :
  truthy (JDict {[ "error" := JStr msg ]}) = true.
Proof.
  simpl. apply negb_true_iff, bool_decide_eq_false.
  intros Hempty. apply (f_equal (fun d : jobj => d !! "error")) in Hempty.
  rewrite lookup_singleton_eq, lookup_empty in Hempty. discriminate Hempty.
Qed.

(** X7: when the live-levels call inside the forecast endpoint gives its
    error tuple or raises, the forecast endpoint answers 200 with an error
    object, and the status operation, if its own first call succeeded,
    raises AttributeError while indexing the forecasts. *)
Theorem status_raises_on_forecast_error
    (fsd : static_data) (u1 u2 : upstream) (live : json) (msg : string) :
  get_cauldron_levels fsd u1 = Ok (Plain live) ->
  levels_failed (get_cauldron_levels fsd u2) msg ->
  forecast_fill_times fsd u2 = Ok (jsonify (JDict {[ "error" := JStr msg ]})) /\
  cauldron_status fsd u1 u2
  = raise AttributeError "'str' object has no attribute 'get'".
Proof.
  intros H1 H2. pose proof (forecast_fill_times_failed fsd u2 msg H2) as Hf.
  split; [exact Hf|].
  unfold cauldron_status, fetch_forecasts. rewrite H1, Hf. simpl.
  unfold build_forecast_map, py_or. rewrite error_object_truthy.
  unfold py_iter. rewrite map_to_list_singleton. reflexivity.
Qed.

End ForecastCallers.

Lemma forecast_entries_from_records_witness :
  exists kept, kept `sublist_of` [JDict half_full; JDict brim_full] /\
               Forall2 forecast_of kept [demo_forecast].
Proof.
  apply (forecast_entries_from_records [JDict half_full; JDict brim_full]).
  vm_compute. reflexivity.
Defined.

Lemma status_raises_on_forecast_error_witness :
  forecast_fill_times demo_catalog (Unreachable "timeout") = Ok (jsonify tuple_error) /\
  cauldron_status demo_catalog half_full_payload (Unreachable "timeout")
  = raise AttributeError "'str' object has no attribute 'get'".
Proof.
  apply (status_raises_on_forecast_error demo_catalog half_full_payload
           (Unreachable "timeout")
           (JList [JDict (<["anomaly" := JBool false]>
                            (<["current_level" := JFloat f50]> azure_vat))])).
  - vm_compute. reflexivity.
  - left. eexists _, _. split; reflexivity.
Defined.

(** *** The status operation as a composition *)

Section StatusComposition.
Context `{Text}.

Lemma merge_cauldron_keyed (m : pymap) (c o : json) :
  merge_cauldron m c = Ok o -> exists d, o = JDict d /\ keyed d.
Proof.
  unfold merge_cauldron. intros Hm.
  destruct (py_item c "id") as [i|] eqn:Hi; simpl in Hm; [|discriminate Hm].
  destruct c as [| | | | | |d]; try discriminate Hm.
  unfold pm_get in Hm.
  destruct (check_hashable i) eqn:Hh; simpl in Hm; [|discriminate Hm].
  match type of Hm with
  | (?a ≫= _) = _ => destruct a as [b|]; simpl in Hm; [|discriminate Hm]
  end.
  injection Hm as <-. eexists. split; [reflexivity|].
  unfold py_item in Hi. destruct (d !! "id") as [i'|] eqn:Hid; [|discriminate Hi].
  injection Hi as ->.
  assert (Hid' : (<["anomaly" := JBool b]>
                    (<["current_level" := if is_none (default JNull (find_key i m))
                                          then JInt 0
                                          else default JNull (find_key i m)]> d))
                 !! "id" = Some i).
  { rewrite !lookup_insert_ne by discriminate. exact Hid. }
  split; [eexists; exact Hid'|].
  unfold entry_id. rewrite Hid'. simpl.
  destruct i; simpl in Hh; first [exact I | discriminate Hh].
Qed.

Lemma levels_reply_shape (fsd : static_data) (u : upstream) (body : json) :
  get_cauldron_levels fsd u = Ok (Plain body) ->
  exists ds, body = JList (JDict <$> ds) /\ Forall keyed ds.
Proof.
  unfold get_cauldron_levels. intros Hg.
  destruct (fetch_json u) as [payload|]; [|discriminate Hg].
  destruct (normalize_levels payload) as [[|m]|]; simpl in Hg; try discriminate Hg.
  destruct (merge_levels fsd m) as [out|] eqn:Hm; simpl in Hg; [|discriminate Hg].
  injection Hg as <-. apply mapM_Forall2 in Hm.
  clear -Hm. induction Hm as [|c o cs out Hco _ (ds & Hds & Hkeyed)].
  - exists []. split; [reflexivity|constructor].
  - destruct (merge_cauldron_keyed m c o Hco) as (d & -> & Hd).
    injection Hds as ->.
    exists (d :: ds). split; [reflexivity|constructor; assumption].
Qed.

Lemma keyed_records_hashable (ds : list jobj) :
  Forall keyed ds ->
  Forall (fun c => forall id, py_item c "id" = Ok id -> hashable id) (JDict <$> ds).
Proof.
  intros Hds. apply Forall_fmap. eapply Forall_impl; [exact Hds|].
  intros d [[i Hi] Hh] id. simpl. unfold entry_id in Hh. rewrite Hi in *.
  intros [= <-]. exact Hh.
Qed.

Lemma forecast_reply_shaped (fsd : static_data) (u : upstream) (fs : list json) :
  forecast_fill_times fsd u = Ok (Plain (JList fs)) -> Forall forecast_shaped fs.
Proof.
  unfold forecast_fill_times. intros Hf.
  destruct (get_cauldron_levels fsd u) as [[data|data code]|e] eqn:Hg;
    simpl in Hf; try discriminate Hf.
  destruct (levels_reply_shape fsd u data Hg) as (ds & -> & Hds).
  destruct (forecast_records (JList (JDict <$> ds))) as [out|] eqn:Hout;
    simpl in Hf; [|discriminate Hf].
  injection Hf as <-.
  exact (forecast_records_shaped _ _ Hout (keyed_records_hashable ds Hds)).
Qed.

Lemma time_to_full_spec (fs : list json) (fm : pymap) (d : jobj) :
  (forall id, find_key id fm = None <-> ~ has_forecast fs id) ->
  (forall id f, find_key id fm = Some f -> forecast_shaped f) ->
  hashable (entry_id d) ->
  exists t, time_to_full fm d = Ok t /\ null_iff_no_forecast fs d t.
Proof.
  intros Hnone Hsome Hid. unfold time_to_full, null_iff_no_forecast.
  fold (entry_id d). rewrite (pm_get_hashable _ fm Hid).
  destruct (find_key (entry_id d) fm) as [f|] eqn:Hget.
  - destruct (forecast_shaped_time f (Hsome _ _ Hget)) as [t Ht].
    exists (JFloat t). split; [exact Ht|]. rewrite <- Hnone, Hget.
    split; discriminate.
  - exists JNull. split; [reflexivity|]. rewrite <- Hnone, Hget.
    split; reflexivity.
Qed.

Lemma status_record_dict (fm : pymap) (d : jobj) (t : json) :
  time_to_full fm d = Ok t -> status_record fm (JDict d) = Ok (with_status d t).
Proof. intros Ht. unfold status_record. rewrite Ht. reflexivity. Qed.

Lemma status_loop (fs : list json) (fm : pymap) (ds : list jobj) :
  (forall id, find_key id fm = None <-> ~ has_forecast fs id) ->
  (forall id f, find_key id fm = Some f -> forecast_shaped f) ->
  Forall keyed ds ->
  exists ts,
    mapM (status_record fm) (JDict <$> ds) = Ok (zip_with with_status ds ts) /\
    Forall2 (null_iff_no_forecast fs) ds ts.
Proof.
  intros Hnone Hsome. induction 1 as [|d ds [_ Hd] _ (ts & Hts & Hnull)].
  - exists []. split; [reflexivity|constructor].
  - destruct (time_to_full_spec fs fm d Hnone Hsome Hd) as (t & Ht & Hn).
    exists (t :: ts). split; [|constructor; assumption].
    rewrite fmap_cons. cbn [mapM].
    rewrite (status_record_dict fm d t Ht), bind_ok, Hts. reflexivity.
Qed.

(** X8: when the live-levels call of the status operation answers 200
    and the forecast endpoint answers with a list, the status operation
    answers 200 with one status record per merged record, in order: the
    merged record plus percent_full and time_to_full_min, the latter null
    exactly for the records no forecast entry is about. *)
Theorem status_composes (fsd : static_data) (u1 u2 : upstream)
    (live : json) (fs : list json) :
  get_cauldron_levels fsd u1 = Ok (Plain live) ->
  forecast_fill_times fsd u2 = Ok (Plain (JList fs)) ->
  exists (ds : list jobj) (ts : list json),
    live = JList (JDict <$> ds) /\
    cauldron_status fsd u1 u2 = Ok (jsonify (JList (zip_with with_status ds ts))) /\
    Forall2 (null_iff_no_forecast fs) ds ts.
Proof.
  intros H1 H2.
  destruct (levels_reply_shape fsd u1 live H1) as (ds & -> & Hds).
  pose proof (forecast_reply_shaped fsd u2 fs H2) as Hfs.
  destruct (build_forecast_map_spec fs Hfs) as (fm & Hfm & Hnone & Hsome).
  destruct (status_loop fs fm ds Hnone Hsome Hds) as (ts & Hts & Hnull).
  exists ds, ts. split; [reflexivity|]. split; [|exact Hnull].
  unfold cauldron_status, fetch_forecasts. rewrite H1, H2. simpl.
  rewrite Hfm, bind_ok, Hts. reflexivity.
Qed.

(** X9: when the live-levels call of the status operation answers 200
    and the forecast endpoint raises, the status operation still answers
    200, with time_to_full_min null in every record. *)
Theorem status_without_forecasts (fsd : static_data) (u1 u2 : upstream)
    (live : json) (e : exn) :
  get_cauldron_levels fsd u1 = Ok (Plain live) ->
  forecast_fill_times fsd u2 = Raise e ->
  exists ds : list jobj,
    live = JList (JDict <$> ds) /\
    cauldron_status fsd u1 u2
    = Ok (jsonify (JList ((fun d => with_status d JNull) <$> ds))).
Proof.
  intros H1 H2.
  destruct (levels_reply_shape fsd u1 live H1) as (ds & -> & Hds).
  exists ds. split; [reflexivity|].
  unfold cauldron_status, fetch_forecasts. rewrite H1, H2. simpl.
  rewrite (mapM_ok _ (fun c => match c with
                               | JDict d => with_status d JNull
                               | _ => JNull
                               end)).
  - rewrite <- list_fmap_compose. reflexivity.
  - apply Forall_fmap. eapply Forall_impl; [exact Hds|].
    intros d [_ Hd]. simpl. unfold time_to_full. fold (entry_id d).
    rewrite (pm_get_hashable _ [] Hd). reflexivity.
Qed.

End StatusComposition.

Lemma status_composes_witness :
  exists (ds : list jobj) (ts : list json),
    cauldron_status demo_catalog half_full_payload half_full_payload
    = Ok (jsonify (JList (zip_with with_status ds ts))) /\
    Forall2 (null_iff_no_forecast [demo_forecast]) ds ts.
Proof.
  destruct (status_composes demo_catalog half_full_payload half_full_payload
              (JList [JDict (<["anomaly" := JBool false]>
                               (<["current_level" := JFloat f50]> azure_vat))])
              [demo_forecast])
    as (ds & ts & _ & Hs & Hnull).
  - vm_compute. reflexivity.
  - vm_compute. reflexivity.
  - exists ds, ts. split; assumption.
Defined.

Lemma status_without_forecasts_witness :
  exists ds : list jobj,
    cauldron_status demo_catalog empty_text_payload empty_text_payload
    = Ok (jsonify (JList ((fun d => with_status d JNull) <$> ds))).
Proof.
  destruct (status_without_forecasts demo_catalog empty_text_payload empty_text_payload
              (JList [JDict (<["anomaly" := JBool false]>
                               (<["current_level" := JStr ""]> azure_vat))])
              (Exn TypeError "'<' not supported between instances of 'str' and 'int'"))
    as (ds & _ & Hs).
  - vm_compute. reflexivity.
  - vm_compute. reflexivity.
  - exists ds. exact Hs.
Defined.

(** *** The discrepancy check and its chat branch *)

Section DiscrepancyProperties.

Context `{Formatter}.

Lemma find_alerts_inv (fsd : static_data) (u : upstream) (alerts : list json) :
  find_alerts fsd u = Ok alerts ->
  alerts = [] \/
  exists (cauldron_id : json) (detail : string),
    alerts = [JDict {[ "cauldron_id" := cauldron_id;
                       "message" := JStr ("Suspicious Ticket " +:+ detail) ]};
              unlogged_drain_alert].
Proof.
  unfold find_alerts. intros Hf.
  destruct (fetch_json u) as [real_tickets|]; simpl in Hf; [|discriminate Hf].
  destruct (truthy real_tickets); [|left; injection Hf as <-; reflexivity].
  repeat match type of Hf with
         | (?c ≫= _) = Ok _ => destruct c; simpl in Hf; [|discriminate Hf]
         end.
  injection Hf as <-. right. eexists _, _. reflexivity.
Qed.

Lemma unlogged_drain_alert_shaped : alert_shaped unlogged_drain_alert.
Proof. eexists _, _. split; reflexivity. Qed.

(** X10: whatever the upstream does, the discrepancy check answers 200
    with a non-empty list of records that each carry a text message; when
    the list has an alert about a ticket, that alert is first and its
    message starts with "Suspicious Ticket". *)
Theorem check_discrepancies_shape (fsd : static_data) (u : upstream) :
  exists (first : json) (rest : list json),
    check_discrepancies fsd u = jsonify (JList (first :: rest)) /\
    Forall alert_shaped (first :: rest) /\
    (forall a, a ∈ first :: rest ->
       (exists d detail, a = JDict d /\
          d !! "message" = Some (JStr ("Suspicious Ticket " +:+ detail))) ->
       a = first).
Proof.
  unfold check_discrepancies.
  destruct (find_alerts fsd u) as [alerts|e] eqn:Hf.
  - destruct (find_alerts_inv fsd u alerts Hf) as [-> | (cid & detail & ->)].
    + eexists _, []. split; [reflexivity|]. split.
      * constructor; [|constructor]. eexists _, _. split; reflexivity.
      * intros a Hin _. apply list_elem_of_singleton in Hin. exact Hin.
    + eexists _, _. split; [reflexivity|]. split.
      * constructor; [|constructor; [exact unlogged_drain_alert_shaped|constructor]].
        eexists _, _. split; [reflexivity|].
        rewrite lookup_insert_ne by discriminate. apply lookup_singleton_eq.
      * intros a Hin (d & detail' & -> & Hmsg).
        apply elem_of_cons in Hin as [Ha|Hin]; [exact Ha|].
        apply list_elem_of_singleton in Hin. injection Hin as ->.
        vm_compute in Hmsg. discriminate Hmsg.
  - eexists _, []. split; [reflexivity|]. split.
    + constructor; [|constructor]. eexists _, _. split; reflexivity.
    + intros a Hin _. apply list_elem_of_singleton in Hin. exact Hin.
Qed.

Lemma alert_lines_shaped (alerts : list json) :
  Forall alert_shaped alerts -> exists lines, alert_lines alerts = Ok lines.
Proof.
  intros Ha. unfold alert_lines.
  assert (Hm : exists ls, mapM (fun alert => m ← py_item alert "message";
                                             Ok ("  - " +:+ py_str m +:+ nl)) alerts
                          = Ok ls).
  { induction Ha as [|a alerts (d & msg & -> & Hmsg) _ (ls & Hls)].
    - exists []. reflexivity.
    - eexists. simpl. rewrite Hmsg. simpl. rewrite Hls. reflexivity. }
  destruct Hm as (ls & ->). eexists. reflexivity.
Qed.

(** X11: a chat message routed to the discrepancy intent always gets a
    local reply, whatever the upstream does.  When the tickets cannot be
    fetched, or none is found, the one message of the check is shown under
    "I found an alert:" with the plan unchanged; the reply "All potion
    flows are accounted for" is never given. *)
Theorem discrepancy_reply_total (env : chat_env) (fsd : static_data) :
  (exists (text : string) (plan : list string),
     discrepancy_reply env fsd = Ok (JStr text, plan) /\
     JStr text <> all_accounted) /\
  (forall e, find_alerts fsd (tickets_upstream env) = Raise e ->
     discrepancy_reply env fsd
     = Ok (JStr ("I found an alert:" +:+ nl
                 +:+ "  - Error connecting to EOG API to check tickets." +:+ nl),
           [discrepancy_plan])) /\
  (find_alerts fsd (tickets_upstream env) = Ok [] ->
   discrepancy_reply env fsd
   = Ok (JStr ("I found an alert:" +:+ nl +:+ "  - All tickets reconciled." +:+ nl),
         [discrepancy_plan])).
Proof.
  assert (Hraise : forall e, find_alerts fsd (tickets_upstream env) = Raise e ->
            discrepancy_reply env fsd
            = Ok (JStr ("I found an alert:" +:+ nl
                        +:+ "  - Error connecting to EOG API to check tickets." +:+ nl),
                  [discrepancy_plan])).
  { intros e He. unfold discrepancy_reply, check_discrepancies. rewrite He.
    reflexivity. }
  assert (Hnone : find_alerts fsd (tickets_upstream env) = Ok [] ->
            discrepancy_reply env fsd
            = Ok (JStr ("I found an alert:" +:+ nl
                        +:+ "  - All tickets reconciled." +:+ nl),
                  [discrepancy_plan])).
  { intros He. unfold discrepancy_reply, check_discrepancies. rewrite He.
    reflexivity. }
  split; [|split; [exact Hraise | exact Hnone]].
  destruct (find_alerts fsd (tickets_upstream env)) as [alerts|e] eqn:Hf.
  - destruct (find_alerts_inv fsd _ alerts Hf) as [-> | (cid & detail & ->)].
    + eexists _, _. split; [exact (Hnone eq_refl)|]. discriminate.
    + unfold discrepancy_reply, check_discrepancies. rewrite Hf.
      eexists _, _. split; [reflexivity|]. discriminate.
  - eexists _, _. split; [exact (Hraise e eq_refl)|]. discriminate.
Qed.

End DiscrepancyProperties.

Lemma check_discrepancies_on_ticket :
  exists detail,
    @check_discrepancies ellipsis_formatter demo_catalog demo_tickets
    = jsonify (JList [JDict {[ "cauldron_id" := JStr "cauldron_001";
                               "message" := JStr ("Suspicious Ticket " +:+ detail) ]};
                      unlogged_drain_alert]).
Proof. eexists. vm_compute. reflexivity. Qed.

(** *** Dispatch, direct and from the chat *)

Section DispatchProperties.

Context `{Text} `{Formatter}.

Lemma find_cauldron_first (front back : list jobj) (d : jobj) (id name : string) :
  Forall (fun d' => exists id' name', named_entry d' id' name' /\ id' <> id) front ->
  named_entry d id name ->
  find_cauldron (JDict <$> (front ++ d :: back)) (JStr id) = Ok (JDict d).
Proof.
  intros Hfront [Hid Hname].
  induction Hfront as [|d' front (id' & name' & [Hid' _] & Hne) _ IH]; simpl.
  - rewrite Hid. simpl. rewrite String.eqb_refl. reflexivity.
  - rewrite Hid'. simpl.
    rewrite (proj2 (String.eqb_neq id' id) Hne). exact IH.
Qed.

Lemma dispatch_courier_found
    (st : app_state) (front back : list jobj) (d : jobj) (id name : string)
    (body : jobj) :
  cauldrons (factory_static_data st) = JDict <$> (front ++ d :: back) ->
  Forall (fun d' => exists id' name', named_entry d' id' name' /\ id' <> id) front ->
  named_entry d id name ->
  body !! "cauldron_id" = Some (JStr id) ->
  dispatch_courier st (JDict body)
  = (Ok (dispatched (dispatch_message name)),
     print ("SIMULATED DISPATCH: Courier sent to " +:+ name) st).
Proof.
  intros Hc Hfront Hd Hbody. unfold dispatch_courier. simpl py_get.
  rewrite Hbody, bind_ok. simpl default. rewrite Hc.
  rewrite (find_cauldron_first front back d id name Hfront Hd), bind_ok.
  destruct Hd as [Hid Hname].
  assert (Ht : truthy (JDict d) = true).
  { simpl. apply negb_true_iff, bool_decide_eq_false.
    intros ->. rewrite lookup_empty in Hid. discriminate Hid. }
  rewrite Ht. simpl negb. cbv iota. unfold py_item. rewrite Hname. reflexivity.
Qed.

(** X12: a dispatch request naming the id of a catalog entry is answered
    with the name of the first entry that has this id, and appends exactly
    one line, naming the same entry, to the console; the catalog stays as
    it is. *)
Theorem dispatch_names_first_entry
    (st : app_state) (front back : list jobj) (d : jobj) (id name : string)
    (body : jobj) :
  cauldrons (factory_static_data st) = JDict <$> (front ++ d :: back) ->
  Forall (fun d' => exists id' name', named_entry d' id' name' /\ id' <> id) front ->
  named_entry d id name ->
  body !! "cauldron_id" = Some (JStr id) ->
  exists st',
    dispatch_courier st (JDict body) = (Ok (dispatched (dispatch_message name)), st') /\
    factory_static_data st' = factory_static_data st /\
    console st' = console st ++ ["SIMULATED DISPATCH: Courier sent to " +:+ name].
Proof.
  intros Hc Hfront Hd Hbody. eexists. split; [|split].
  - exact (dispatch_courier_found st front back d id name body Hc Hfront Hd Hbody).
  - reflexivity.
  - reflexivity.
Qed.

Lemma cauldron_to_dispatch_none (ds : list jobj) (m : string) :
  Forall (fun d => exists id name, named_entry d id name /\ mentioned m id name = false) ds ->
  cauldron_to_dispatch (JDict <$> ds) m = Ok JNull.
Proof.
  induction 1 as [|d ds (id & name & [Hid Hname] & Hno) _ IH]; [reflexivity|].
  rewrite fmap_cons. simpl. rewrite Hid. simpl.
  unfold mentioned in Hno. apply orb_false_iff in Hno as [Hi Hn].
  rewrite Hi. simpl. rewrite Hname. simpl. rewrite Hn. exact IH.
Qed.

Lemma cauldron_to_dispatch_first (front back : list jobj) (d : jobj)
    (id name m : string) :
  Forall (fun d => exists id name, named_entry d id name /\ mentioned m id name = false)
         front ->
  named_entry d id name -> mentioned m id name = true ->
  cauldron_to_dispatch (JDict <$> (front ++ d :: back)) m = Ok (JStr id).
Proof.
  intros Hfront [Hid Hname] Hyes.
  induction Hfront as [|d' front (id' & name' & [Hid' Hname'] & Hno) _ IH]; simpl.
  - rewrite Hid. simpl. unfold mentioned in Hyes.
    destruct (Str.contains id (str_lower m)); simpl; [reflexivity|].
    rewrite Hname. simpl. simpl in Hyes. rewrite Hyes. reflexivity.
  - rewrite Hid'. simpl. unfold mentioned in Hno.
    apply orb_false_iff in Hno as [Hi Hn].
    rewrite Hi. simpl. rewrite Hname'. simpl. rewrite Hn. exact IH.
Qed.

(** X13: in the chat's dispatch branch, over a catalog of entries with
    text ids and names: when no entry's id or first name word occurs in
    the lower-cased message, the reply is the clarifying question with an
    empty plan and no request is posted; when the first entry that occurs
    has an id that is not empty and that no earlier entry shares, and the
    loop-back request goes through, the reply is the success message
    naming this entry, with the plan line and "Tool Result: success.". *)
Theorem dispatch_reply_spec (env : chat_env) (fsd : static_data) (m : string) :
  (forall ds,
     cauldrons fsd = JDict <$> ds ->
     Forall (fun d => exists id name,
                        named_entry d id name /\ mentioned m id name = false) ds ->
     dispatch_reply env fsd m = Ok (dispatch_question, [])) /\
  (forall front back d id name,
     cauldrons fsd = JDict <$> (front ++ d :: back) ->
     Forall (fun d => exists id' name',
                        named_entry d id' name' /\ mentioned m id' name' = false /\
                        id' <> id) front ->
     named_entry d id name -> mentioned m id name = true -> id <> "" ->
     loopback_failure env = None ->
     dispatch_reply env fsd m
     = Ok (JStr (dispatch_message name),
           ["Plan: User wants to dispatch to " +:+ id
            +:+ ". I will call `dispatch_courier()`.";
            "Tool Result: success."])).
Proof.
  split.
  - intros ds Hc Hno. unfold dispatch_reply. rewrite Hc.
    rewrite (cauldron_to_dispatch_none ds m Hno). reflexivity.
  - intros front back d id name Hc Hfront Hd Hyes Hne Hloop.
    unfold dispatch_reply. rewrite Hc.
    rewrite (cauldron_to_dispatch_first front back d id name m); [|
      eapply Forall_impl; [exact Hfront|];
      intros d' (id' & name' & Hn & Hm & _); exists id', name'; split; assumption
      | exact Hd | exact Hyes].
    rewrite bind_ok.
    assert (Ht : truthy (JStr id) = true) by (destruct id; [destruct Hne|]; reflexivity).
    rewrite Ht. unfold post_dispatch. rewrite Hloop.
    rewrite (dispatch_courier_found _ front back d id name); [reflexivity| | |exact Hd|].
    + exact Hc.
    + eapply Forall_impl; [exact Hfront|].
      intros d' (id' & name' & Hn & _ & Hdiff). exists id', name'. split; assumption.
    + apply lookup_singleton_eq.
Qed.

End DispatchProperties.

Lemma dispatch_names_first_entry_witness :
  exists st',
    @dispatch_courier ellipsis_formatter
      {| factory_static_data := two_cauldrons; console := [] |}
      (JDict {[ "cauldron_id" := JStr "cauldron_002" ]})
    = (Ok (dispatched (dispatch_message "Crimson Pot")), st') /\
    factory_static_data st' = two_cauldrons /\
    console st' = ["SIMULATED DISPATCH: Courier sent to Crimson Pot"].
Proof.
  apply (@dispatch_names_first_entry ellipsis_formatter
           {| factory_static_data := two_cauldrons; console := [] |}
           [azure_vat] [] crimson_pot "cauldron_002" "Crimson Pot").
  - reflexivity.
  - constructor; [|constructor].
    exists "cauldron_001", "Azure Vat". split; [split; reflexivity | discriminate].
  - split; reflexivity.
  - reflexivity.
Defined.

Lemma dispatch_reply_spec_witness :
  @dispatch_reply ascii_text ellipsis_formatter demo_env two_cauldrons
    "Please dispatch to the Crimson one"
  = Ok (JStr (dispatch_message "Crimson Pot"),
        ["Plan: User wants to dispatch to cauldron_002. I will call `dispatch_courier()`.";
         "Tool Result: success."]) /\
  @dispatch_reply ascii_text ellipsis_formatter demo_env two_cauldrons "Please dispatch"
  = Ok (dispatch_question, []).
Proof.
  split.
  - apply (proj2 (@dispatch_reply_spec ascii_text ellipsis_formatter demo_env two_cauldrons
                    "Please dispatch to the Crimson one")
             [azure_vat] [] crimson_pot "cauldron_002" "Crimson Pot").
    + reflexivity.
    + constructor; [|constructor].
      exists "cauldron_001", "Azure Vat".
      split; [split; reflexivity|]. split; [reflexivity | discriminate].
    + split; reflexivity.
    + reflexivity.
    + discriminate.
    + reflexivity.
  - apply (proj1 (@dispatch_reply_spec ascii_text ellipsis_formatter demo_env two_cauldrons
                    "Please dispatch") [azure_vat; crimson_pot]).
    + reflexivity.
    + constructor; [|constructor; [|constructor]].
      * exists "cauldron_001", "Azure Vat". split; [split; reflexivity | reflexivity].
      * exists "cauldron_002", "Crimson Pot". split; [split; reflexivity | reflexivity].
Defined.

(** *** Case and the id test *)

Section CaseProperties.
Context `{Text}.

Lemma prefix_chars (sub s : string) (c : ascii) :
  String.prefix sub s = true ->
  c ∈ String.list_ascii_of_string sub -> c ∈ String.list_ascii_of_string s.
Proof.
  revert s. induction sub as [|a sub IH]; intros s Hp Hin; simpl in Hin.
  - apply elem_of_nil in Hin. destruct Hin.
  - destruct s as [|b s]; simpl in Hp; [discriminate Hp|]. simpl.
    destruct (Ascii.ascii_dec a b) as [->|Hne]; [|discriminate Hp].
    apply elem_of_cons in Hin as [->|Hin]; apply elem_of_cons;
      [left; reflexivity | right; exact (IH s Hp Hin)].
Qed.

Lemma contains_chars (sub s : string) (c : ascii) :
  Str.contains sub s = true ->
  c ∈ String.list_ascii_of_string sub -> c ∈ String.list_ascii_of_string s.
Proof.
  induction s as [|b s IH]; simpl; intros Hc Hin.
  - rewrite orb_false_r in Hc. exact (prefix_chars sub "" c Hc Hin).
  - apply orb_true_iff in Hc as [Hp|Hc].
    + exact (prefix_chars sub (String b s) c Hp Hin).
    + apply elem_of_cons. right. exact (IH Hc Hin).
Qed.

(** X14: the chat's dispatch loop tests the catalog id, as it is, against
    the lower-cased message: an id with an ASCII capital letter is found
    in no message, so such an entry can only be reached through the first
    word of its name. *)
Theorem capital_id_never_found (id user_message : string) (c : ascii) :
  c ∈ String.list_ascii_of_string id -> is_upper c = true ->
  in_string (JStr id) (str_lower user_message) = Ok false /\
  forall name, mentioned user_message id name
               = Str.contains (str_lower (Str.first_word name))
                              (str_lower user_message).
Proof.
  intros Hin Hup.
  assert (Hno : Str.contains id (str_lower user_message) = false).
  { destruct (Str.contains id (str_lower user_message)) eqn:Hc; [|reflexivity].
    pose proof (str_lower_no_capital _ _
                  (proj1 (list_elem_of_In _ _) (contains_chars _ _ c Hc Hin))) as Hlow.
    change (Str.is_capital c) with (is_upper c) in Hlow.
    congruence. }
  split.
  - simpl. rewrite Hno. reflexivity.
  - intros name. unfold mentioned. rewrite Hno. reflexivity.
Qed.

(** X15: routing ignores ASCII case: two messages with the same
    lower-cased text are routed alike, and so are a message and its
    lower-cased text. *)
Theorem route_ignores_case (m1 m2 : string) :
  (str_lower m1 = str_lower m2 -> route m1 = route m2) /\
  route (str_lower m1) = route m1.
Proof.
  assert (Hsame : forall a b, str_lower a = str_lower b -> route a = route b).
  { intros a b Hl. unfold route, mentions. rewrite Hl. reflexivity. }
  split; [apply Hsame|]. apply Hsame. apply str_lower_idempotent.
Qed.

End CaseProperties.

Lemma capital_id_never_found_witness :
  in_string (JStr "Cauldron_001") (str_lower "dispatch to Cauldron_001") = Ok false.
Proof.
  apply (capital_id_never_found "Cauldron_001" "dispatch to Cauldron_001" "C").
  - apply elem_of_cons. left. reflexivity.
  - reflexivity.
Defined.

Lemma route_ignores_case_witness :
  route "FORECAST please" = route "forecast PLEASE".
Proof.
  apply (proj1 (route_ignores_case "FORECAST please" "forecast PLEASE")).
  reflexivity.
Defined.

(** *** The sort of the chat handler *)

Lemma scale_compare (m1 e1 m2 e2 e : Z) :
  e <= e1 -> e <= e2 ->
  (m1 * 2 ^ (e1 - Z.min e1 e2) ?= m2 * 2 ^ (e2 - Z.min e1 e2))
  = (m1 * 2 ^ (e1 - e) ?= m2 * 2 ^ (e2 - e)).
Proof.
  intros H1 H2. set (e0 := Z.min e1 e2).
  assert (He0 : e <= e0) by (unfold e0; lia).
  assert (He1 : e0 <= e1) by (unfold e0; lia).
  assert (He2 : e0 <= e2) by (unfold e0; lia).
  replace (e1 - e) with ((e1 - e0) + (e0 - e)) by lia.
  replace (e2 - e) with ((e2 - e0) + (e0 - e)) by lia.
  rewrite !Z.pow_add_r by lia.
  assert (Hpos : 0 < 2 ^ (e0 - e)) by (apply Z.pow_pos_nonneg; lia).
  rewrite !Z.mul_assoc.
  generalize (m1 * 2 ^ (e1 - e0)) (m2 * 2 ^ (e2 - e0)) (2 ^ (e0 - e)) Hpos.
  intros a b p Hp.
  destruct (Z.compare_spec a b) as [->|Hlt|Hgt]; symmetry;
    [apply Z.compare_refl | apply Z.compare_lt_iff; nia | apply Z.compare_gt_iff; nia].
Qed.

Lemma xle_fin (m1 e1 m2 e2 e : Z) :
  e <= e1 -> e <= e2 ->
  xle (XFin m1 e1) (XFin m2 e2) = true
  <-> m1 * 2 ^ (e1 - e) <= m2 * 2 ^ (e2 - e).
Proof.
  intros H1 H2. unfold xle. simpl xcompare.
  rewrite (scale_compare m2 e2 m1 e1 e H2 H1).
  destruct (Z.compare_spec (m2 * 2 ^ (e2 - e)) (m1 * 2 ^ (e1 - e)));
    simpl; split; intros; first [lia | reflexivity | discriminate].
Qed.

Lemma xle_trans (a b c : xnum) :
  b <> XNan -> xle a b = true -> xle b c = true -> xle a c = true.
Proof.
  intros Hb Hab Hbc.
  destruct a as [|sa|m1 e1], b as [|sb|m2 e2], c as [|sc|m3 e3];
    try (destruct Hb; reflexivity); try reflexivity;
    try (unfold xle in *; simpl in *;
         repeat match goal with s : bool |- _ => destruct s end;
         simpl in *; first [reflexivity | discriminate]).
  set (e := Z.min e1 (Z.min e2 e3)).
  apply (xle_fin m1 e1 m2 e2 e) in Hab; [|unfold e; lia..].
  apply (xle_fin m2 e2 m3 e3 e) in Hbc; [|unfold e; lia..].
  apply (xle_fin m1 e1 m3 e3 e); [unfold e; lia..|]. lia.
Qed.

Lemma xlt_xle (a b : xnum) :
  cmp_holds OpLt (xcompare a b) = true -> xle a b = true.
Proof.
  destruct a as [|sa|m1 e1], b as [|sb|m2 e2]; unfold xle; simpl;
    try discriminate;
    try (repeat match goal with s : bool |- _ => destruct s end;
         simpl; first [reflexivity | discriminate]).
  rewrite (Z.min_comm e2 e1).
  rewrite (Z.compare_antisym (m1 * 2 ^ (e1 - Z.min e1 e2))).
  destruct (_ ?= _); simpl; first [reflexivity | discriminate].
Qed.

Lemma ordered_as_num (v : json) :
  ordered_number v -> exists n, as_num v = Some n /\ xnum_of n <> XNan.
Proof.
  destruct v as [| |z|f| | |]; simpl; intros Hv; try (exfalso; exact Hv).
  - exists (NInt z). split; [reflexivity | discriminate].
  - exists (NFloat f). split; [reflexivity|].
    destruct f; simpl; first [discriminate | congruence].
Qed.

Lemma key_lt_ordered (a b : json) :
  ordered_number a -> ordered_number b ->
  exists x y, xnum_of x <> XNan /\ xnum_of y <> XNan /\
    (forall op, py_richcmp op a b = Ok (cmp_holds op (num_compare x y))) /\
    (forall op, py_richcmp op b a = Ok (cmp_holds op (num_compare y x))).
Proof.
  intros Ha Hb.
  destruct (ordered_as_num a Ha) as (x & Hx & Hxn).
  destruct (ordered_as_num b Hb) as (y & Hy & Hyn).
  exists x, y. split; [exact Hxn|]. split; [exact Hyn|].
  split; intros op; apply richcmp_numbers; assumption.
Qed.

Lemma key_le_trans (p q r : json * json) :
  ordered_number p.1 -> ordered_number q.1 -> ordered_number r.1 ->
  key_le p q -> key_le q r -> key_le p r.
Proof.
  unfold key_le. intros Hp Hq Hr Hpq Hqr.
  destruct (ordered_as_num _ Hp) as (x & Hx & Hxn).
  destruct (ordered_as_num _ Hq) as (y & Hy & Hyn).
  destruct (ordered_as_num _ Hr) as (z & Hz & Hzn).
  rewrite (richcmp_numbers OpLt _ _ _ _ Hy Hx) in Hpq.
  rewrite (richcmp_numbers OpLt _ _ _ _ Hz Hy) in Hqr.
  rewrite (richcmp_numbers OpLt _ _ _ _ Hz Hx).
  injection Hpq as Hpq. injection Hqr as Hqr. f_equal.
  apply negb_true_iff.
  apply (xle_trans (xnum_of x) (xnum_of y) (xnum_of z) Hyn);
    apply negb_true_iff; assumption.
Qed.

Lemma sort_insert_spec (x : json * json) (sorted : list (json * json)) :
  ordered_number x.1 -> Forall (fun p => ordered_number p.1) sorted ->
  StronglySorted key_le sorted ->
  exists s, sort_insert x sorted = Ok s /\ s ≡ₚ x :: sorted /\
            StronglySorted key_le s.
Proof.
  intros Hx. induction sorted as [|y rest IH]; intros Hall Hs.
  - exists [x]. split; [reflexivity|]. split; [reflexivity|].
    repeat constructor.
  - apply Forall_cons in Hall as [Hy Hrest].
    apply StronglySorted_inv in Hs as [Hs Hyrest].
    destruct (ordered_as_num _ Hx) as (nx & Hnx & Hxn).
    destruct (ordered_as_num _ Hy) as (ny & Hny & Hyn).
    simpl sort_insert.
    rewrite (richcmp_numbers OpLt _ _ _ _ Hnx Hny), bind_ok.
    destruct (cmp_holds OpLt (num_compare nx ny)) eqn:Hlt.
    + exists (x :: y :: rest). split; [reflexivity|]. split; [reflexivity|].
      assert (Hxy : key_le x y).
      { unfold key_le. rewrite (richcmp_numbers OpLt _ _ _ _ Hny Hnx).
        f_equal. apply negb_true_iff. exact (xlt_xle _ _ Hlt). }
      constructor; [constructor; assumption|].
      constructor; [exact Hxy|].
      rewrite Forall_forall in Hyrest, Hrest |- *. intros z Hz.
      exact (key_le_trans x y z Hx Hy (Hrest z Hz) Hxy (Hyrest z Hz)).
    + destruct (IH Hrest Hs) as (s & -> & Hperm & Hsorted).
      exists (y :: s). split; [reflexivity|].
      split; [rewrite Hperm; apply Permutation_swap|].
      constructor; [exact Hsorted|].
      rewrite Hperm. constructor; [|exact Hyrest].
      unfold key_le. rewrite (richcmp_numbers OpLt _ _ _ _ Hnx Hny), Hlt.
      reflexivity.
Qed.

Lemma sort_pairs_spec (todo sorted : list (json * json)) :
  Forall (fun p => ordered_number p.1) sorted ->
  Forall (fun p => ordered_number p.1) todo ->
  StronglySorted key_le sorted ->
  exists s, sort_pairs sorted todo = Ok s /\ s ≡ₚ sorted ++ todo /\
            StronglySorted key_le s.
Proof.
  revert sorted. induction todo as [|x rest IH]; intros sorted Hsorted Htodo Hs.
  - exists sorted. split; [reflexivity|]. rewrite app_nil_r.
    split; [reflexivity | exact Hs].
  - apply Forall_cons in Htodo as [Hx Hrest]. simpl sort_pairs.
    destruct (sort_insert_spec x sorted Hx Hsorted Hs) as (s1 & -> & Hp1 & Hs1).
    rewrite bind_ok.
    assert (Hall1 : Forall (fun p => ordered_number p.1) s1).
    { rewrite Hp1. constructor; assumption. }
    destruct (IH s1 Hall1 Hrest Hs1) as (s & -> & Hp & Hss).
    exists s. split; [reflexivity|]. split; [|exact Hss].
    rewrite Hp, Hp1. simpl. apply Permutation_middle.
Qed.

Lemma keyed_forecasts (l : list json) :
  Forall timed l ->
  mapM (fun x => k ← py_get x "time_to_full_min" (JInt 9999); Ok (k, x)) l
  = Ok ((fun x => (time_of x, x)) <$> l).
Proof.
  induction l as [|x l IH]; intros Hl; [reflexivity|].
  apply Forall_cons in Hl as [[[d ->] _] Hl].
  rewrite fmap_cons. cbn [mapM]. rewrite (IH Hl). reflexivity.
Qed.

Lemma sorted_by_time (s : list (json * json)) :
  Forall (fun p => p.1 = time_of p.2) s ->
  StronglySorted key_le s -> StronglySorted not_later (s.*2).
Proof.
  induction s as [|p s IH]; intros Hk Hs; [constructor|].
  apply Forall_cons in Hk as [Hp Hk].
  apply StronglySorted_inv in Hs as [Hs Hps].
  rewrite fmap_cons. constructor; [exact (IH Hk Hs)|].
  rewrite Forall_fmap, Forall_forall. rewrite Forall_forall in Hps, Hk.
  intros q Hq. unfold not_later. simpl.
  rewrite <- Hp, <- (Hk q Hq). exact (Hps q Hq).
Qed.

(** X16: on forecast records whose times are numbers other than NaN, the
    sort of the chat handler succeeds and gives the same records in an
    order in which no record has a time below that of a record before
    it. *)
Theorem sort_forecasts_spec (l : list json) :
  Forall timed l ->
  exists s, sort_forecasts (JList l) = Ok s /\ s ≡ₚ l /\
            StronglySorted not_later s.
Proof.
  intros Hl. unfold sort_forecasts. rewrite (keyed_forecasts l Hl), bind_ok.
  assert (Hkeys : Forall (fun p : json * json => ordered_number p.1)
                         ((fun x => (time_of x, x)) <$> l)).
  { rewrite Forall_fmap. eapply Forall_impl; [exact Hl|].
    intros x [_ Hx]. exact Hx. }
  destruct (sort_pairs_spec _ [] (Forall_nil_2 _) Hkeys (SSorted_nil _))
    as (s & -> & Hperm & Hs).
  rewrite bind_ok. exists (s.*2). split; [reflexivity|].
  simpl in Hperm. split.
  - rewrite Hperm, <- list_fmap_compose. simpl.
    rewrite list_fmap_id. reflexivity.
  - apply sorted_by_time; [|exact Hs].
    rewrite Hperm, Forall_fmap. apply Forall_true. intros x. reflexivity.
Qed.

Lemma sort_forecasts_spec_witness :
  exists s, sort_forecasts (JList demo_forecasts) = Ok s /\
            s ≡ₚ demo_forecasts /\ StronglySorted not_later s.
Proof.
  apply (sort_forecasts_spec demo_forecasts).
  repeat constructor; first [eexists; reflexivity | vm_compute; discriminate].
Defined.

(** *** The chat handler around its tools *)

Section ChatTools.
Context `{Text}.

Lemma local_reply_completion `{Formatter} (env : chat_env)
    (f : json -> string -> completion) (fsd : static_data) (m : string) :
  local_reply (with_completion env f) fsd m = local_reply env fsd m.
Proof. unfold local_reply. destruct (route m); reflexivity. Qed.

Lemma refine_reply_same_text (env : chat_env) (f1 f2 : json -> string -> completion)
    (key : json) (m : string) (local : json) (plan : list string) :
  (forall k p, same_text (f1 k p) (f2 k p)) ->
  refine_reply (with_completion env f1) key false m local plan
  = refine_reply (with_completion env f2) key false m local plan.
Proof.
  intros Hsame. unfold refine_reply. simpl.
  destruct (has_nemotron env); [|reflexivity]. simpl.
  destruct (truthy key); [|reflexivity]. simpl.
  destruct (Hsame key (prompt_of plan m)) as [-> ->].
  destruct (failure (f2 key (prompt_of plan m))); [reflexivity|].
  destruct (Str.nonempty _); [|reflexivity].
  destruct (reasoning_parts (chunks (f1 _ _))), (reasoning_parts (chunks (f2 _ _)));
    reflexivity.
Qed.

End ChatTools.

Section ChatExtras.

Context `{Text} `{Formatter}.

(** X17: a chat turn routed to the forecast intent raises when the inner
    live-levels call did not answer 200: the forecast tool then hands back
    an error object, on which the handler calls [sort]. *)
Theorem chat_forecast_raises (env : chat_env) (fsd : static_data) (r : jobj)
    (message msg : string) :
  r !! "message" = Some (JStr message) ->
  route message = Forecast ->
  levels_failed (get_cauldron_levels fsd (data_upstream env)) msg ->
  handle_agent_chat env fsd (JDict r) = Raise sort_error /\
  http_status (handle_agent_chat env fsd (JDict r)) = 500.
Proof.
  intros Hm Hroute Hfail.
  assert (Hr : handle_agent_chat env fsd (JDict r) = Raise sort_error).
  { unfold handle_agent_chat. simpl py_get. rewrite !bind_ok, Hm. simpl default.
    cbv beta iota. unfold local_reply. rewrite Hroute. unfold forecast_reply.
    rewrite (forecast_fill_times_failed fsd _ msg Hfail). reflexivity. }
  rewrite Hr. split; reflexivity.
Qed.

(** X18: unless the request's [debug] is truthy or NV_SHOW_REASONING is
    set to a non-empty text, the reasoning fragments of the stream do not
    reach the response: two completion services that fail alike and stream
    the same text give the same response. *)
Theorem reasoning_hidden (env : chat_env) (fsd : static_data) (r : jobj)
    (f1 f2 : json -> string -> completion) :
  truthy (default JNull (r !! "debug")) = false ->
  truthy (environ_get (env_show_reasoning env)) = false ->
  (forall key prompt, same_text (f1 key prompt) (f2 key prompt)) ->
  handle_agent_chat (with_completion env f1) fsd (JDict r)
  = handle_agent_chat (with_completion env f2) fsd (JDict r).
Proof.
  intros Hdebug Henv Hsame.
  unfold handle_agent_chat. simpl py_get. rewrite !bind_ok.
  destruct (default JNull (r !! "message")) as [| | | |message| |]; try reflexivity.
  rewrite !local_reply_completion.
  destruct (local_reply env fsd message) as [[local plan]|e]; [|reflexivity].
  rewrite !bind_ok. simpl env_nv_api_key. simpl env_show_reasoning.
  rewrite Hdebug, Henv. simpl orb at 2 4.
  destruct (_ || _); [|reflexivity].
  rewrite (refine_reply_same_text env f1 f2 _ message local plan Hsame).
  reflexivity.
Qed.

End ChatExtras.

Lemma chat_forecast_raises_witness :
  @handle_agent_chat ascii_text ellipsis_formatter offline_env demo_catalog
    (JDict forecast_request) = Raise sort_error /\
  http_status (@handle_agent_chat ascii_text ellipsis_formatter offline_env demo_catalog
                 (JDict forecast_request)) = 500.
Proof.
  apply (@chat_forecast_raises ascii_text ellipsis_formatter offline_env demo_catalog
           forecast_request "When will it be FULL?"
           "'tuple' object has no attribute 'status_code'").
  - reflexivity.
  - reflexivity.
  - left. eexists _, _. split; reflexivity.
Defined.

Lemma reasoning_hidden_witness :
  @handle_agent_chat ascii_text ellipsis_formatter
    (with_completion demo_env (fun _ _ => stream_of (Some "private") "Hi"))
    demo_catalog (JDict demo_request)
  = @handle_agent_chat ascii_text ellipsis_formatter
      (with_completion demo_env (fun _ _ => stream_of None "Hi"))
      demo_catalog (JDict demo_request).
Proof.
  apply (@reasoning_hidden ascii_text ellipsis_formatter demo_env demo_catalog demo_request).
  - reflexivity.
  - reflexivity.
  - intros key prompt. split; reflexivity.
Defined.

(** *** The catalog loader *)

Lemma assign_all_records (draw : nat -> spec_float * spec_float) (ds : list jobj) :
  forall i : nat,
  exists loaded,
    assign_all draw i (JDict <$> ds) = Ok (JDict <$> loaded) /\
    length loaded = length ds /\
    forall (j : nat) (d : jobj), ds !! j = Some d ->
      exists d', loaded !! j = Some d' /\ rated draw (i + j) d d'.
Proof.
  induction ds as [|d ds IH]; intros i.
  - exists []. split; [reflexivity|]. split; [reflexivity|].
    intros j d Hj. rewrite lookup_nil in Hj. discriminate Hj.
  - destruct (IH (S i)) as (rest & Hrest & Hlen & Hall).
    eexists (_ :: rest). rewrite fmap_cons. cbn [assign_all assign_rates].
    rewrite bind_ok, Hrest, bind_ok. split; [reflexivity|].
    split; [simpl; rewrite Hlen; reflexivity|].
    intros [|j] d0 Hj; simpl in Hj.
    + injection Hj as <-. eexists. split; [reflexivity|].
      rewrite Nat.add_0_r. split; [|split].
      * rewrite lookup_insert_ne by discriminate. apply lookup_insert_eq.
      * apply lookup_insert_eq.
      * intros k Hk1 Hk2. rewrite !lookup_insert_ne by congruence. reflexivity.
    + destruct (Hall j d0 Hj) as (d' & Hd' & Hr).
      exists d'. split; [exact Hd'|].
      replace (i + S j)%nat with (S i + j)%nat by lia. exact Hr.
Qed.

Lemma assign_all_not_record (draw : nat -> spec_float * spec_float) (cs : list json) :
  forall i : nat,
  Exists (fun c => is_record c = false) cs ->
  exists e, assign_all draw i cs = Raise e.
Proof.
  induction cs as [|c cs IH]; intros i Hex.
  - apply Exists_nil in Hex. destruct Hex.
  - apply Exists_cons in Hex. simpl.
    destruct c as [| | | | | |d];
      try (eexists; reflexivity).
    destruct Hex as [Hc|Hex]; [discriminate Hc|].
    destruct (IH (S i) Hex) as (e & ->). eexists. reflexivity.
Qed.

(** X19: when the four start-up calls answer with JSON and the cauldron
    answer is a list of records, the loader returns the catalog with the
    other three answers as they came and one record per fetched record, in
    the same order, each with the two rates set to the draws rounded to two
    places and every other field unchanged; when the list holds an element
    that is no record the loader returns nothing. *)
Theorem loader_spec (cu nu mu ku : upstream)
    (draw : nat -> spec_float * spec_float) (cs : list json) (nw mk co : json) :
  fetch_json cu = Ok (JList cs) -> fetch_json nu = Ok nw ->
  fetch_json mu = Ok mk -> fetch_json ku = Ok co ->
  (forall ds, cs = JDict <$> ds ->
     exists loaded,
       load_static_factory_data cu nu mu ku draw
       = Some {| cauldrons := JDict <$> loaded; network := nw;
                 market := mk; couriers := co |} /\
       length loaded = length ds /\
       forall (j : nat) (d : jobj), ds !! j = Some d ->
         exists d', loaded !! j = Some d' /\ rated draw j d d') /\
  (Exists (fun c => is_record c = false) cs ->
   load_static_factory_data cu nu mu ku draw = None).
Proof.
  intros Hc Hn Hm Hk. unfold load_static_factory_data.
  rewrite Hc, Hn, Hm, Hk, !bind_ok. simpl py_iter. rewrite bind_ok. split.
  - intros ds ->.
    destruct (assign_all_records draw ds 0) as (loaded & -> & Hlen & Hall).
    exists loaded. split; [reflexivity|]. split; [exact Hlen | exact Hall].
  - intros Hex. destruct (assign_all_not_record draw cs 0 Hex) as (e & ->).
    reflexivity.
Qed.

(** A failed start-up call leaves no catalog, whichever call it is and
    whatever the others answer. *)
Lemma loader_needs_every_call (cu nu mu ku : upstream)
    (draw : nat -> spec_float * spec_float) :
  (exists e, fetch_json cu = Raise e) \/ (exists e, fetch_json nu = Raise e) \/
  (exists e, fetch_json mu = Raise e) \/ (exists e, fetch_json ku = Raise e) ->
  load_static_factory_data cu nu mu ku draw = None.
Proof.
  unfold load_static_factory_data.
  intros [[e ->]|[[e He]|[[e He]|[e He]]]]; [reflexivity|..];
    destruct (fetch_json cu); try reflexivity; simpl;
    [rewrite He; reflexivity|..];
    destruct (fetch_json nu); try reflexivity; simpl;
    [rewrite He; reflexivity|];
    destruct (fetch_json mu); try reflexivity; simpl;
    rewrite He; reflexivity.
Qed.

Lemma loader_spec_witness :
  load_static_factory_data (Reply 200 (Some (JList [JInt 1])))
    (Reply 200 (Some JNull)) (Reply 200 (Some JNull)) (Reply 200 (Some JNull))
    demo_draw = None /\
  exists loaded,
    load_static_factory_data (Reply 200 (Some (JList [JDict azure_vat])))
      (Reply 200 (Some JNull)) (Reply 200 (Some JNull)) (Reply 200 (Some JNull))
      demo_draw
    = Some {| cauldrons := JDict <$> loaded; network := JNull;
              market := JNull; couriers := JNull |} /\
    length loaded = 1%nat.
Proof.
  split.
  - apply (proj2 (loader_spec (Reply 200 (Some (JList [JInt 1])))
                    (Reply 200 (Some JNull)) (Reply 200 (Some JNull))
                    (Reply 200 (Some JNull)) demo_draw [JInt 1] JNull JNull JNull
                    eq_refl eq_refl eq_refl eq_refl)).
    apply Exists_cons. left. reflexivity.
  - destruct (proj1 (loader_spec (Reply 200 (Some (JList [JDict azure_vat])))
                       (Reply 200 (Some JNull)) (Reply 200 (Some JNull))
                       (Reply 200 (Some JNull)) demo_draw [JDict azure_vat]
                       JNull JNull JNull eq_refl eq_refl eq_refl eq_refl)
                [azure_vat] eq_refl) as (loaded & Hload & Hlen & _).
    exists loaded. split; [exact Hload | exact Hlen].
Defined.

(** *** The optimize intent *)

Section OptimizeProperties.

Context `{Formatter}.

(** X20: the optimize reply is composed exactly when the network and the
    courier answers have a length and the market answer is a record; of the
    network answer nothing else is used: another answer with a length gives
    the same reply. *)
Theorem optimize_reply_spec (fsd : static_data) :
  ((exists r, optimize_reply fsd = Ok r)
   <-> sized (network fsd) = true /\ sized (couriers fsd) = true /\
       is_record (market fsd) = true) /\
  (forall nw, sized (network fsd) = true -> sized nw = true ->
              optimize_reply (with_network fsd nw) = optimize_reply fsd).
Proof.
  split.
  - unfold optimize_reply. split.
    + intros [r Hr].
      destruct (network fsd); simpl in Hr; try discriminate Hr;
        (destruct (couriers fsd); simpl in Hr; try discriminate Hr;
         (destruct (market fsd); simpl in Hr; try discriminate Hr;
          repeat split; reflexivity)).
    + intros (Hn & Hc & Hm).
      destruct (network fsd); try discriminate Hn;
        (destruct (couriers fsd); try discriminate Hc;
         (destruct (market fsd); try discriminate Hm;
          eexists; reflexivity)).
  - intros nw Hn Hnw. unfold optimize_reply. simpl.
    destruct (network fsd); try discriminate Hn;
      destruct nw; try discriminate Hnw; reflexivity.
Qed.

End OptimizeProperties.

(** *** The tickets the discrepancy check reads *)

Section TicketProperties.

Context `{Formatter}.

Lemma find_alerts_first_ticket (fsd : static_data) (t : json)
    (rest rest' : list json) (status status' : Z) :
  find_alerts fsd (Reply status (Some (JList (t :: rest))))
  = find_alerts fsd (Reply status' (Some (JList (t :: rest')))).
Proof. reflexivity. Qed.

(** X21: of a non-empty ticket list the discrepancy check reads the first
    ticket only: two lists with the same first ticket get the same answer,
    whatever the other tickets and the upstream status code are; and when
    the check finds alerts, they are two, the second being the fixed alert
    about cauldron_003. *)
Theorem first_ticket_only (fsd : static_data) (t : json)
    (rest rest' : list json) (status status' : Z) :
  check_discrepancies fsd (Reply status (Some (JList (t :: rest))))
  = check_discrepancies fsd (Reply status' (Some (JList (t :: rest')))) /\
  forall alerts,
    find_alerts fsd (Reply status (Some (JList (t :: rest)))) = Ok alerts ->
    exists a, alerts = [a; unlogged_drain_alert].
Proof.
  split.
  - unfold check_discrepancies.
    rewrite (find_alerts_first_ticket fsd t rest rest' status status').
    reflexivity.
  - intros alerts Hf. unfold find_alerts in Hf. simpl in Hf.
    repeat invert_bind Hf. injection Hf as <-. eexists. reflexivity.
Qed.

End TicketProperties.
